(** * pyg/screen.py: screens, view transforms and the primitive buffer

    A shallow embedding of [Screen], [Screen2D], [GraphScreen] and [Screen3D].

    Numbers are rationals ([Q]): Python's [/] is true division, and every
    statement below is about exact arithmetic.  A Python object is a record
    of its attributes; a method is a function in a state-and-exception
    monad, so that the object keeps the mutations made before an exception
    was raised, as in Python.  The dictionaries [_vertex_lists],
    [_vertices] and [_colors] are finite maps with string keys.

    In the records of the screens a list is a value: they describe a screen
    whose buffers and vectors are list objects of their own, as the
    constructor makes them.  The section on the buffers as list objects
    keeps the identity of a list, for the methods that grow a buffer in
    place. *)

From Stdlib Require Import QArith Qfield Lia Lqa.
From stdpp Require Import base option list strings gmap.

Local Open Scope Q_scope.

(** ** Exceptions and the method monad *)

Inductive exn : Set :=
  | ZeroDivisionError
  | KeyError
  | IndexError
  | AttributeError
  | NotImplementedError.

Inductive outcome (A : Type) : Type :=
  | Ok (a : A)
  | Raise (e : exn).
Arguments Ok {A} a.
Arguments Raise {A} e.

(** A method of an object of type [S] returning an [A]. *)
Definition M (S A : Type) : Type := S -> outcome A * S.

Definition ret {S A} (a : A) : M S A := fun s => (Ok a, s).
Definition raise {S A} (e : exn) : M S A := fun s => (Raise e, s).
Definition bind {S A B} (m : M S A) (k : A -> M S B) : M S B :=
  fun s => match m s with
           | (Ok a, s') => k a s'
           | (Raise e, s') => (Raise e, s')
           end.
Definition gets {S A} (f : S -> A) : M S A := fun s => (Ok (f s), s).
Definition modify {S} (f : S -> S) : M S unit := fun s => (Ok tt, f s).

(** Lifting a computation of an outcome that does not touch the object. *)
Definition lift {S A} (o : outcome A) : M S A := fun s => (o, s).

(** A method of a part of the object (a base-class method called on a
    subclass instance). *)
Definition on_part {S T A} (get : S -> T) (set : T -> S -> S) (m : M T A) : M S A :=
  fun s => let '(r, t) := m (get s) in (r, set t s).

Declare Scope method_scope.
Delimit Scope method_scope with method.
Notation "x <- m ;; k" := (bind m (fun x => k))
  (at level 100, m at next level, right associativity) : method_scope.
Notation "m ;;; k" := (bind m (fun _ => k))
  (at level 100, right associativity) : method_scope.
Local Open Scope method_scope.

(** [for x in xs: body(x)] *)
Fixpoint for_each {S A} (xs : list A) (body : A -> M S unit) : M S unit :=
  match xs with
  | [] => ret tt
  | x :: xs' => body x ;;; for_each xs' body
  end.

(** The final state and the outcome of a call. *)
Definition state_after {S A} (m : M S A) (s : S) : S := snd (m s).
Definition result_of {S A} (m : M S A) (s : S) : outcome A := fst (m s).

(** ** Arithmetic *)

(** [a / b]: raises [ZeroDivisionError] on a zero divisor. *)
Definition pdiv (a b : Q) : outcome Q :=
  if Qeq_bool b 0 then Raise ZeroDivisionError else Ok (a / b).

Definition div {S} (a b : Q) : M S Q := lift (pdiv a b).

(** [a < b] and [a > b] on numbers, as booleans. *)
Definition Qltb (a b : Q) : bool := negb (Qle_bool b a).

(** [seq * n] on a sequence. *)
Fixpoint repeat_seq {A} (l : list A) (n : nat) : list A :=
  match n with
  | O => []
  | S n' => l ++ repeat_seq l n'
  end.

(** ** The rendering backend

    [pyglet.graphics.Batch] is outside the repository.  The model keeps what
    the screens hand to it: [add] files a vertex list with its count, its
    primitive mode and the two data arrays under a fresh handle, and
    [delete] on a vertex list removes it from the batch. *)

Inductive gl_mode : Set :=
  | GL_POINTS
  | GL_LINES
  | GL_LINE_STRIP
  | GL_TRIANGLES
  | GL_QUADS.

Record VertexList : Type := mkVertexList {
  vl_count : nat;
  vl_mode : gl_mode;
  vl_v3f : list Q;
  vl_c3B : list Z
}.

Definition handle : Set := nat.

Record Batch : Type := mkBatch {
  next_handle : handle;
  lists : gmap nat VertexList
}.

Definition Batch_new : Batch := mkBatch O ∅.

Definition Batch_add (count : nat) (mode : gl_mode) (v3f : list Q) (c3B : list Z)
    (b : Batch) : handle * Batch :=
  (next_handle b,
   mkBatch (S (next_handle b))
           (<[next_handle b := mkVertexList count mode v3f c3B]> (lists b))).

Definition VertexList_delete (h : handle) (b : Batch) : Batch :=
  mkBatch (next_handle b) (delete h (lists b)).

(** ** Screen

    The attributes [parent] and [valset] refer to the owning window and are
    left out; the value object a [GraphScreen] reads is part of its own
    record.  A handle entry of [_vertex_lists] is [None] or a vertex list. *)

Record Screen : Type := mkScreen {
  x : Q;
  y : Q;
  w : Q;
  h : Q;
  visible : bool;
  active : bool;
  _batch : Batch;
  _vertex_lists : gmap string (option handle);
  _vertices : gmap string (list Q);
  _colors : gmap string (list Z);
  bg : list Z
}.

(** Attribute assignment [self.f = v]. *)
Definition with_x (v : Q) (s : Screen) : Screen :=
  mkScreen v (y s) (w s) (h s) (visible s) (active s) (_batch s) (_vertex_lists s) (_vertices s) (_colors s) (bg s).
Definition with_y (v : Q) (s : Screen) : Screen :=
  mkScreen (x s) v (w s) (h s) (visible s) (active s) (_batch s) (_vertex_lists s) (_vertices s) (_colors s) (bg s).
Definition with_w (v : Q) (s : Screen) : Screen :=
  mkScreen (x s) (y s) v (h s) (visible s) (active s) (_batch s) (_vertex_lists s) (_vertices s) (_colors s) (bg s).
Definition with_h (v : Q) (s : Screen) : Screen :=
  mkScreen (x s) (y s) (w s) v (visible s) (active s) (_batch s) (_vertex_lists s) (_vertices s) (_colors s) (bg s).
Definition with_visible (v : bool) (s : Screen) : Screen :=
  mkScreen (x s) (y s) (w s) (h s) v (active s) (_batch s) (_vertex_lists s) (_vertices s) (_colors s) (bg s).
Definition with_active (v : bool) (s : Screen) : Screen :=
  mkScreen (x s) (y s) (w s) (h s) (visible s) v (_batch s) (_vertex_lists s) (_vertices s) (_colors s) (bg s).
Definition with__batch (v : Batch) (s : Screen) : Screen :=
  mkScreen (x s) (y s) (w s) (h s) (visible s) (active s) v (_vertex_lists s) (_vertices s) (_colors s) (bg s).
Definition with__vertex_lists (v : gmap string (option handle)) (s : Screen) : Screen :=
  mkScreen (x s) (y s) (w s) (h s) (visible s) (active s) (_batch s) v (_vertices s) (_colors s) (bg s).
Definition with__vertices (v : gmap string (list Q)) (s : Screen) : Screen :=
  mkScreen (x s) (y s) (w s) (h s) (visible s) (active s) (_batch s) (_vertex_lists s) v (_colors s) (bg s).
Definition with__colors (v : gmap string (list Z)) (s : Screen) : Screen :=
  mkScreen (x s) (y s) (w s) (h s) (visible s) (active s) (_batch s) (_vertex_lists s) (_vertices s) v (bg s).
Definition with_bg (v : list Z) (s : Screen) : Screen :=
  mkScreen (x s) (y s) (w s) (h s) (visible s) (active s) (_batch s) (_vertex_lists s) (_vertices s) (_colors s) v.


Definition _vertex_types : list string :=
  ["points"; "lines"; "line_strip"; "triangles"; "quads"]%string.

(** *** Dictionary access

    [d[k]] and [del d[k]] raise [KeyError] on a missing key. *)

Definition getitem {S V} (d : S -> gmap string V) (k : string) : M S V :=
  fun s => match d s !! k with
           | Some v => (Ok v, s)
           | None => (Raise KeyError, s)
           end.

Definition delitem {S V} (d : S -> gmap string V) (upd : gmap string V -> S -> S)
    (k : string) : M S unit :=
  fun s => match d s !! k with
           | Some _ => (Ok tt, upd (delete k (d s)) s)
           | None => (Raise KeyError, s)
           end.

Definition setitem {S V} (d : S -> gmap string V) (upd : gmap string V -> S -> S)
    (k : string) (v : V) : M S unit :=
  modify (fun s => upd (<[k := v]> (d s)) s).

(** [self._batch.add(count, mode, None, ('v3f', v3f), ('c3B', c3B))] *)
Definition batch_add (count : nat) (mode : gl_mode) (v3f : list Q) (c3B : list Z)
    : M Screen handle :=
  fun s => let '(hd, b) := Batch_add count mode v3f c3B (_batch s) in
           (Ok hd, with__batch b s).

(** [vlist.delete()] on a held vertex list. *)
Definition vlist_delete (hd : handle) : M Screen unit :=
  modify (fun s => with__batch (VertexList_delete hd (_batch s)) s).

(** *** Base-class methods that call no overridable method *)

Definition Screen_set_active (a : bool) : M Screen unit :=
  modify (with_active a).

Definition set_points (vertexes : list Q) (colors : list Z) : M Screen unit :=
  setitem _vertices with__vertices "points" vertexes ;;;
  setitem _colors with__colors "points" colors.

Definition set_lines (vertexes : list Q) (colors : list Z) : M Screen unit :=
  setitem _vertices with__vertices "lines" vertexes ;;;
  setitem _colors with__colors "lines" colors.

Definition set_line_strip (vertexes : list Q) (colors : list Z) : M Screen unit :=
  setitem _vertices with__vertices "line_strip" vertexes ;;;
  setitem _colors with__colors "line_strip" colors.

Definition set_triangles (vertexes : list Q) (colors : list Z) : M Screen unit :=
  setitem _vertices with__vertices "triangles" vertexes ;;;
  setitem _colors with__colors "triangles" colors.

Definition set_quads (vertexes : list Q) (colors : list Z) : M Screen unit :=
  setitem _vertices with__vertices "quads" vertexes ;;;
  setitem _colors with__colors "quads" colors.

(** The abstract methods of the base class. *)
Definition Screen_set_bg (bg : list Z) : M Screen unit := raise NotImplementedError.
Definition Screen_add_points (points : list Q) (colors : list Z) : M Screen unit :=
  raise NotImplementedError.

(** [render] of the base class: [pass]. *)
Definition Screen_render {S} : M S unit := ret tt.

Definition _clear : M Screen unit :=
  for_each _vertex_types (fun vtype =>
    delitem _vertices with__vertices vtype ;;;
    delitem _colors with__colors vtype ;;;
    setitem _vertices with__vertices vtype [] ;;;
    setitem _colors with__colors vtype []).

(** The vertex list [flush] builds for one kind: the [if]/[elif] chain on
    [vtype], whose last branch is [vlist = None]. *)
Definition flush_add (vtype : string) : M Screen (option handle) :=
  let add mode :=
    vs <- getitem _vertices vtype ;;
    vs' <- getitem _vertices vtype ;;
    cs <- getitem _colors vtype ;;
    hd <- batch_add (length vs / 3) mode vs' cs ;;
    ret (Some hd) in
  if String.eqb vtype "points" then add GL_POINTS
  else if String.eqb vtype "lines" then add GL_LINES
  else if String.eqb vtype "line_strip" then add GL_LINE_STRIP
  else if String.eqb vtype "triangles" then add GL_TRIANGLES
  else if String.eqb vtype "quads" then add GL_QUADS
  else ret None.

(** One turn of the loop of [flush]; [continue] ends the turn. *)
Definition flush_vtype (vtype : string) : M Screen unit :=
  held <- getitem _vertex_lists vtype ;;
  (match held with
   | Some hd =>
       vlist_delete hd ;;;
       delitem _vertex_lists with__vertex_lists vtype
   | None => ret tt
   end) ;;;
  vis <- gets visible ;;
  if negb vis then ret tt
  else
    vlist <- flush_add vtype ;;
    setitem _vertex_lists with__vertex_lists vtype vlist.

Definition flush : M Screen unit :=
  for_each _vertex_types flush_vtype ;;;
  _clear.

(** The loop of [set_visible(False)] over [self._vertex_lists.keys()]. *)
Definition release_vtype (vtype : string) : M Screen unit :=
  held <- getitem _vertex_lists vtype ;;
  (match held with
   | Some hd => vlist_delete hd
   | None => ret tt
   end) ;;;
  setitem _vertex_lists with__vertex_lists vtype None.

Definition keys {V} (d : gmap string V) : list string := (map_to_list d).*1.

Definition release_all : M Screen unit :=
  ks <- gets (fun s => keys (_vertex_lists s)) ;;
  for_each ks release_vtype.

(** [0 <= x - self.x < self.w and 0 <= y - self.y < self.h] *)
Definition is_inside (px py : Q) (s : Screen) : bool :=
  Qle_bool 0 (px - x s) && Qltb (px - x s) (w s) &&
  Qle_bool 0 (py - y s) && Qltb (py - y s) (h s).

Definition set_pos (px py : Q) : M Screen unit :=
  modify (with_x px) ;;; modify (with_y py).

Definition set_size (width height : Q) : M Screen unit :=
  modify (with_w width) ;;; modify (with_h height).

(** [self.f = e]: the expression is evaluated first and may raise. *)
Definition assign {S V} (upd : V -> S -> S) (e : S -> outcome V) : M S unit :=
  fun s => match e s with
           | Ok v => (Ok tt, upd v s)
           | Raise ex => (Raise ex, s)
           end.

Definition omap {A B} (f : A -> B) (o : outcome A) : outcome B :=
  match o with
  | Ok a => Ok (f a)
  | Raise ex => Raise ex
  end.

(** [d[k].extend(xs)], for a buffer that is a list object of its own. *)
Definition extend {S V} (d : S -> gmap string (list V))
    (upd : gmap string (list V) -> S -> S) (k : string) (xs : list V) : M S unit :=
  l <- getitem d k ;;
  setitem d upd k (l ++ xs).

(** ** Screen2D *)

Definition Screen2D_set_bg (bg : list Z) : M Screen unit :=
  held <- getitem _vertex_lists "bg" ;;
  (match held with
   | Some hd => vlist_delete hd
   | None => ret tt
   end) ;;;
  sw <- gets w ;;
  sh <- gets h ;;
  vlist <- batch_add 4 GL_QUADS
             [0; 0; -(100); sw; 0; -(100); sw; sh; -(100); 0; sh; -(100)]
             (repeat_seq bg 4) ;;
  modify (with_bg bg) ;;;
  setitem _vertex_lists with__vertex_lists "bg" (Some vlist).

Definition Screen2D_add_points (points : list Q) (colors : list Z) : M Screen unit :=
  if negb (length points =? length colors)%nat
  then raise IndexError
  else
    extend _vertices with__vertices "points" points ;;;
    extend _colors with__colors "points" colors.

(** ** Screen3D *)

Record Screen3D : Type := mkScreen3D {
  base3 : Screen;
  camera : list Q;
  rotation : list Q;
  offset : list Q
}.

Definition with_base3 (v : Screen) (s : Screen3D) : Screen3D :=
  mkScreen3D v (camera s) (rotation s) (offset s).
Definition with_camera (v : list Q) (s : Screen3D) : Screen3D :=
  mkScreen3D (base3 s) v (rotation s) (offset s).
Definition with_rotation (v : list Q) (s : Screen3D) : Screen3D :=
  mkScreen3D (base3 s) (camera s) v (offset s).

Definition Screen3D_add_points (points : list Q) (colors : list Z) : M Screen unit :=
  extend _vertices with__vertices "points" points ;;;
  extend _colors with__colors "points" colors.

Definition Screen3D_set_bg (bg : list Z) : M Screen unit :=
  held <- getitem _vertex_lists "bg" ;;
  (match held with
   | Some hd => vlist_delete hd
   | None => ret tt
   end) ;;;
  let n := -(900) in
  let p := 900 in
  let points :=
    [n; n; n; p; n; n; p; p; n; n; p; n] ++
    [n; n; n; p; n; n; p; n; p; n; n; p] ++
    [p; n; n; p; p; n; p; p; p; p; n; p] ++
    [p; p; n; n; p; n; n; p; p; p; p; p] ++
    [n; p; n; n; n; n; n; n; p; n; p; p] ++
    [n; n; p; p; n; p; p; p; p; n; p; p] in
  vlist <- batch_add 24 GL_QUADS points (repeat_seq bg 24) ;;
  modify (with_bg bg) ;;;
  setitem _vertex_lists with__vertex_lists "bg" (Some vlist).

(** [v[i]] and [v[i] = q] on a vector: [IndexError] out of range. *)
Definition vec_get (v : list Q) (i : nat) : outcome Q :=
  match v !! i with
  | Some q => Ok q
  | None => Raise IndexError
  end.

Definition vec_set (v : list Q) (i : nat) (q : Q) : outcome (list Q) :=
  if (i <? length v)%nat then Ok (<[i := q]> v) else Raise IndexError.

(** [self.rotation[i] += d] *)
Definition rotation_add (i : nat) (d : Q) : M Screen3D unit :=
  assign with_rotation (fun s =>
    match vec_get (rotation s) i with
    | Ok q => vec_set (rotation s) i (q + d)
    | Raise ex => Raise ex
    end).

(** [self.camera[i] += d] *)
Definition camera_add (i : nat) (d : Q) : M Screen3D unit :=
  assign with_camera (fun s =>
    match vec_get (camera s) i with
    | Ok q => vec_set (camera s) i (q + d)
    | Raise ex => Raise ex
    end).

(** [if self.camera[i] > c: self.camera[i] = c] *)
Definition camera_cap_above (i : nat) (c : Q) : M Screen3D unit :=
  assign with_camera (fun s =>
    match vec_get (camera s) i with
    | Ok q => if Qltb c q then vec_set (camera s) i c else Ok (camera s)
    | Raise ex => Raise ex
    end).

(** [if self.camera[i] < c: self.camera[i] = c] *)
Definition camera_cap_below (i : nat) (c : Q) : M Screen3D unit :=
  assign with_camera (fun s =>
    match vec_get (camera s) i with
    | Ok q => if Qltb q c then vec_set (camera s) i c else Ok (camera s)
    | Raise ex => Raise ex
    end).

(** The key symbols of [pyglet.window.key] that the screens compare with;
    any other symbol is [KEY_other] with its code. *)
Inductive key : Set :=
  | KEY_LEFT | KEY_RIGHT | KEY_UP | KEY_DOWN
  | KEY_X | KEY_Z | KEY_S | KEY_A
  | KEY_J | KEY_L | KEY_I | KEY_K
  | KEY_other (code : Z).

Definition Screen3D_key_down (symbol : key) (modifiers : Z) : M Screen3D unit :=
  match symbol with
  | KEY_LEFT => rotation_add 2 5
  | KEY_RIGHT => rotation_add 2 (-(5))
  | KEY_UP => rotation_add 0 5
  | KEY_DOWN => rotation_add 0 (-(5))
  | KEY_X => rotation_add 1 (-(5))
  | KEY_Z => rotation_add 1 5
  | KEY_S => camera_add 2 10 ;;; camera_cap_above 2 400
  | KEY_A => camera_add 2 (-(10)) ;;; camera_cap_below 2 (-(400))
  | KEY_J => camera_add 0 2
  | KEY_L => camera_add 0 (-(2))
  | KEY_I => camera_add 1 (-(2))
  | KEY_K => camera_add 1 2
  | KEY_other _ => ret tt
  end.

(** ** Methods of the base class that call overridable methods

    [set_bg] and [render] are dispatched on the class of the object: the
    section takes them, and the place of the [Screen] attributes in the
    object, as variables. *)

Section Overridable.
Context {O : Type}.
Variable screen_of : O -> Screen.
Variable with_screen : Screen -> O -> O.
Variable set_bg : list Z -> M O unit.
Variable render : M O unit.

Definition on_screen_part {A} (m : M Screen A) : M O A :=
  on_part screen_of with_screen m.

Definition Screen_set_visible (visible : bool) : M O unit :=
  on_screen_part (modify (with_visible visible)) ;;;
  if visible then
    render ;;;
    b <- gets (fun o => bg (screen_of o)) ;;
    set_bg b
  else
    on_screen_part release_all.

Definition Screen_on : M O unit :=
  on_screen_part (Screen_set_active true) ;;;
  Screen_set_visible true.

Definition Screen_off : M O unit :=
  on_screen_part (Screen_set_active false) ;;;
  Screen_set_visible false.

Definition Screen_on_resize (resize : Q -> Q -> M O unit) (width height : Q)
    : M O unit :=
  resize width height ;;;
  b <- gets (fun o => bg (screen_of o)) ;;
  set_bg b.
End Overridable.

(** The attributes [Screen.__init__] assigns before it calls [set_bg]. *)
Definition Screen_new (px py width height : Q) (bg : list Z) (visible active : bool)
    : Screen :=
  mkScreen px py width height visible active Batch_new
    (<["quads" := None]> (<["triangles" := None]> (<["line_strip" := None]>
      (<["lines" := None]> (<["points" := None]> (<["bg" := None]> ∅))))))
    (<["quads" := []]> (<["triangles" := []]> (<["line_strip" := []]>
      (<["lines" := []]> (<["points" := []]> ∅)))))
    (<["quads" := []]> (<["triangles" := []]> (<["line_strip" := []]>
      (<["lines" := []]> (<["points" := []]> ∅)))))
    bg.

Definition Screen2D_init (px py width height : Q) (bg : list Z) (visible active : bool)
    : outcome unit * Screen :=
  Screen2D_set_bg bg (Screen_new px py width height bg visible active).

Definition Screen3D_init (px py width height : Q) (cam rot offs : list Q)
    (bg : list Z) (visible active : bool) : outcome unit * Screen3D :=
  on_part base3 with_base3 (Screen3D_set_bg bg)
    (mkScreen3D (Screen_new px py width height bg visible active) cam rot offs).

(** ** GraphScreen

    [zoom_valobj] holds the current [value] of the value object the screen
    was given.  [mdownx] and [mdowny] are attributes that [__init__] does not
    assign: [None] is the absent attribute. *)

Record GraphScreen : Type := mkGraphScreen {
  base : Screen;
  gx : Q;
  gy : Q;
  gw : Q;
  gh : Q;
  min_gx : Q;
  max_gx : Q;
  min_gy : Q;
  max_gy : Q;
  _ogx : Q;
  _ogy : Q;
  _ogw : Q;
  _ogh : Q;
  _ow : Q;
  _oh : Q;
  zoom_valobj : Q;
  total_zoom : Q;
  drag : bool;
  offsx : Q;
  offsy : Q;
  mdownx : option Q;
  mdowny : option Q
}.

Definition with_base (v : Screen) (s : GraphScreen) : GraphScreen :=
  mkGraphScreen v (gx s) (gy s) (gw s) (gh s) (min_gx s) (max_gx s) (min_gy s) (max_gy s) (_ogx s) (_ogy s) (_ogw s) (_ogh s) (_ow s) (_oh s) (zoom_valobj s) (total_zoom s) (drag s) (offsx s) (offsy s) (mdownx s) (mdowny s).
Definition with_gx (v : Q) (s : GraphScreen) : GraphScreen :=
  mkGraphScreen (base s) v (gy s) (gw s) (gh s) (min_gx s) (max_gx s) (min_gy s) (max_gy s) (_ogx s) (_ogy s) (_ogw s) (_ogh s) (_ow s) (_oh s) (zoom_valobj s) (total_zoom s) (drag s) (offsx s) (offsy s) (mdownx s) (mdowny s).
Definition with_gy (v : Q) (s : GraphScreen) : GraphScreen :=
  mkGraphScreen (base s) (gx s) v (gw s) (gh s) (min_gx s) (max_gx s) (min_gy s) (max_gy s) (_ogx s) (_ogy s) (_ogw s) (_ogh s) (_ow s) (_oh s) (zoom_valobj s) (total_zoom s) (drag s) (offsx s) (offsy s) (mdownx s) (mdowny s).
Definition with_gw (v : Q) (s : GraphScreen) : GraphScreen :=
  mkGraphScreen (base s) (gx s) (gy s) v (gh s) (min_gx s) (max_gx s) (min_gy s) (max_gy s) (_ogx s) (_ogy s) (_ogw s) (_ogh s) (_ow s) (_oh s) (zoom_valobj s) (total_zoom s) (drag s) (offsx s) (offsy s) (mdownx s) (mdowny s).
Definition with_gh (v : Q) (s : GraphScreen) : GraphScreen :=
  mkGraphScreen (base s) (gx s) (gy s) (gw s) v (min_gx s) (max_gx s) (min_gy s) (max_gy s) (_ogx s) (_ogy s) (_ogw s) (_ogh s) (_ow s) (_oh s) (zoom_valobj s) (total_zoom s) (drag s) (offsx s) (offsy s) (mdownx s) (mdowny s).
Definition with_min_gx (v : Q) (s : GraphScreen) : GraphScreen :=
  mkGraphScreen (base s) (gx s) (gy s) (gw s) (gh s) v (max_gx s) (min_gy s) (max_gy s) (_ogx s) (_ogy s) (_ogw s) (_ogh s) (_ow s) (_oh s) (zoom_valobj s) (total_zoom s) (drag s) (offsx s) (offsy s) (mdownx s) (mdowny s).
Definition with_max_gx (v : Q) (s : GraphScreen) : GraphScreen :=
  mkGraphScreen (base s) (gx s) (gy s) (gw s) (gh s) (min_gx s) v (min_gy s) (max_gy s) (_ogx s) (_ogy s) (_ogw s) (_ogh s) (_ow s) (_oh s) (zoom_valobj s) (total_zoom s) (drag s) (offsx s) (offsy s) (mdownx s) (mdowny s).
Definition with_min_gy (v : Q) (s : GraphScreen) : GraphScreen :=
  mkGraphScreen (base s) (gx s) (gy s) (gw s) (gh s) (min_gx s) (max_gx s) v (max_gy s) (_ogx s) (_ogy s) (_ogw s) (_ogh s) (_ow s) (_oh s) (zoom_valobj s) (total_zoom s) (drag s) (offsx s) (offsy s) (mdownx s) (mdowny s).
Definition with_max_gy (v : Q) (s : GraphScreen) : GraphScreen :=
  mkGraphScreen (base s) (gx s) (gy s) (gw s) (gh s) (min_gx s) (max_gx s) (min_gy s) v (_ogx s) (_ogy s) (_ogw s) (_ogh s) (_ow s) (_oh s) (zoom_valobj s) (total_zoom s) (drag s) (offsx s) (offsy s) (mdownx s) (mdowny s).
Definition with__ogx (v : Q) (s : GraphScreen) : GraphScreen :=
  mkGraphScreen (base s) (gx s) (gy s) (gw s) (gh s) (min_gx s) (max_gx s) (min_gy s) (max_gy s) v (_ogy s) (_ogw s) (_ogh s) (_ow s) (_oh s) (zoom_valobj s) (total_zoom s) (drag s) (offsx s) (offsy s) (mdownx s) (mdowny s).
Definition with__ogy (v : Q) (s : GraphScreen) : GraphScreen :=
  mkGraphScreen (base s) (gx s) (gy s) (gw s) (gh s) (min_gx s) (max_gx s) (min_gy s) (max_gy s) (_ogx s) v (_ogw s) (_ogh s) (_ow s) (_oh s) (zoom_valobj s) (total_zoom s) (drag s) (offsx s) (offsy s) (mdownx s) (mdowny s).
Definition with__ogw (v : Q) (s : GraphScreen) : GraphScreen :=
  mkGraphScreen (base s) (gx s) (gy s) (gw s) (gh s) (min_gx s) (max_gx s) (min_gy s) (max_gy s) (_ogx s) (_ogy s) v (_ogh s) (_ow s) (_oh s) (zoom_valobj s) (total_zoom s) (drag s) (offsx s) (offsy s) (mdownx s) (mdowny s).
Definition with__ogh (v : Q) (s : GraphScreen) : GraphScreen :=
  mkGraphScreen (base s) (gx s) (gy s) (gw s) (gh s) (min_gx s) (max_gx s) (min_gy s) (max_gy s) (_ogx s) (_ogy s) (_ogw s) v (_ow s) (_oh s) (zoom_valobj s) (total_zoom s) (drag s) (offsx s) (offsy s) (mdownx s) (mdowny s).
Definition with_total_zoom (v : Q) (s : GraphScreen) : GraphScreen :=
  mkGraphScreen (base s) (gx s) (gy s) (gw s) (gh s) (min_gx s) (max_gx s) (min_gy s) (max_gy s) (_ogx s) (_ogy s) (_ogw s) (_ogh s) (_ow s) (_oh s) (zoom_valobj s) v (drag s) (offsx s) (offsy s) (mdownx s) (mdowny s).
Definition with_drag (v : bool) (s : GraphScreen) : GraphScreen :=
  mkGraphScreen (base s) (gx s) (gy s) (gw s) (gh s) (min_gx s) (max_gx s) (min_gy s) (max_gy s) (_ogx s) (_ogy s) (_ogw s) (_ogh s) (_ow s) (_oh s) (zoom_valobj s) (total_zoom s) v (offsx s) (offsy s) (mdownx s) (mdowny s).
Definition with_offsx (v : Q) (s : GraphScreen) : GraphScreen :=
  mkGraphScreen (base s) (gx s) (gy s) (gw s) (gh s) (min_gx s) (max_gx s) (min_gy s) (max_gy s) (_ogx s) (_ogy s) (_ogw s) (_ogh s) (_ow s) (_oh s) (zoom_valobj s) (total_zoom s) (drag s) v (offsy s) (mdownx s) (mdowny s).
Definition with_offsy (v : Q) (s : GraphScreen) : GraphScreen :=
  mkGraphScreen (base s) (gx s) (gy s) (gw s) (gh s) (min_gx s) (max_gx s) (min_gy s) (max_gy s) (_ogx s) (_ogy s) (_ogw s) (_ogh s) (_ow s) (_oh s) (zoom_valobj s) (total_zoom s) (drag s) (offsx s) v (mdownx s) (mdowny s).
Definition with_mdownx (v : option Q) (s : GraphScreen) : GraphScreen :=
  mkGraphScreen (base s) (gx s) (gy s) (gw s) (gh s) (min_gx s) (max_gx s) (min_gy s) (max_gy s) (_ogx s) (_ogy s) (_ogw s) (_ogh s) (_ow s) (_oh s) (zoom_valobj s) (total_zoom s) (drag s) (offsx s) (offsy s) v (mdowny s).
Definition with_mdowny (v : option Q) (s : GraphScreen) : GraphScreen :=
  mkGraphScreen (base s) (gx s) (gy s) (gw s) (gh s) (min_gx s) (max_gx s) (min_gy s) (max_gy s) (_ogx s) (_ogy s) (_ogw s) (_ogh s) (_ow s) (_oh s) (zoom_valobj s) (total_zoom s) (drag s) (offsx s) (offsy s) (mdownx s) v.


(** Reading an attribute that may be absent. *)
Definition getattr {S V} (f : S -> option V) : M S V :=
  fun s => match f s with
           | Some v => (Ok v, s)
           | None => (Raise AttributeError, s)
           end.

Definition on_base {A} (m : M Screen A) : M GraphScreen A :=
  on_part base with_base m.

Inductive button : Set :=
  | MOUSE_LEFT
  | MOUSE_MIDDLE
  | MOUSE_RIGHT
  | MOUSE_other (code : Z).

Definition _set_graph_minmax : M GraphScreen unit :=
  modify (fun s => with_min_gx (gx s - gw s / 2) s) ;;;
  modify (fun s => with_max_gx (gx s + gw s / 2) s) ;;;
  modify (fun s => with_min_gy (gy s - gh s / 2) s) ;;;
  modify (fun s => with_max_gy (gy s + gh s / 2) s).

Definition reset_graph : M GraphScreen unit :=
  modify (fun s => with_gx (_ogx s) s) ;;;
  modify (fun s => with_gy (_ogy s) s) ;;;
  assign with_gw (fun s => omap (fun r => _ogw s * r) (pdiv (w (base s)) (_ow s))) ;;;
  assign with_gh (fun s => omap (fun r => _ogh s * r) (pdiv (h (base s)) (_oh s))) ;;;
  _set_graph_minmax ;;;
  modify (with_total_zoom 1).

Definition reset_to (ngx ngy ngw ngh : Q) : M GraphScreen unit :=
  modify (with__ogx ngx) ;;;
  modify (with__ogy ngy) ;;;
  modify (with__ogw ngw) ;;;
  modify (with__ogh ngh).

Definition set_graph_coords (ngx ngy ngw ngh : Q) : M GraphScreen unit :=
  modify (with_gx ngx) ;;;
  modify (with_gy ngy) ;;;
  modify (with_gw ngw) ;;;
  modify (with_gh ngh).

Definition refit (width height : Q) : M GraphScreen unit :=
  assign with_gw (fun s => omap (fun r => gw s * r) (pdiv width (w (base s)))) ;;;
  assign with_gh (fun s => omap (fun r => gh s * r) (pdiv height (h (base s)))) ;;;
  _set_graph_minmax ;;;
  on_base (modify (with_w width)) ;;;
  on_base (modify (with_h height)).

Definition resize (width height : Q) : M GraphScreen unit :=
  refit width width.

Definition GraphScreen_set_bg (bg : list Z) : M GraphScreen unit :=
  held <- on_base (getitem _vertex_lists "bg") ;;
  (match held with
   | Some hd => on_base (vlist_delete hd)
   | None => ret tt
   end) ;;;
  s <- gets id ;;
  vlist <- on_base (batch_add 4 GL_QUADS
             [min_gx s; min_gy s; -(100); max_gx s; min_gy s; -(100);
              max_gx s; max_gy s; -(100); min_gx s; max_gy s; -(100)]
             (repeat_seq bg 4)) ;;
  on_base (modify (with_bg bg)) ;;;
  on_base (setitem _vertex_lists with__vertex_lists "bg" (Some vlist)).

(** [(x - gx + gw / 2) * w / gw, (y - gy + gh / 2) * h / gh] *)
Definition on_screen (px py : Q) (s : GraphScreen) : outcome (Q * Q) :=
  match pdiv ((px - gx s + gw s / 2) * w (base s)) (gw s) with
  | Ok sx =>
      match pdiv ((py - gy s + gh s / 2) * h (base s)) (gh s) with
      | Ok sy => Ok (sx, sy)
      | Raise ex => Raise ex
      end
  | Raise ex => Raise ex
  end.

(** [x * gw / w + gx - gw / 2, y * gh / h + gy - gh / 2] *)
Definition on_plot (px py : Q) (s : GraphScreen) : outcome (Q * Q) :=
  match pdiv (px * gw s) (w (base s)) with
  | Ok qx =>
      match pdiv (py * gh s) (h (base s)) with
      | Ok qy => Ok (qx + gx s - gw s / 2, qy + gy s - gh s / 2)
      | Raise ex => Raise ex
      end
  | Raise ex => Raise ex
  end.

Definition mouse_drag (px py dx dy : Q) (buttons modifiers : Z) : M GraphScreen unit :=
  d <- gets drag ;;
  if d then
    mx <- getattr mdownx ;;
    modify (with_offsx (px - mx)) ;;;
    my <- getattr mdowny ;;
    modify (with_offsy (py - my))
  else ret tt.

Definition mouse_down (px py : Q) (b : button) (modifier : Z) : M GraphScreen unit :=
  match b with
  | MOUSE_MIDDLE =>
      modify (with_drag true) ;;;
      modify (with_mdownx (Some px)) ;;;
      modify (with_mdowny (Some py))
  | _ => ret tt
  end.

Section GraphScreenHooks.
(** The float power [zoom ** .5] and the [render] of the subclass. *)
Variable pow_half : Q -> Q.
Variable render : M GraphScreen unit.

Definition set_graph_view (ngx ngy zoom : Q) : M GraphScreen unit :=
  modify (with_gx ngx) ;;;
  modify (with_gy ngy) ;;;
  modify (with_total_zoom zoom) ;;;
  let sqrt_z := pow_half zoom in
  assign with_gw (fun s => pdiv (_ogw s) sqrt_z) ;;;
  assign with_gh (fun s => pdiv (gw s * h (base s)) (w (base s))).

(** [self.set_bg(self.bg); self.render()] *)
Definition redraw : M GraphScreen unit :=
  b <- gets (fun s => bg (base s)) ;;
  GraphScreen_set_bg b ;;;
  render.

Definition reset_screen : M GraphScreen unit :=
  reset_graph ;;; redraw.

Definition up : M GraphScreen unit :=
  modify (fun s => with_gy (gy s + gh s / 5) s) ;;;
  _set_graph_minmax ;;; redraw.

Definition down : M GraphScreen unit :=
  modify (fun s => with_gy (gy s - gh s / 5) s) ;;;
  _set_graph_minmax ;;; redraw.

Definition left : M GraphScreen unit :=
  modify (fun s => with_gx (gx s - gw s / 5) s) ;;;
  _set_graph_minmax ;;; redraw.

Definition right : M GraphScreen unit :=
  modify (fun s => with_gx (gx s + gw s / 5) s) ;;;
  _set_graph_minmax ;;; redraw.

(** The recentring both zoom branches of [mouse_up] start with. *)
Definition recentre (px py : Q) : M GraphScreen unit :=
  assign with_gx (fun s =>
    omap (fun q => gx s - gw s / 2 + q) (pdiv (px * gw s) (w (base s)))) ;;;
  assign with_gy (fun s =>
    omap (fun q => gy s - gh s / 2 + q) (pdiv (py * gh s) (h (base s)))).

Definition mouse_up (px py : Q) (b : button) (modifiers : Z) : M GraphScreen unit :=
  (match b with
   | MOUSE_LEFT =>
       recentre px py ;;;
       modify (fun s => with_gw (gw s * zoom_valobj s) s) ;;;
       modify (fun s => with_gh (gh s * zoom_valobj s) s) ;;;
       _set_graph_minmax ;;;
       assign with_total_zoom (fun s =>
         omap (fun q => total_zoom s * q ^ 2) (pdiv 1 (zoom_valobj s)))
   | MOUSE_RIGHT =>
       recentre px py ;;;
       assign with_gw (fun s => pdiv (gw s) (zoom_valobj s)) ;;;
       assign with_gh (fun s => pdiv (gh s) (zoom_valobj s)) ;;;
       _set_graph_minmax ;;;
       assign with_total_zoom (fun s =>
         match pdiv 1 (zoom_valobj s) with
         | Ok q => pdiv (total_zoom s) (q ^ 2)
         | Raise ex => Raise ex
         end)
   | MOUSE_MIDDLE =>
       modify (with_drag false) ;;;
       mx <- getattr mdownx ;;
       my <- getattr mdowny ;;
       p1 <- (fun s => (on_plot mx my s, s)) ;;
       p2 <- (fun s => (on_plot px py s, s)) ;;
       modify (fun s => with_gx (gx s - (fst p2 - fst p1)) s) ;;;
       modify (fun s => with_gy (gy s - (snd p2 - snd p1)) s) ;;;
       _set_graph_minmax ;;;
       modify (with_offsx 0) ;;;
       modify (with_offsy 0)
   | MOUSE_other _ => ret tt
   end) ;;;
  redraw.

Definition GraphScreen_key_down (symbol : key) (modifiers : Z) : M GraphScreen unit :=
  match symbol with
  | KEY_LEFT => left
  | KEY_RIGHT => right
  | KEY_UP => up
  | KEY_DOWN => down
  | _ => ret tt
  end.

Definition GraphScreen_set_visible (visible : bool) : M GraphScreen unit :=
  Screen_set_visible base with_base GraphScreen_set_bg render visible.
End GraphScreenHooks.

(** [GraphScreen.__init__]: the view and the reset view are assigned before
    the base constructor runs, whose [set_bg] reads the bounding box; the
    other attributes follow. *)
Definition GraphScreen_init (px py width height ngx ngy ngw ngh zoom_value : Q)
    (bg : list Z) (visible active : bool) : outcome unit * GraphScreen :=
  GraphScreen_set_bg bg
    (mkGraphScreen (Screen_new px py width height bg visible active)
       ngx ngy ngw ngh
       (ngx - ngw / 2) (ngx + ngw / 2) (ngy - ngh / 2) (ngy + ngh / 2)
       ngx ngy ngw ngh width height zoom_value 1 false 0 0 None None).

(** ** Events of a GraphScreen

    The window routes pointer and key events to the screen; a handler that
    raises leaves the screen as it was when the exception left it. *)

Inductive gs_event : Type :=
  | EvMouseDrag (px py dx dy : Q) (buttons modifiers : Z)
  | EvMouseDown (px py : Q) (b : button) (modifiers : Z)
  | EvMouseUp (px py : Q) (b : button) (modifiers : Z)
  | EvKeyDown (symbol : key) (modifiers : Z)
  | EvResize (width height : Q).

Definition handle_event (render : M GraphScreen unit) (e : gs_event)
    : M GraphScreen unit :=
  match e with
  | EvMouseDrag px py dx dy bs ms => mouse_drag px py dx dy bs ms
  | EvMouseDown px py b ms => mouse_down px py b ms
  | EvMouseUp px py b ms => mouse_up render px py b ms
  | EvKeyDown sym ms => GraphScreen_key_down render sym ms
  | EvResize width height =>
      Screen_on_resize base GraphScreen_set_bg resize width height
  end.

Fixpoint run_events (render : M GraphScreen unit) (es : list gs_event)
    (s : GraphScreen) : GraphScreen :=
  match es with
  | [] => s
  | e :: es' => run_events render es' (state_after (handle_event render e) s)
  end.

Definition is_middle_down (e : gs_event) : bool :=
  match e with
  | EvMouseDown _ _ MOUSE_MIDDLE _ => true
  | _ => false
  end.

(** ** Predicates of the statements *)

(** The bounding box is the one of the current centre and extent. *)
Definition box_fresh (s : GraphScreen) : Prop :=
  min_gx s == gx s - gw s / 2 /\ max_gx s == gx s + gw s / 2 /\
  min_gy s == gy s - gh s / 2 /\ max_gy s == gy s + gh s / 2.

Definition box_freshb (s : GraphScreen) : bool :=
  Qeq_bool (min_gx s) (gx s - gw s / 2) && Qeq_bool (max_gx s) (gx s + gw s / 2) &&
  Qeq_bool (min_gy s) (gy s - gh s / 2) && Qeq_bool (max_gy s) (gy s + gh s / 2).

(** The screen without what drawing changes: the batch, the handle
    entries and the two buffers. *)
Definition undrawn (s : GraphScreen) : GraphScreen :=
  with_base
    (with__batch Batch_new
       (with__vertex_lists ∅ (with__vertices ∅ (with__colors ∅ (base s))))) s.

(** A [render] that does what its docstring asks for, calls that add
    primitives and [flush], changes nothing else of the screen. *)
Definition draws_only (render : M GraphScreen unit) : Prop :=
  forall s, undrawn (state_after render s) = undrawn s.

Definition returns {S} (m : M S unit) : Prop :=
  forall s, result_of m s = Ok tt.

(** The operations that change the centre or the extent of the view. *)
Inductive view_op : Type :=
  | OpZoomIn (px py : Q)
  | OpZoomOut (px py : Q)
  | OpPan (px py : Q)
  | OpUp | OpDown | OpLeft | OpRight
  | OpRefit (width height : Q)
  | OpResetGraph
  | OpResetScreen
  | OpSetGraphCoords (ngx ngy ngw ngh : Q)
  | OpSetGraphView (ngx ngy zoom : Q).

Definition run_op (pow_half : Q -> Q) (render : M GraphScreen unit) (op : view_op)
    : M GraphScreen unit :=
  match op with
  | OpZoomIn px py => mouse_up render px py MOUSE_LEFT 0%Z
  | OpZoomOut px py => mouse_up render px py MOUSE_RIGHT 0%Z
  | OpPan px py => mouse_up render px py MOUSE_MIDDLE 0%Z
  | OpUp => up render
  | OpDown => down render
  | OpLeft => left render
  | OpRight => right render
  | OpRefit width height => refit width height
  | OpResetGraph => reset_graph
  | OpResetScreen => reset_screen render
  | OpSetGraphCoords ngx ngy ngw ngh => set_graph_coords ngx ngy ngw ngh
  | OpSetGraphView ngx ngy zoom => set_graph_view pow_half ngx ngy zoom
  end.

(** The operations of [view_op] that call [_set_graph_minmax]. *)
Definition recomputes (op : view_op) : bool :=
  match op with
  | OpSetGraphCoords _ _ _ _ | OpSetGraphView _ _ _ => false
  | _ => true
  end.

Definition is_resize (e : gs_event) : bool :=
  match e with
  | EvResize _ _ => true
  | _ => false
  end.

(** What an operation of [view_op] needs in order to return: non-zero
    divisors, for the pan the recorded drag start, and for the operations
    that redraw the ["bg"] entry that [__init__] creates. *)
Definition op_defined (pow_half : Q -> Q) (op : view_op) (s : GraphScreen) : Prop :=
  match op with
  | OpZoomIn _ _ | OpZoomOut _ _ =>
      ~ w (base s) == 0 /\ ~ h (base s) == 0 /\ ~ zoom_valobj s == 0 /\
      is_Some (_vertex_lists (base s) !! "bg")
  | OpPan _ _ =>
      ~ w (base s) == 0 /\ ~ h (base s) == 0 /\
      is_Some (mdownx s) /\ is_Some (mdowny s) /\
      is_Some (_vertex_lists (base s) !! "bg")
  | OpUp | OpDown | OpLeft | OpRight =>
      is_Some (_vertex_lists (base s) !! "bg")
  | OpRefit _ _ => ~ w (base s) == 0 /\ ~ h (base s) == 0
  | OpResetGraph => ~ _ow s == 0 /\ ~ _oh s == 0
  | OpResetScreen =>
      ~ _ow s == 0 /\ ~ _oh s == 0 /\ is_Some (_vertex_lists (base s) !! "bg")
  | OpSetGraphCoords _ _ _ _ => True
  | OpSetGraphView _ _ zoom => ~ pow_half zoom == 0 /\ ~ w (base s) == 0
  end.

(** The attributes that [reset_graph] reads. *)
Definition reset_view (s : GraphScreen) : Q * Q * Q * Q * Q * Q :=
  (_ogx s, _ogy s, _ogw s, _ogh s, _ow s, _oh s).

(** The bounding box as stored. *)
Definition box (s : GraphScreen) : Q * Q * Q * Q :=
  (min_gx s, max_gx s, min_gy s, max_gy s).

(** The centre and the extent of the view with the stored bounding box. *)
Definition view_box (s : GraphScreen) : Q * Q * Q * Q * (Q * Q * Q * Q) :=
  (gx s, gy s, gw s, gh s, box s).

(** The recorded start of a drag. *)
Definition drag_start (s : GraphScreen) : option Q * option Q :=
  (mdownx s, mdowny s).

(** ** Specifications of methods

    [preserves f m]: whatever [m] does and however it ends, the
    observation [f] of the object is the same afterwards.
    [hoare P m Q]: if [m] is called on an object with [P] and returns, the
    object has [Q]. *)

Definition preserves {S A V} (f : S -> V) (m : M S A) : Prop :=
  forall s, f (state_after m s) = f s.

Definition hoare {S A} (P : S -> Prop) (m : M S A) (Q : S -> Prop) : Prop :=
  forall s a s', P s -> m s = (Ok a, s') -> Q s'.


(** The size of a screen. *)
Definition size (s : Screen) : Q * Q := (w s, h s).

(** The screen without its batch and its handle entries. *)
Definition unbatched (s : Screen) : Screen :=
  with__batch Batch_new (with__vertex_lists ∅ s).

(** The primitive mode of each kind of [_vertex_types]. *)
Inductive kind_mode : string -> gl_mode -> Prop :=
  | kind_points : kind_mode "points" GL_POINTS
  | kind_lines : kind_mode "lines" GL_LINES
  | kind_line_strip : kind_mode "line_strip" GL_LINE_STRIP
  | kind_triangles : kind_mode "triangles" GL_TRIANGLES
  | kind_quads : kind_mode "quads" GL_QUADS.

(** A screen that has, as after [__init__], an entry and the two buffers
    for each kind, and whose held vertex lists were made by its batch. *)
Definition kinds_present (s : Screen) : Prop :=
  forall k, k ∈ _vertex_types ->
    is_Some (_vertex_lists s !! k) /\ is_Some (_vertices s !! k) /\
    is_Some (_colors s !! k).

Definition handles_made (s : Screen) : Prop :=
  forall k (hd : handle), k ∈ _vertex_types -> _vertex_lists s !! k = Some (Some hd) ->
    (hd < next_handle (_batch s))%nat.

(** The screen holds for kind [k] a vertex list with these data. *)
Definition holds_list (s : Screen) (k : string) (vl : VertexList) : Prop :=
  exists hd : handle, _vertex_lists s !! k = Some (Some hd) /\
             lists (_batch s) !! hd = Some vl.

(** The screen holds no vertex list for kind [k]. *)
Definition holds_none (s : Screen) (k : string) : Prop :=
  forall hd : handle, _vertex_lists s !! k <> Some (Some hd).

(** The screen without its vertex and colour buffers. *)
Definition unbuffered (s : Screen) : Screen :=
  with__vertices ∅ (with__colors ∅ s).

(** A drag in progress has its start recorded. *)
Definition drag_recorded (s : GraphScreen) : Prop :=
  drag s = true -> is_Some (mdownx s) /\ is_Some (mdowny s).

(** What of a [GraphScreen] drawing leaves alone, as one observation. *)
Definition view_state (s : GraphScreen)
    : (Q * Q * Q * Q * (Q * Q * Q * Q)) * Q * (Q * Q) * Q * (Q * Q * Q * Q * Q * Q)
      * (option Q * option Q) * bool * Q * Q :=
  (view_box s, total_zoom s, size (base s), zoom_valobj s, reset_view s,
   drag_start s, drag s, offsx s, offsy s).

(** Every vertex list of the batch was made by it: handles are given out
    in increasing order. *)
Definition batch_wf (b : Batch) : Prop :=
  forall hd : handle, is_Some (lists b !! hd) -> (hd < next_handle b)%nat.

(** [n] calls of a method in a row. *)
Fixpoint repeat_call {S} (n : nat) (m : M S unit) : M S unit :=
  match n with
  | O => ret tt
  | S n' => m ;;; repeat_call n' m
  end.

(** ** The buffers as list objects

    In the records above a list is a value.  A Python list has an identity:
    [set_points] and the like store the caller's list itself, and [extend]
    grows a list in place, so that a list that stands under two kinds grows
    under both.  [Buffers] is the part of a screen that the methods adding
    a primitive work on: here the two dictionaries hold references, and the
    store gives the contents of every list object.  A sequence that a
    method is handed is a reference as well, read when the method uses it;
    a tuple is an object that nothing extends.  A number, a colour
    component included, is a rational. *)

Definition ref : Set := nat.

Record Buffers : Type := mkBuffers {
  contents : ref -> list Q;
  next_ref : ref;
  _vertices_obj : gmap string ref;
  _colors_obj : gmap string ref
}.

Definition with_contents (v : ref -> list Q) (b : Buffers) : Buffers :=
  mkBuffers v (next_ref b) (_vertices_obj b) (_colors_obj b).
Definition with__vertices_obj (v : gmap string ref) (b : Buffers) : Buffers :=
  mkBuffers (contents b) (next_ref b) v (_colors_obj b).
Definition with__colors_obj (v : gmap string ref) (b : Buffers) : Buffers :=
  mkBuffers (contents b) (next_ref b) (_vertices_obj b) v.



(** The store after [l.extend(xs)] on the list object [r]. *)
Definition grow (r : ref) (xs : list Q) (b : Buffers) : Buffers :=
  with_contents (fun r' => if decide (r' = r) then contents b r ++ xs
                           else contents b r') b.

(** [d[k].extend(e)]: [d[k]] is looked up, then the sequence [e] is
    evaluated, then the list object grows in place. *)
Definition extend_obj (d : Buffers -> gmap string ref) (k : string)
    (e : Buffers -> list Q) : M Buffers unit :=
  r <- getitem d k ;;
  xs <- gets e ;;
  modify (grow r xs).

Definition set_points_obj (vertexes colors : ref) : M Buffers unit :=
  setitem _vertices_obj with__vertices_obj "points" vertexes ;;;
  setitem _colors_obj with__colors_obj "points" colors.

Definition set_lines_obj (vertexes colors : ref) : M Buffers unit :=
  setitem _vertices_obj with__vertices_obj "lines" vertexes ;;;
  setitem _colors_obj with__colors_obj "lines" colors.

(** [colors] is the list given for a non-uniform colouring; a call with
    [uniform=False] that leaves [colors] at its default [None] is not in
    the domain of the model. *)

Definition Screen2D_add_point_obj (px py pz : Q) (color : ref) : M Buffers unit :=
  extend_obj _vertices_obj "points" (fun _ => [px; py; pz]) ;;;
  extend_obj _colors_obj "points" (fun b => contents b color).













(** The buffers are distinct list objects, as [__init__] makes them. *)
Definition separate (b : Buffers) : Prop :=
  (forall k1 k2 r, _vertices_obj b !! k1 = Some r -> _vertices_obj b !! k2 = Some r ->
     k1 = k2) /\
  (forall k1 k2 r, _colors_obj b !! k1 = Some r -> _colors_obj b !! k2 = Some r ->
     k1 = k2) /\
  (forall k1 k2 r, _vertices_obj b !! k1 = Some r -> _colors_obj b !! k2 <> Some r).

(** The vertex and colour buffers of a kind have the same length. *)
Definition balanced (b : Buffers) (k : string) : Prop :=
  exists rv rc, _vertices_obj b !! k = Some rv /\ _colors_obj b !! k = Some rc /\
                length (contents b rv) = length (contents b rc).



(** * Properties *)

(** ** Division *)

Lemma pdiv_ok (a b : Q) : ~ b == 0 -> pdiv a b = Ok (a / b).
Proof.
  intros Hb. unfold pdiv.
  destruct (Qeq_bool b 0) eqn:E; [|reflexivity].
  apply Qeq_bool_iff in E. contradiction.
Qed.

Lemma pdiv_zero (a b : Q) : b == 0 -> pdiv a b = Raise ZeroDivisionError.
Proof.
  intros Hb. unfold pdiv.
  apply Qeq_bool_iff in Hb. rewrite Hb. reflexivity.
Qed.

Lemma Qpos_nonzero (q : Q) : 0 < q -> ~ q == 0.
Proof. intros H E. rewrite E in H. apply (Qlt_irrefl 0 H). Qed.

(** ** The two mappings of [GraphScreen] *)

Lemma on_plot_ok (px py : Q) (s : GraphScreen) :
  ~ w (base s) == 0 -> ~ h (base s) == 0 ->
  on_plot px py s =
    Ok (px * gw s / w (base s) + gx s - gw s / 2,
        py * gh s / h (base s) + gy s - gh s / 2).
Proof.
  intros Hw Hh. unfold on_plot. rewrite !pdiv_ok by assumption. reflexivity.
Qed.

Lemma on_screen_ok (px py : Q) (s : GraphScreen) :
  ~ gw s == 0 -> ~ gh s == 0 ->
  on_screen px py s =
    Ok ((px - gx s + gw s / 2) * w (base s) / gw s,
        (py - gy s + gh s / 2) * h (base s) / gh s).
Proof.
  intros Hw Hh. unfold on_screen. rewrite !pdiv_ok by assumption. reflexivity.
Qed.

(** C1. On a view with [gw], [gh], [w], [h] positive, [on_plot] and
    [on_screen] both return, and they are inverse to each other in exact
    arithmetic: mapping a screen point to the plot and back gives the point,
    and so does mapping a plot point to the screen and back. *)
Theorem on_screen_on_plot_inverse (s : GraphScreen) (sx sy : Q) :
  0 < gw s -> 0 < gh s -> 0 < w (base s) -> 0 < h (base s) ->
  (exists p q, on_plot sx sy s = Ok p /\ on_screen (fst p) (snd p) s = Ok q /\
               fst q == sx /\ snd q == sy) /\
  (exists p q, on_screen sx sy s = Ok p /\ on_plot (fst p) (snd p) s = Ok q /\
               fst q == sx /\ snd q == sy).
Proof.
  intros Hgw Hgh Hw Hh.
  apply Qpos_nonzero in Hgw, Hgh, Hw, Hh.
  split; eexists; eexists.
  - rewrite on_plot_ok by assumption.
    split; [reflexivity|]. rewrite on_screen_ok by assumption.
    split; [reflexivity|]. simpl. split; field; auto.
  - rewrite on_screen_ok by assumption.
    split; [reflexivity|]. rewrite on_plot_ok by assumption.
    split; [reflexivity|]. simpl. split; field; auto.
Qed.

(** ** The method monad *)

Lemma bind_ok {S A B} (m : M S A) (k : A -> M S B) (s s1 : S) (a : A) :
  m s = (Ok a, s1) -> bind m k s = k a s1.
Proof. intros E. unfold bind. rewrite E. reflexivity. Qed.

Lemma then_run {S A B} (m : M S A) (k : M S B) (s s1 : S) (a : A) :
  m s = (Ok a, s1) -> (m ;;; k) s = k s1.
Proof. intros E. unfold bind. rewrite E. reflexivity. Qed.

Lemma bind_raise {S A B} (m : M S A) (k : A -> M S B) (s s1 : S) (e : exn) :
  m s = (Raise e, s1) -> bind m k s = (Raise e, s1).
Proof. intros E. unfold bind. rewrite E. reflexivity. Qed.

Lemma run_pair {S A} (m : M S A) (s : S) :
  m s = (result_of m s, state_after m s).
Proof. unfold result_of, state_after. destruct (m s); reflexivity. Qed.

Ltac run :=
  unfold state_after, result_of, bind, assign, modify, gets, ret, raise, lift,
    getattr, getitem, setitem, on_base, on_part, omap in *;
  simpl in *.

(** ** Redrawing keeps the view *)

Section Redraw.
Variable render : M GraphScreen unit.
Hypothesis render_draws : draws_only render.

Lemma set_bg_undrawn (s : GraphScreen) :
  undrawn (state_after (GraphScreen_set_bg (bg (base s))) s) = undrawn s.
Proof.
  unfold GraphScreen_set_bg. run.
  destruct (_vertex_lists (base s) !! "bg") as [[hd|]|]; reflexivity.
Qed.

Lemma redraw_undrawn (s : GraphScreen) :
  undrawn (state_after (redraw render) s) = undrawn s.
Proof.
  unfold redraw, state_after.
  rewrite (bind_ok _ _ s s (bg (base s))) by reflexivity.
  unfold bind.
  pose proof (set_bg_undrawn s) as Hs. unfold state_after in Hs.
  destruct (GraphScreen_set_bg (bg (base s)) s) as [[[]|e] s1]; simpl in *.
  - rewrite <- Hs. apply render_draws.
  - exact Hs.
Qed.

Lemma then_redraw_undrawn (m : M GraphScreen unit) (s : GraphScreen) :
  undrawn (state_after (m ;;; redraw render) s) = undrawn (state_after m s).
Proof.
  unfold state_after, bind.
  destruct (m s) as [[[]|e] s1]; simpl; [apply redraw_undrawn | reflexivity].
Qed.

Hypothesis render_returns : returns render.

Lemma redraw_ok (s : GraphScreen) :
  is_Some (_vertex_lists (base s) !! "bg") ->
  result_of (redraw render) s = Ok tt.
Proof.
  intros [held Hbg]. unfold redraw, GraphScreen_set_bg. run. rewrite Hbg.
  destruct held; simpl; apply render_returns.
Qed.

Lemma then_redraw_ok (m : M GraphScreen unit) (s s1 : GraphScreen) :
  m s = (Ok tt, s1) ->
  is_Some (_vertex_lists (base s1) !! "bg") ->
  exists s', (m ;;; redraw render) s = (Ok tt, s') /\ undrawn s' = undrawn s1.
Proof.
  intros Hm Hbg. exists (state_after (redraw render) s1).
  rewrite (bind_ok _ _ _ _ _ Hm). split.
  - rewrite (run_pair (redraw render) s1). rewrite redraw_ok by assumption.
    reflexivity.
  - apply redraw_undrawn.
Qed.
End Redraw.

(** ** Rules for the specifications of methods *)

Lemma bind_inv {S A B} (m : M S A) (k : A -> M S B) (s s' : S) (b : B) :
  bind m k s = (Ok b, s') -> exists a s1, m s = (Ok a, s1) /\ k a s1 = (Ok b, s').
Proof.
  unfold bind. destruct (m s) as [[a|e] s1]; [eauto | discriminate].
Qed.

Section Rules.
Context {S V : Type}.
Variable f : S -> V.

Lemma preserves_bind {A B} (m : M S A) (k : A -> M S B) :
  preserves f m -> (forall a, preserves f (k a)) -> preserves f (bind m k).
Proof.
  intros Hm Hk s. specialize (Hm s). unfold state_after, bind in *.
  destruct (m s) as [[a|e] s1]; simpl in *; [|exact Hm].
  rewrite <- Hm. apply Hk.
Qed.

Lemma preserves_ret {A} (a : A) : preserves f (ret a).
Proof. intros s. reflexivity. Qed.

Lemma preserves_raise {A} (e : exn) : preserves f (raise (A := A) e).
Proof. intros s. reflexivity. Qed.

Lemma preserves_lift {A} (o : outcome A) : preserves f (lift o).
Proof. intros s. reflexivity. Qed.

Lemma preserves_gets {A} (g : S -> A) : preserves f (gets g).
Proof. intros s. reflexivity. Qed.

Lemma preserves_pure {A} (g : S -> outcome A) : preserves f (fun s => (g s, s)).
Proof. intros s. reflexivity. Qed.

Lemma preserves_getattr {A} (g : S -> option A) : preserves f (getattr g).
Proof. intros s. unfold state_after, getattr. destruct (g s); reflexivity. Qed.

Lemma preserves_modify (g : S -> S) :
  (forall s, f (g s) = f s) -> preserves f (modify g).
Proof. intros Hg s. apply Hg. Qed.

Lemma preserves_assign {A} (upd : A -> S -> S) (e : S -> outcome A) :
  (forall v s, f (upd v s) = f s) -> preserves f (assign upd e).
Proof.
  intros Hu s. unfold state_after, assign. destruct (e s); simpl; auto.
Qed.

Lemma preserves_for_each {A} (xs : list A) (body : A -> M S unit) :
  (forall a, preserves f (body a)) -> preserves f (for_each xs body).
Proof.
  intros Hb. induction xs as [|a xs IH]; simpl.
  - apply preserves_ret.
  - apply preserves_bind; auto.
Qed.
End Rules.

Section Triples.
Context {S : Type}.

Lemma hoare_bind {A B} (P R Q : S -> Prop) (m : M S A) (k : A -> M S B) :
  hoare P m R -> (forall a, hoare R (k a) Q) -> hoare P (bind m k) Q.
Proof.
  intros Hm Hk s b s' HP Hrun.
  apply bind_inv in Hrun as (a & s1 & H1 & H2).
  exact (Hk a s1 b s' (Hm s a s1 HP H1) H2).
Qed.

Lemma hoare_weaken {A} (P P' Q : S -> Prop) (m : M S A) :
  hoare P' m Q -> (forall s, P s -> P' s) -> hoare P m Q.
Proof. intros H HP s a s' Hs. apply H. auto. Qed.

Lemma hoare_any {A} (P : S -> Prop) (m : M S A) : hoare P m (fun _ => True).
Proof. intros s a s' _ _. exact I. Qed.

Lemma hoare_ret {A} (P : S -> Prop) (a : A) : hoare P (ret a) P.
Proof. intros s b s' HP [= _ <-]. exact HP. Qed.

Lemma hoare_modify (P Q : S -> Prop) (g : S -> S) :
  (forall s, P s -> Q (g s)) -> hoare P (modify g) Q.
Proof. intros Hg s a s' HP [= _ <-]. auto. Qed.

Lemma hoare_assign {A} (P Q : S -> Prop) (upd : A -> S -> S) (e : S -> outcome A) :
  (forall s v, P s -> Q (upd v s)) -> hoare P (assign upd e) Q.
Proof.
  intros Hu s a s' HP. unfold assign. destruct (e s); [|discriminate].
  intros [= _ <-]. auto.
Qed.


Lemma hoare_result {A} (P Q : S -> Prop) (m : M S A) (s : S) (a : A) :
  hoare P m Q -> P s -> result_of m s = Ok a -> Q (state_after m s).
Proof.
  intros H HP Hr. apply (H s a (state_after m s) HP).
  rewrite (run_pair m s), Hr. reflexivity.
Qed.
End Triples.

(** ** What drawing leaves alone *)

Lemma preserves_on_base_frame {A V} (f : GraphScreen -> V) (m : M Screen A) :
  (forall t s, f (with_base t s) = f s) -> preserves f (on_base m).
Proof.
  intros Hf s. unfold state_after, on_base, on_part.
  destruct (m (base s)); apply Hf.
Qed.

Lemma preserves_on_base {A V} (g : Screen -> V) (m : M Screen A) :
  preserves g m -> preserves (fun s => g (base s)) (on_base m).
Proof.
  intros Hm s. specialize (Hm (base s)).
  unfold state_after, on_base, on_part in *. destruct (m (base s)); exact Hm.
Qed.

Lemma preserves_undrawn {A V} (f : GraphScreen -> V) (m : M GraphScreen A) :
  (forall s, f (undrawn s) = f s) -> preserves undrawn m -> preserves f m.
Proof. intros Hf Hm s. rewrite <- Hf, Hm. apply Hf. Qed.

Lemma preserves_getitem {S V W} (f : S -> W) (d : S -> gmap string V) (k : string) :
  preserves f (getitem d k).
Proof. intros s. unfold state_after, getitem. destruct (d s !! k); reflexivity. Qed.

Lemma preserves_delitem {S V W} (f : S -> W) (d : S -> gmap string V)
    (upd : gmap string V -> S -> S) (k : string) :
  (forall m s, f (upd m s) = f s) -> preserves f (delitem d upd k).
Proof.
  intros Hu s. unfold state_after, delitem. destruct (d s !! k); simpl; auto.
Qed.

Lemma preserves_batch_add {W} (f : Screen -> W) (n : nat) (mode : gl_mode)
    (vs : list Q) (cs : list Z) :
  (forall b s, f (with__batch b s) = f s) -> preserves f (batch_add n mode vs cs).
Proof. intros Hf s. apply Hf. Qed.

Ltac preserve :=
  repeat first
    [ apply preserves_ret | apply preserves_raise | apply preserves_lift
    | apply preserves_gets | apply preserves_getattr | apply preserves_getitem
    | apply preserves_delitem; intros; reflexivity
    | apply preserves_batch_add; intros; reflexivity
    | apply preserves_on_base
    | apply preserves_modify; intros; reflexivity
    | apply preserves_assign; intros; reflexivity
    | apply preserves_on_base_frame; intros; reflexivity
    | assumption
    | match goal with
      | |- preserves _ (if ?b then _ else _) => destruct b
      | |- preserves _ (match ?x with _ => _ end) => destruct x
      end
    | apply preserves_bind; [|intros ?] ].

Section Events.
Variable render : M GraphScreen unit.
Hypothesis render_draws : draws_only render.

Lemma handle_event_reset_view (e : gs_event) :
  preserves reset_view (handle_event render e).
Proof.
  assert (preserves reset_view render)
    by (apply preserves_undrawn; [reflexivity | exact render_draws]).
  destruct e as [px py dx dy bs ms|px py b ms|px py b ms|sym ms|width height];
    simpl.
  - unfold mouse_drag; preserve.
  - unfold mouse_down; preserve.
  - unfold mouse_up, recentre, redraw, GraphScreen_set_bg; preserve.
    all: apply preserves_pure.
  - unfold GraphScreen_key_down, left, right, up, down, redraw, GraphScreen_set_bg; preserve.
  - unfold Screen_on_resize, resize, refit, GraphScreen_set_bg; preserve.
Qed.
Lemma handle_event_size (e : gs_event) :
  is_resize e = false ->
  preserves (fun s => size (base s)) (handle_event render e).
Proof.
  intros He.
  assert (preserves (fun s => size (base s)) render)
    by (apply preserves_undrawn; [reflexivity | exact render_draws]).
  destruct e as [px py dx dy bs ms|px py b ms|px py b ms|sym ms|width height];
    simpl; [| | | |discriminate].
  - unfold mouse_drag; preserve.
  - unfold mouse_down; preserve.
  - unfold mouse_up, recentre, redraw, GraphScreen_set_bg; preserve.
  - unfold GraphScreen_key_down, left, right, up, down, redraw, GraphScreen_set_bg; preserve.
Qed.

Lemma run_events_preserves {V} (f : GraphScreen -> V) (ok : gs_event -> bool)
    (es : list gs_event) (s : GraphScreen) :
  (forall e, ok e = true -> preserves f (handle_event render e)) ->
  forallb ok es = true ->
  f (run_events render es s) = f s.
Proof.
  intros Hf. revert s. induction es as [|e es IH]; intros s Hes; simpl in *.
  - reflexivity.
  - apply andb_prop in Hes as [He Hes]. rewrite IH by exact Hes.
    apply Hf, He.
Qed.
End Events.

(** ** Resetting the view *)

Ltac exec :=
  unfold bind, assign, modify, gets, ret, raise, lift, getattr, on_base, on_part,
    omap; cbn.

Ltac divide :=
  repeat (rewrite pdiv_ok by (cbn; assumption); cbn).

Lemma minmax_run (s : GraphScreen) :
  exists s', _set_graph_minmax s = (Ok tt, s') /\ box_fresh s' /\
    gx s' = gx s /\ gy s' = gy s /\ gw s' = gw s /\ gh s' = gh s /\
    total_zoom s' = total_zoom s /\ base s' = base s /\
    reset_view s' = reset_view s /\ drag_start s' = drag_start s.
Proof.
  eexists. split; [reflexivity|]. unfold box_fresh. cbn.
  repeat split; reflexivity.
Qed.

Lemma reset_graph_run (s : GraphScreen) :
  ~ _ow s == 0 -> ~ _oh s == 0 ->
  exists s', reset_graph s = (Ok tt, s') /\
    gx s' = _ogx s /\ gy s' = _ogy s /\
    gw s' = _ogw s * (w (base s) / _ow s) /\
    gh s' = _ogh s * (h (base s) / _oh s) /\
    total_zoom s' = 1 /\ box_fresh s' /\ base s' = base s.
Proof.
  intros Hw Hh. unfold reset_graph, _set_graph_minmax. exec. divide.
  eexists. split; [reflexivity|]. unfold box_fresh. cbn.
  repeat split; reflexivity.
Qed.

(** ** The bounding box *)

Lemma box_fresh_view_box (s s' : GraphScreen) :
  view_box s' = view_box s -> box_fresh s -> box_fresh s'.
Proof.
  unfold view_box, box, box_fresh. intros [= -> -> -> -> -> -> -> ->]. tauto.
Qed.

Lemma hoare_minmax (P : GraphScreen -> Prop) : hoare P _set_graph_minmax box_fresh.
Proof.
  intros s a s' _ Hrun. destruct (minmax_run s) as (s1 & H1 & Hb & _).
  rewrite H1 in Hrun. injection Hrun as _ <-. exact Hb.
Qed.

Lemma hoare_keeps_box {A} (m : M GraphScreen A) :
  preserves view_box m -> hoare box_fresh m box_fresh.
Proof.
  intros Hm s a s' Hs Hrun. apply (box_fresh_view_box s); [|exact Hs].
  specialize (Hm s). unfold state_after in Hm. rewrite Hrun in Hm. exact Hm.
Qed.

Ltac box_step :=
  lazymatch goal with
  | |- hoare _ (bind _set_graph_minmax _) _ =>
      apply hoare_bind with (R := box_fresh);
      [apply hoare_minmax | intros ?; apply hoare_keeps_box; preserve]
  | |- hoare _ (bind _ _) _ =>
      apply hoare_bind with (R := fun _ => True);
      [apply hoare_any | intros ?; box_step]
  end.

Section Box.
Variable pow_half : Q -> Q.
Variable render : M GraphScreen unit.
Hypothesis render_draws : draws_only render.

Lemma redraw_preserves {V} (f : GraphScreen -> V) :
  (forall s, f (undrawn s) = f s) -> preserves f (redraw render).
Proof.
  intros Hf. apply preserves_undrawn; [exact Hf|].
  intros s. apply redraw_undrawn, render_draws.
Qed.

Lemma hoare_then_redraw (P : GraphScreen -> Prop) (m : M GraphScreen unit) :
  hoare P m box_fresh -> hoare P (m ;;; redraw render) box_fresh.
Proof.
  intros Hm. apply hoare_bind with (R := box_fresh); [exact Hm|].
  intros _. apply hoare_keeps_box, redraw_preserves. reflexivity.
Qed.

Lemma recomputing_box_fresh (op : view_op) :
  recomputes op = true ->
  hoare (fun _ => True) (run_op pow_half render op) box_fresh.
Proof.
  pose proof (redraw_preserves view_box (fun s => eq_refl)) as Hre.
  destruct op; try discriminate; intros _;
    cbv beta iota delta [run_op mouse_up up down left right reset_screen
                           refit reset_graph].
  - apply hoare_then_redraw; box_step.
  - apply hoare_then_redraw; box_step.
  - apply hoare_then_redraw; box_step.
  - box_step.
  - box_step.
  - box_step.
  - box_step.
  - box_step.
  - box_step.
  - apply hoare_then_redraw; box_step.
Qed.

Lemma raw_setters_keep_box (op : view_op) :
  recomputes op = false -> preserves box (run_op pow_half render op).
Proof.
  destruct op; try discriminate; intros _;
    cbv beta iota zeta delta [run_op set_graph_coords set_graph_view]; preserve.
Qed.
End Box.


(** ** Instances *)

Lemma on_screen_on_plot_inverse_witness :
  (exists p q,
     on_plot 30 40 (snd (GraphScreen_init 0 0 100 100 0 0 10 10 (1 # 2) [] true true)) = Ok p /\
     on_screen (fst p) (snd p)
       (snd (GraphScreen_init 0 0 100 100 0 0 10 10 (1 # 2) [] true true)) = Ok q /\
     fst q == 30 /\ snd q == 40) /\
  (exists p q,
     on_screen 30 40 (snd (GraphScreen_init 0 0 100 100 0 0 10 10 (1 # 2) [] true true)) = Ok p /\
     on_plot (fst p) (snd p)
       (snd (GraphScreen_init 0 0 100 100 0 0 10 10 (1 # 2) [] true true)) = Ok q /\
     fst q == 30 /\ snd q == 40).
Proof.
  apply (on_screen_on_plot_inverse
           (snd (GraphScreen_init 0 0 100 100 0 0 10 10 (1 # 2) [] true true)) 30 40);
    reflexivity.
Defined.
(** ** Construction *)

Lemma GraphScreen_init_run (px py w0 h0 gx0 gy0 gw0 gh0 zoom : Q) (bg0 : list Z)
    (vis act : bool) :
  exists s0,
    GraphScreen_init px py w0 h0 gx0 gy0 gw0 gh0 zoom bg0 vis act = (Ok tt, s0) /\
    reset_view s0 = (gx0, gy0, gw0, gh0, w0, h0) /\
    size (base s0) = (w0, h0) /\
    drag_start s0 = (None, None) /\
    view_box s0 = (gx0, gy0, gw0, gh0,
                   (gx0 - gw0 / 2, gx0 + gw0 / 2, gy0 - gh0 / 2, gy0 + gh0 / 2)) /\
    total_zoom s0 = 1 /\ zoom_valobj s0 = zoom.
Proof.
  eexists. split; [reflexivity|]. repeat split; reflexivity.
Qed.

(** ** Resetting after events *)

(** C8. A [GraphScreen] is constructed with the view [gx0 gy0 gw0 gh0] on a
    screen of size [w0] by [h0], both non-zero, and then handles any
    sequence of events (drags, button presses and releases, which zoom and
    pan, key presses, which nudge, and resizes), whether the handlers
    return or raise.  Then [reset_graph] returns, and it sets [gx] and [gy]
    to [gx0] and [gy0], [gw] to [gw0 * (w / w0)] and [gh] to
    [gh0 * (h / h0)] for the current size [w], [h], which is [gw0] and
    [gh0] when the size is the one of the construction, as it is when no
    event was a resize; it sets [total_zoom] to 1 and the bounding box to
    the one of the new centre and extent. *)
Theorem reset_graph_after_events (render : M GraphScreen unit)
    (px py w0 h0 gx0 gy0 gw0 gh0 zoom : Q) (bg0 : list Z) (vis act : bool)
    (es : list gs_event) :
  draws_only render -> ~ w0 == 0 -> ~ h0 == 0 ->
  exists s0 s',
    GraphScreen_init px py w0 h0 gx0 gy0 gw0 gh0 zoom bg0 vis act = (Ok tt, s0) /\
    reset_graph (run_events render es s0) = (Ok tt, s') /\
    gx s' = gx0 /\ gy s' = gy0 /\
    gw s' = gw0 * (w (base (run_events render es s0)) / w0) /\
    gh s' = gh0 * (h (base (run_events render es s0)) / h0) /\
    (w (base (run_events render es s0)) == w0 -> gw s' == gw0) /\
    (h (base (run_events render es s0)) == h0 -> gh s' == gh0) /\
    (forallb (fun e => negb (is_resize e)) es = true ->
     w (base (run_events render es s0)) = w0 /\
     h (base (run_events render es s0)) = h0) /\
    total_zoom s' = 1 /\ box_fresh s'.
Proof.
  intros Hd Hw Hh.
  destruct (GraphScreen_init_run px py w0 h0 gx0 gy0 gw0 gh0 zoom bg0 vis act)
    as (s0 & Hinit & Hrv & Hsize & _).
  set (s := run_events render es s0).
  assert (Hinv : reset_view s = (gx0, gy0, gw0, gh0, w0, h0)).
  { rewrite <- Hrv. unfold s.
    apply (run_events_preserves render reset_view (fun _ => true)).
    - intros e _. apply handle_event_reset_view, Hd.
    - clear. induction es; simpl; auto. }
  injection Hinv as Hogx Hogy Hogw Hogh How Hoh.
  destruct (reset_graph_run s) as (s' & Hrun & Hgx & Hgy & Hgw & Hgh & Htz & Hbox & _).
  { rewrite How. exact Hw. }
  { rewrite Hoh. exact Hh. }
  rewrite Hogx in Hgx. rewrite Hogy in Hgy.
  rewrite Hogw, How in Hgw. rewrite Hogh, Hoh in Hgh.
  subst s. exists s0, s'.
  repeat (split; [assumption|]).
  split; [intros E; rewrite Hgw, E; field; exact Hw|].
  split; [intros E; rewrite Hgh, E; field; exact Hh|].
  split; [|split; assumption].
  intros Hes.
  change (w (base (run_events render es s0)))
    with (fst (size (base (run_events render es s0)))).
  change (h (base (run_events render es s0)))
    with (snd (size (base (run_events render es s0)))).
  rewrite (run_events_preserves render (fun s => size (base s))
             (fun e => negb (is_resize e)) es s0).
  - rewrite Hsize. split; reflexivity.
  - intros e He. apply handle_event_size; [exact Hd|].
    destruct (is_resize e); [discriminate|reflexivity].
  - exact Hes.
Qed.

Lemma Screen_render_draws : draws_only Screen_render.
Proof. intros s. reflexivity. Qed.

Lemma Screen_render_returns : returns (Screen_render (S := GraphScreen)).
Proof. intros s. reflexivity. Qed.

Lemma reset_graph_after_events_witness :
  exists s0 s',
    GraphScreen_init 0 0 100 100 0 0 10 10 (1 # 2) [0; 0; 0]%Z true true = (Ok tt, s0) /\
    reset_graph
      (run_events Screen_render
         [EvMouseUp 50 50 MOUSE_LEFT 0%Z; EvKeyDown KEY_LEFT 0%Z] s0) = (Ok tt, s') /\
    gx s' = 0 /\ gy s' = 0 /\ total_zoom s' = 1 /\ box_fresh s'.
Proof.
  destruct (reset_graph_after_events Screen_render 0 0 100 100 0 0 10 10 (1 # 2)
              [0; 0; 0]%Z true true
              [EvMouseUp 50 50 MOUSE_LEFT 0%Z; EvKeyDown KEY_LEFT 0%Z])
    as (s0 & s' & H0 & H1 & H2 & H3 & _ & _ & _ & _ & _ & H4 & H5).
  - exact Screen_render_draws.
  - intros E. vm_compute in E. discriminate E.
  - intros E. vm_compute in E. discriminate E.
  - exists s0, s'. exact (conj H0 (conj H1 (conj H2 (conj H3 (conj H4 H5))))).
Defined.
(** ** The start of a drag *)

Section DragStart.
Variable render : M GraphScreen unit.
Hypothesis render_draws : draws_only render.

Lemma handle_event_drag_start (e : gs_event) :
  is_middle_down e = false ->
  preserves drag_start (handle_event render e).
Proof.
  intros He.
  assert (preserves drag_start render)
    by (apply preserves_undrawn; [reflexivity | exact render_draws]).
  destruct e as [px py dx dy bs ms|px py b ms|px py b ms|sym ms|width height];
    simpl.
  - unfold mouse_drag; preserve.
  - destruct b; try discriminate; unfold mouse_down; preserve.
  - unfold mouse_up, recentre, redraw, GraphScreen_set_bg; preserve.
  - unfold GraphScreen_key_down, left, right, up, down, redraw,
      GraphScreen_set_bg; preserve.
  - unfold Screen_on_resize, resize, refit, GraphScreen_set_bg; preserve.
Qed.

Lemma middle_up_unset (s : GraphScreen) (px py : Q) (ms : Z) :
  mdownx s = None \/ mdowny s = None ->
  mouse_up render px py MOUSE_MIDDLE ms s = (Raise AttributeError, with_drag false s).
Proof.
  intros H. unfold mouse_up. exec.
  destruct (mdownx s) as [mx|]; [|reflexivity].
  destruct H as [H|H]; [discriminate|]. cbn. rewrite H. reflexivity.
Qed.
End DragStart.

(** C10. The coordinates [mdownx], [mdowny] of the start of a drag are absent
    in a freshly constructed [GraphScreen]; a middle-button [mouse_down]
    at a point sets them to that point, and no other event changes them.
    So on a screen that has handled any events, none of them a
    middle-button [mouse_down], they are still absent, and a middle-button
    [mouse_up] raises [AttributeError]: it has cleared [drag] and changed
    nothing else, the view is not panned. *)
Theorem middle_up_before_middle_down (render : M GraphScreen unit)
    (px py w0 h0 gx0 gy0 gw0 gh0 zoom : Q) (bg0 : list Z) (vis act : bool)
    (es : list gs_event) (ux uy : Q) (ms : Z) :
  draws_only render ->
  forallb (fun e => negb (is_middle_down e)) es = true ->
  exists s0,
    GraphScreen_init px py w0 h0 gx0 gy0 gw0 gh0 zoom bg0 vis act = (Ok tt, s0) /\
    mdownx s0 = None /\ mdowny s0 = None /\
    mdownx (run_events render es s0) = None /\
    mdowny (run_events render es s0) = None /\
    mouse_up render ux uy MOUSE_MIDDLE ms (run_events render es s0) =
      (Raise AttributeError, with_drag false (run_events render es s0)) /\
    (forall e s, is_middle_down e = false ->
       drag_start (state_after (handle_event render e) s) = drag_start s) /\
    (forall dx dy m s,
       drag_start (state_after (handle_event render (EvMouseDown dx dy MOUSE_MIDDLE m)) s)
       = (Some dx, Some dy)).
Proof.
  intros Hd Hes.
  destruct (GraphScreen_init_run px py w0 h0 gx0 gy0 gw0 gh0 zoom bg0 vis act)
    as (s0 & Hinit & _ & _ & Hds & _).
  assert (Hinv : drag_start (run_events render es s0) = (None, None)).
  { rewrite <- Hds.
    apply (run_events_preserves render drag_start
             (fun e => negb (is_middle_down e))); [|exact Hes].
    intros e He. apply handle_event_drag_start; [exact Hd|].
    destruct (is_middle_down e); [discriminate|reflexivity]. }
  injection Hds as Hx0 Hy0. injection Hinv as Hx Hy.
  exists s0. repeat (split; [assumption|]).
  split; [apply middle_up_unset; left; exact Hx|].
  split; [|reflexivity].
  intros e s He. apply handle_event_drag_start; assumption.
Qed.

Lemma middle_up_before_middle_down_witness :
  exists s0,
    GraphScreen_init 0 0 100 100 0 0 10 10 (1 # 2) [0; 0; 0]%Z true true = (Ok tt, s0) /\
    result_of (mouse_up Screen_render 60 60 MOUSE_MIDDLE 0%Z)
      (run_events Screen_render
         [EvMouseDown 10 10 MOUSE_LEFT 0%Z; EvMouseUp 50 50 MOUSE_LEFT 0%Z] s0)
    = Raise AttributeError.
Proof.
  destruct (middle_up_before_middle_down Screen_render 0 0 100 100 0 0 10 10 (1 # 2)
              [0; 0; 0]%Z true true
              [EvMouseDown 10 10 MOUSE_LEFT 0%Z; EvMouseUp 50 50 MOUSE_LEFT 0%Z]
              60 60 0%Z)
    as (s0 & H0 & _ & _ & _ & _ & H1 & _).
  - exact Screen_render_draws.
  - reflexivity.
  - exists s0. split; [exact H0|]. unfold result_of. rewrite H1. reflexivity.
Defined.

(** ** When the operations on the view return *)

Lemma inv_sq_nonzero (z : Q) : ~ z == 0 -> ~ 1 / z * (1 / z) == 0.
Proof.
  intros Hz E. apply Hz.
  assert (H : z * z * (1 / z * (1 / z)) == 1) by (field; exact Hz).
  rewrite E in H. rewrite Qmult_0_r in H. discriminate H.
Qed.

Section Defined.
Variable pow_half : Q -> Q.
Variable render : M GraphScreen unit.
Hypothesis render_returns : returns render.

Lemma then_redraw_result (m : M GraphScreen unit) (s s1 : GraphScreen) :
  m s = (Ok tt, s1) ->
  is_Some (_vertex_lists (base s1) !! "bg") ->
  result_of (m ;;; redraw render) s = Ok tt.
Proof.
  intros Hm Hbg. unfold result_of. rewrite (bind_ok _ _ _ _ _ Hm).
  apply (redraw_ok render render_returns s1 Hbg).
Qed.

Lemma nudge_result (g : GraphScreen -> GraphScreen) (s : GraphScreen) :
  (forall s, base (g s) = base s) ->
  is_Some (_vertex_lists (base s) !! "bg") ->
  result_of (modify g ;;; _set_graph_minmax ;;; redraw render) s = Ok tt.
Proof.
  intros Hg Hbg. unfold result_of.
  rewrite (bind_ok _ _ s (g s) tt eq_refl).
  apply (then_redraw_result _set_graph_minmax (g s) _ eq_refl).
  cbn. rewrite Hg. exact Hbg.
Qed.

Lemma run_op_defined (op : view_op) (s : GraphScreen) :
  op_defined pow_half op s -> result_of (run_op pow_half render op) s = Ok tt.
Proof.
  destruct op; cbn [op_defined run_op].
  - intros (Hw & Hh & Hz & Hbg). unfold mouse_up.
    eapply then_redraw_result;
      [unfold recentre, _set_graph_minmax; exec; divide; reflexivity | exact Hbg].
  - intros (Hw & Hh & Hz & Hbg). unfold mouse_up.
    eapply then_redraw_result;
      [unfold recentre, _set_graph_minmax; exec; divide;
       rewrite pdiv_ok by (apply inv_sq_nonzero; exact Hz); reflexivity
      | exact Hbg].
  - intros (Hw & Hh & [mx Hx] & [my Hy] & Hbg). unfold mouse_up.
    eapply then_redraw_result;
      [unfold _set_graph_minmax; exec; rewrite Hx; cbn; rewrite Hy; cbn;
       rewrite !on_plot_ok by (cbn; assumption); reflexivity
      | exact Hbg].
  - intros Hbg. apply nudge_result; [reflexivity | exact Hbg].
  - intros Hbg. apply nudge_result; [reflexivity | exact Hbg].
  - intros Hbg. apply nudge_result; [reflexivity | exact Hbg].
  - intros Hbg. apply nudge_result; [reflexivity | exact Hbg].
  - intros (Hw & Hh). unfold result_of, refit, _set_graph_minmax. exec. divide.
    reflexivity.
  - intros (Hw & Hh). destruct (reset_graph_run s Hw Hh) as (s' & Hrun & _).
    unfold result_of. rewrite Hrun. reflexivity.
  - intros (Hw & Hh & Hbg). unfold reset_screen.
    destruct (reset_graph_run s Hw Hh) as (s' & Hrun & _ & _ & _ & _ & _ & _ & Hb).
    apply (then_redraw_result _ s s' Hrun). rewrite Hb. exact Hbg.
  - intros _. reflexivity.
  - intros (Hz & Hw). unfold result_of, set_graph_view. exec. divide. reflexivity.
Qed.
End Defined.

(** C3, as the code has it.  The operations that call [_set_graph_minmax]
    are the two zooms, the pan, the four nudges, [refit], [reset_graph] and
    [reset_screen]: whenever one of them returns, which it does when its
    divisors are not zero, the drag start is recorded for the pan and the
    ["bg"] entry is there for the redraw, the stored bounding box is the
    one of the new centre and extent.  [set_graph_coords] only assigns
    [gx], [gy], [gw] and [gh]: it always returns and leaves the stored
    bounding box as it was. *)
Theorem box_after_view_ops (pow_half : Q -> Q) (render : M GraphScreen unit)
    (op : view_op) (s : GraphScreen) :
  draws_only render -> returns render ->
  (recomputes op = true ->
     (op_defined pow_half op s -> result_of (run_op pow_half render op) s = Ok tt) /\
     (result_of (run_op pow_half render op) s = Ok tt ->
      box_fresh (state_after (run_op pow_half render op) s))) /\
  (forall ngx ngy ngw ngh,
     exists s', set_graph_coords ngx ngy ngw ngh s = (Ok tt, s') /\
       gx s' = ngx /\ gy s' = ngy /\ gw s' = ngw /\ gh s' = ngh /\
       box s' = box s).
Proof.
  intros Hd Hr. split.
  - intros Hop. split.
    + apply run_op_defined, Hr.
    + intros Hres.
      apply (hoare_result (fun _ => True) box_fresh _ s tt); [|exact I|exact Hres].
      apply recomputing_box_fresh; assumption.
  - intros ngx ngy ngw ngh. eexists. split; [reflexivity|].
    repeat split; reflexivity.
Qed.

Lemma box_after_view_ops_witness :
  result_of (run_op (fun z => z) Screen_render OpLeft)
    (snd (GraphScreen_init 0 0 100 100 0 0 10 10 (1 # 2) [0; 0; 0]%Z true true)) = Ok tt /\
  box_fresh
    (state_after (run_op (fun z => z) Screen_render OpLeft)
       (snd (GraphScreen_init 0 0 100 100 0 0 10 10 (1 # 2) [0; 0; 0]%Z true true))).
Proof.
  destruct (box_after_view_ops (fun z => z) Screen_render OpLeft
              (snd (GraphScreen_init 0 0 100 100 0 0 10 10 (1 # 2) [0; 0; 0]%Z true true))
              Screen_render_draws Screen_render_returns) as [H _].
  destruct (H eq_refl) as [Hdef Hbox].
  assert (Hres := Hdef (ex_intro _ (Some O) eq_refl)).
  exact (conj Hres (Hbox Hres)).
Defined.

(** C3, as the claim has it, fails: on a fresh screen with the view
    (0, 0, 10, 10), [set_graph_coords 5 5 10 10] returns and the stored
    bounding box is still the one of the centre (0, 0). *)
Lemma set_graph_coords_box_stale :
  box_fresh (snd (GraphScreen_init 0 0 100 100 0 0 10 10 (1 # 2) [0; 0; 0]%Z true true)) /\
  recomputes (OpSetGraphCoords 5 5 10 10) = false /\
  result_of (run_op (fun z => z) Screen_render (OpSetGraphCoords 5 5 10 10))
    (snd (GraphScreen_init 0 0 100 100 0 0 10 10 (1 # 2) [0; 0; 0]%Z true true)) = Ok tt /\
  ~ box_fresh
      (state_after (run_op (fun z => z) Screen_render (OpSetGraphCoords 5 5 10 10))
         (snd (GraphScreen_init 0 0 100 100 0 0 10 10 (1 # 2) [0; 0; 0]%Z true true))).
Proof.
  split; [|split; [reflexivity|split; [reflexivity|]]].
  - unfold box_fresh. repeat split; reflexivity.
  - intros (H & _). vm_compute in H. discriminate H.
Qed.

(** ** Zooming in *)

(** The observations of the view that drawing leaves alone. *)
Lemma undrawn_view (s s' : GraphScreen) :
  undrawn s' = undrawn s ->
  view_box s' = view_box s /\ total_zoom s' = total_zoom s /\
  size (base s') = size (base s).
Proof.
  intros H.
  pose proof (f_equal view_box H) as H1.
  pose proof (f_equal total_zoom H) as H2.
  pose proof (f_equal (fun s => size (base s)) H) as H3.
  auto.
Qed.

(** C2. On a [GraphScreen] whose [render] only draws and returns, whose
    ["bg"] entry is there and whose [w], [h] and zoom ratio are not zero,
    a left-button [mouse_up] at [(px, py)] returns; it has set [gx] to
    [gx - gw / 2 + px * gw / w] and [gy] likewise, from the extent before the
    zoom, has multiplied [gw] and [gh] by the ratio held by the value
    object, has recomputed the bounding box, and has multiplied
    [total_zoom] by [(1 / ratio) ^ 2].  In particular, on a screen with
    [w = h = 100], the view [gx = gy = 0], [gw = gh = 10], [total_zoom = 1]
    and the ratio [1 / 2], a zoom-in at [(50, 50)] gives [gw = gh = 5],
    [gx = gy = 0] and [total_zoom = 4]. *)
Theorem zoom_in_at_point (render : M GraphScreen unit) (s : GraphScreen)
    (px py : Q) (modifiers : Z) :
  draws_only render -> returns render ->
  is_Some (_vertex_lists (base s) !! "bg") ->
  ~ w (base s) == 0 -> ~ h (base s) == 0 -> ~ zoom_valobj s == 0 ->
  exists s',
    mouse_up render px py MOUSE_LEFT modifiers s = (Ok tt, s') /\
    gx s' = gx s - gw s / 2 + px * gw s / w (base s) /\
    gy s' = gy s - gh s / 2 + py * gh s / h (base s) /\
    gw s' = gw s * zoom_valobj s /\
    gh s' = gh s * zoom_valobj s /\
    box_fresh s' /\
    total_zoom s' == total_zoom s * (1 / zoom_valobj s) ^ 2 /\
    (w (base s) == 100 -> h (base s) == 100 ->
     gx s == 0 -> gy s == 0 -> gw s == 10 -> gh s == 10 ->
     total_zoom s == 1 -> zoom_valobj s == 1 # 2 -> px == 50 -> py == 50 ->
     gw s' == 5 /\ gh s' == 5 /\ gx s' == 0 /\ gy s' == 0 /\ total_zoom s' == 4).
Proof.
  intros Hd Hr Hbg Hw Hh Hz. unfold mouse_up.
  match goal with
  | |- exists s', bind ?m _ s = _ /\ _ =>
      edestruct (then_redraw_ok render Hd Hr m s) as (s' & Hrun & Hfr);
      [unfold recentre, _set_graph_minmax; exec; divide; reflexivity
      | exact Hbg
      | exists s'; split; [exact Hrun|] ]
  end.
  apply undrawn_view in Hfr as (Hvb & Htz & _).
  injection Hvb as Hgx Hgy Hgw Hgh Hb1 Hb2 Hb3 Hb4. cbn in *.
  assert (Hbox : box_fresh s').
  { unfold box_fresh. rewrite Hb1, Hb2, Hb3, Hb4, Hgx, Hgy, Hgw, Hgh.
    repeat split; reflexivity. }
  assert (Htz' : total_zoom s' == total_zoom s * (1 / zoom_valobj s) ^ 2).
  { rewrite Htz. cbn. reflexivity. }
  repeat (split; [assumption|]).
  intros Ew Eh Egx Egy Egw Egh Et Ez Ex Ey.
  rewrite Htz', Hgx, Hgy, Hgw, Hgh.
  rewrite Ew, Eh, Egx, Egy, Egw, Egh, Et, Ez, Ex, Ey.
  repeat split; reflexivity.
Qed.

Lemma zoom_in_at_point_witness :
  exists s',
    mouse_up Screen_render 50 50 MOUSE_LEFT 0%Z
      (snd (GraphScreen_init 0 0 100 100 0 0 10 10 (1 # 2) [0; 0; 0]%Z true true))
    = (Ok tt, s') /\
    gw s' == 5 /\ gh s' == 5 /\ gx s' == 0 /\ gy s' == 0 /\ total_zoom s' == 4.
Proof.
  destruct (zoom_in_at_point Screen_render
              (snd (GraphScreen_init 0 0 100 100 0 0 10 10 (1 # 2) [0; 0; 0]%Z true true))
              50 50 0%Z Screen_render_draws Screen_render_returns)
    as (s' & Hrun & _ & _ & _ & _ & _ & _ & Hsc).
  - exists (Some O). reflexivity.
  - intros E. vm_compute in E. discriminate E.
  - intros E. vm_compute in E. discriminate E.
  - intros E. vm_compute in E. discriminate E.
  - exists s'. split; [exact Hrun|]. apply Hsc; reflexivity.
Defined.

(** ** The camera of a Screen3D *)

Lemma vec_get_Some (v : list Q) (i : nat) (q : Q) :
  v !! i = Some q -> vec_get v i = Ok q.
Proof. intros H. unfold vec_get. rewrite H. reflexivity. Qed.

Lemma vec_set_Some (v : list Q) (i : nat) (q q' : Q) :
  v !! i = Some q -> vec_set v i q' = Ok (<[i := q']> v).
Proof.
  intros H. unfold vec_set. apply lookup_lt_Some in H.
  apply Nat.ltb_lt in H. rewrite H. reflexivity.
Qed.

Lemma camera_add_run (i : nat) (d q : Q) (s : Screen3D) :
  camera s !! i = Some q ->
  camera_add i d s = (Ok tt, with_camera (<[i := q + d]> (camera s)) s).
Proof.
  intros H. unfold camera_add, assign.
  rewrite (vec_get_Some _ _ _ H), (vec_set_Some _ _ _ _ H). reflexivity.
Qed.

Lemma camera_cap_above_run (i : nat) (c q : Q) (s : Screen3D) :
  camera s !! i = Some q ->
  camera_cap_above i c s =
    (Ok tt, with_camera (if Qltb c q then <[i := c]> (camera s) else camera s) s).
Proof.
  intros H. unfold camera_cap_above, assign. rewrite (vec_get_Some _ _ _ H).
  destruct (Qltb c q); [rewrite (vec_set_Some _ _ _ _ H)|]; reflexivity.
Qed.

Lemma camera_cap_below_run (i : nat) (c q : Q) (s : Screen3D) :
  camera s !! i = Some q ->
  camera_cap_below i c s =
    (Ok tt, with_camera (if Qltb q c then <[i := c]> (camera s) else camera s) s).
Proof.
  intros H. unfold camera_cap_below, assign. rewrite (vec_get_Some _ _ _ H).
  destruct (Qltb q c); [rewrite (vec_set_Some _ _ _ _ H)|]; reflexivity.
Qed.

Lemma rotation_add_camera (i : nat) (d : Q) :
  preserves camera (rotation_add i d).
Proof. unfold rotation_add. apply preserves_assign. reflexivity. Qed.

Lemma rotation_add_result (i : nat) (d : Q) (s : Screen3D) :
  (i < length (rotation s))%nat -> result_of (rotation_add i d) s = Ok tt.
Proof.
  intros H. destruct (lookup_lt_is_Some_2 _ _ H) as [q Hq].
  unfold result_of, rotation_add, assign.
  rewrite (vec_get_Some _ _ _ Hq), (vec_set_Some _ _ _ _ Hq). reflexivity.
Qed.

Lemma Qltb_false (a b : Q) : Qltb a b = false -> b <= a.
Proof.
  unfold Qltb. intros H. apply negb_false_iff in H. apply Qle_bool_iff, H.
Qed.

Lemma Qltb_true (a b : Q) : Qltb a b = true -> a < b.
Proof.
  unfold Qltb. intros H. apply negb_true_iff in H. apply Qnot_le_lt.
  intros Hle. apply Qle_bool_iff in Hle. congruence.
Qed.

(** C9. On a [Screen3D] whose camera has a z component in [[-400, 400]],
    after [key_down] with any key the camera still has a z component, and
    it is in [[-400, 400]]: [S] adds 10 and caps the sum at 400, [A]
    subtracts 10 and caps the difference at -400, and every other key leaves
    the z component as it was.  With the three components of the rotation
    there, [key_down] returns. *)
Theorem key_down_camera_z (s : Screen3D) (symbol : key) (modifiers : Z) (cz : Q) :
  camera s !! 2%nat = Some cz -> - (400) <= cz -> cz <= 400 ->
  exists cz',
    camera (state_after (Screen3D_key_down symbol modifiers) s) !! 2%nat = Some cz' /\
    - (400) <= cz' /\ cz' <= 400 /\
    (symbol = KEY_S -> cz' = if Qltb 400 (cz + 10) then 400 else cz + 10) /\
    (symbol = KEY_A ->
     cz' = if Qltb (cz - 10) (- (400)) then - (400) else cz - 10) /\
    (symbol <> KEY_S -> symbol <> KEY_A -> cz' = cz) /\
    ((3 <= length (rotation s))%nat ->
     result_of (Screen3D_key_down symbol modifiers) s = Ok tt).
Proof.
  intros Hz Hlo Hhi.
  pose proof (lookup_lt_Some _ _ _ Hz) as Hlen.
  destruct (lookup_lt_is_Some_2 (camera s) 0) as [c0 H0]; [lia|].
  destruct (lookup_lt_is_Some_2 (camera s) 1) as [c1 H1]; [lia|].
  assert (Hrot : forall i d, (i < 3)%nat ->
    camera (state_after (rotation_add i d) s) !! 2%nat = Some cz /\
    (- (400) <= cz /\ cz <= 400 /\ (cz = cz) /\
    ((3 <= length (rotation s))%nat -> result_of (rotation_add i d) s = Ok tt))).
  { intros i d Hi. rewrite rotation_add_camera. repeat split; try assumption.
    intros Hr. apply rotation_add_result. lia. }
  assert (Hcam : forall i d q, (i < 2)%nat -> camera s !! i = Some q ->
    camera (state_after (camera_add i d) s) !! 2%nat = Some cz /\
    result_of (camera_add i d) s = Ok tt).
  { intros i d q Hi Hq. unfold state_after, result_of.
    rewrite (camera_add_run i d q s Hq). cbn. split; [|reflexivity].
    rewrite list_lookup_insert_ne by lia. exact Hz. }
  destruct symbol; cbn [Screen3D_key_down].
  1-6: exists cz;
       match goal with
       | |- context [rotation_add ?i ?d] =>
           destruct (Hrot i d ltac:(lia)) as (Ha & Hb & Hc & _ & Hd)
       end;
       repeat (split; [first [assumption | discriminate | reflexivity]|]);
       first [exact Hd | intros; congruence].
  - (* S *)
    exists (if Qltb 400 (cz + 10) then 400 else cz + 10).
    unfold state_after, result_of.
    rewrite (bind_ok _ _ _ _ _ (camera_add_run 2 10 cz s Hz)).
    rewrite (camera_cap_above_run 2 400 (cz + 10)) by
      (cbn; apply list_lookup_insert_eq; exact Hlen).
    cbn. destruct (Qltb 400 (cz + 10)) eqn:E.
    + rewrite list_lookup_insert_eq by (rewrite length_insert; exact Hlen).
      repeat split; try reflexivity; try discriminate; try congruence.
    + rewrite list_lookup_insert_eq by exact Hlen.
      apply Qltb_false in E.
      repeat split; try reflexivity; try discriminate; try congruence; try lra.
  - (* A *)
    exists (if Qltb (cz - 10) (- (400)) then - (400) else cz - 10).
    unfold state_after, result_of.
    rewrite (bind_ok _ _ _ _ _ (camera_add_run 2 (- (10)) cz s Hz)).
    rewrite (camera_cap_below_run 2 (- (400)) (cz - 10)) by
      (cbn; apply list_lookup_insert_eq; exact Hlen).
    cbn. destruct (Qltb (cz - 10) (- (400))) eqn:E.
    + rewrite list_lookup_insert_eq by (rewrite length_insert; exact Hlen).
      repeat split; try reflexivity; try discriminate; try congruence.
    + rewrite list_lookup_insert_eq by exact Hlen.
      apply Qltb_false in E.
      repeat split; try reflexivity; try discriminate; try congruence; try lra.
  - destruct (Hcam 0%nat 2 c0 ltac:(lia) H0) as [Ha Hb]. exists cz.
    repeat split; try assumption; try discriminate; try reflexivity;
      intros; exact Hb.
  - destruct (Hcam 0%nat (- (2)) c0 ltac:(lia) H0) as [Ha Hb]. exists cz.
    repeat split; try assumption; try discriminate; try reflexivity;
      intros; exact Hb.
  - destruct (Hcam 1%nat (- (2)) c1 ltac:(lia) H1) as [Ha Hb]. exists cz.
    repeat split; try assumption; try discriminate; try reflexivity;
      intros; exact Hb.
  - destruct (Hcam 1%nat 2 c1 ltac:(lia) H1) as [Ha Hb]. exists cz.
    repeat split; try assumption; try discriminate; try reflexivity;
      intros; exact Hb.
  - exists cz. repeat split; try assumption; try discriminate; try reflexivity.
Qed.

Lemma key_down_camera_z_witness :
  exists cz',
    camera (state_after (Screen3D_key_down KEY_S 0%Z)
              (snd (Screen3D_init 0 0 100 100 [0; 0; 395] [0; 0; 0] [0; 0; 0]
                      [0; 0; 0]%Z true true))) !! 2%nat = Some cz' /\
    - (400) <= cz' /\ cz' <= 400 /\ cz' = 400.
Proof.
  destruct (key_down_camera_z
              (snd (Screen3D_init 0 0 100 100 [0; 0; 395] [0; 0; 0] [0; 0; 0]
                      [0; 0; 0]%Z true true)) KEY_S 0%Z 395)
    as (cz' & H1 & H2 & H3 & H4 & _).
  - reflexivity.
  - intros E. discriminate E.
  - intros E. discriminate E.
  - exists cz'. repeat (split; [assumption|]). rewrite (H4 eq_refl). reflexivity.
Defined.

(** ** Buffering points *)

Lemma extend_run {S V} (d : S -> gmap string (list V))
    (upd : gmap string (list V) -> S -> S) (k : string) (xs l : list V) (s : S) :
  d s !! k = Some l ->
  extend d upd k xs s = (Ok tt, upd (<[k := l ++ xs]> (d s)) s).
Proof. intros H. unfold extend, bind, getitem. rewrite H. reflexivity. Qed.

Lemma extend_missing {S V} (d : S -> gmap string (list V))
    (upd : gmap string (list V) -> S -> S) (k : string) (xs : list V) (s : S) :
  d s !! k = None -> extend d upd k xs s = (Raise KeyError, s).
Proof. intros H. unfold extend, bind, getitem. rewrite H. reflexivity. Qed.

(** C4, as the code has it.  [Screen2D.add_points] with arrays of unequal
    lengths raises [IndexError] and leaves the screen as it was; with arrays
    of equal lengths, on a screen that has its two ["points"] buffers, it
    returns and has appended the arrays to them.  [set_points] checks
    nothing: with any two arrays it returns and has replaced the two
    ["points"] buffers by them. *)
Theorem add_points_set_points (s : Screen) (points : list Q) (colors vs0 : list Z)
    (ps0 : list Q) :
  _vertices s !! "points" = Some ps0 -> _colors s !! "points" = Some vs0 ->
  (length points <> length colors ->
   Screen2D_add_points points colors s = (Raise IndexError, s)) /\
  (length points = length colors ->
   exists s', Screen2D_add_points points colors s = (Ok tt, s') /\
     _vertices s' !! "points" = Some (ps0 ++ points) /\
     _colors s' !! "points" = Some (vs0 ++ colors)) /\
  (exists s', set_points points colors s = (Ok tt, s') /\
     _vertices s' !! "points" = Some points /\
     _colors s' !! "points" = Some colors).
Proof.
  intros Hv Hc. split; [|split].
  - intros Hne. unfold Screen2D_add_points.
    apply Nat.eqb_neq in Hne. rewrite Hne. reflexivity.
  - intros Heq. unfold Screen2D_add_points.
    apply Nat.eqb_eq in Heq. rewrite Heq. cbn [negb].
    eexists. split.
    + rewrite (bind_ok _ _ _ _ _ (extend_run _vertices with__vertices _ _ _ s Hv)).
      apply extend_run. exact Hc.
    + cbn. split; apply lookup_insert_eq.
  - eexists. split; [reflexivity|]. cbn. split; apply lookup_insert_eq.
Qed.

Lemma add_points_set_points_witness :
  Screen2D_add_points [1; 2; 3] [0; 0]%Z
    (snd (Screen2D_init 0 0 100 100 [0; 0; 0]%Z true true))
  = (Raise IndexError, snd (Screen2D_init 0 0 100 100 [0; 0; 0]%Z true true)).
Proof.
  apply (add_points_set_points
           (snd (Screen2D_init 0 0 100 100 [0; 0; 0]%Z true true))
           [1; 2; 3] [0; 0]%Z [] []); [reflexivity | reflexivity |].
  cbn. discriminate.
Defined.

(** C4, as the claim has it, fails: [set_points] with three coordinates and
    no colour returns, and the two buffers hold the arrays of unequal
    lengths. *)
Lemma set_points_unequal_lengths :
  exists s',
    set_points [1; 2; 3] [] (snd (Screen2D_init 0 0 100 100 [0; 0; 0]%Z true true))
    = (Ok tt, s') /\
    _vertices s' !! "points" = Some [1; 2; 3] /\
    _colors s' !! "points" = Some [] /\
    _vertices s' <> _vertices (snd (Screen2D_init 0 0 100 100 [0; 0; 0]%Z true true)).
Proof.
  eexists. split; [reflexivity|]. split; [reflexivity|]. split; [reflexivity|].
  intros E. apply (f_equal (fun m => m !! "points")) in E.
  vm_compute in E. discriminate E.
Qed.

(** ** Hiding a screen *)

Lemma elem_of_keys {V} (d : gmap string V) (k : string) :
  k ∈ keys d <-> is_Some (d !! k).
Proof.
  unfold keys. rewrite list_elem_of_fmap. split.
  - intros ([k' v] & -> & Hin). apply elem_of_map_to_list in Hin. eauto.
  - intros [v Hv]. exists (k, v). split; [reflexivity|].
    apply elem_of_map_to_list. exact Hv.
Qed.

Lemma release_vtype_run (k : string) (held : option handle) (s : Screen) :
  _vertex_lists s !! k = Some held ->
  exists s',
    release_vtype k s = (Ok tt, s') /\
    _vertex_lists s' = <[k := None]> (_vertex_lists s) /\
    next_handle (_batch s') = next_handle (_batch s) /\
    lists (_batch s') =
      match held with
      | Some hd => delete hd (lists (_batch s))
      | None => lists (_batch s)
      end /\
    unbatched s' = unbatched s.
Proof.
  intros H. unfold release_vtype, bind, getitem. rewrite H.
  destruct held as [hd|]; eexists; (split; [reflexivity|]); cbn; auto.
Qed.

Lemma release_loop (l : list string) (s : Screen) :
  (forall k, k ∈ l -> is_Some (_vertex_lists s !! k)) ->
  exists s',
    for_each l release_vtype s = (Ok tt, s') /\
    (forall k, k ∈ l -> _vertex_lists s' !! k = Some None) /\
    (forall k, k ∉ l -> _vertex_lists s' !! k = _vertex_lists s !! k) /\
    next_handle (_batch s') = next_handle (_batch s) /\
    (forall k (hd : handle), k ∈ l -> _vertex_lists s !! k = Some (Some hd) ->
       lists (_batch s') !! hd = None) /\
    (forall hd : handle, (forall k, k ∈ l -> _vertex_lists s !! k <> Some (Some hd)) ->
       lists (_batch s') !! hd = lists (_batch s) !! hd) /\
    (forall hd : handle, lists (_batch s) !! hd = None -> lists (_batch s') !! hd = None) /\
    unbatched s' = unbatched s.
Proof.
  revert s. induction l as [|k l IH]; intros s Hkeys.
  - exists s. split; [reflexivity|].
    split; [intros k Hin; inversion Hin|].
    split; [intros; reflexivity|]. split; [reflexivity|].
    split; [intros k hd Hin; inversion Hin|].
    split; [intros; reflexivity|]. split; [auto|reflexivity].
  - destruct (Hkeys k) as [held Hk]; [left|].
    destruct (release_vtype_run k held s Hk) as (s1 & Hrun1 & Hvl1 & Hn1 & Hl1 & Hu1).
    destruct (IH s1) as (s' & Hrun & Hin & Hout & Hn & HD & HU & HW & Hu).
    { intros k' Hk'. rewrite Hvl1. apply lookup_insert_is_Some'. right.
      apply Hkeys. right. exact Hk'. }
    assert (Hkeep : forall hd : handle, lists (_batch s) !! hd = None ->
                               lists (_batch s1) !! hd = None).
    { intros hd Hnone. rewrite Hl1. destruct held as [hd0|]; [|exact Hnone].
      apply lookup_delete_None. right. exact Hnone. }
    exists s'. split; [simpl; rewrite (bind_ok _ _ _ _ _ Hrun1); exact Hrun|].
    split; [|split; [|split; [|split; [|split; [|split]]]]].
    + intros k' Hk'. destruct (decide (k' ∈ l)) as [Hl|Hl]; [apply Hin, Hl|].
      rewrite (Hout k' Hl), Hvl1.
      apply elem_of_cons in Hk' as [->|Hk']; [|contradiction].
      apply lookup_insert_eq.
    + intros k' Hk'. apply not_elem_of_cons in Hk' as [Hne Hl].
      rewrite (Hout k' Hl), Hvl1. apply lookup_insert_ne. congruence.
    + congruence.
    + intros k' hd Hk' Hheld.
      destruct (decide (k' = k)) as [->|Hne].
      * apply HW. rewrite Hl1. rewrite Hk in Hheld. injection Hheld as ->.
        apply lookup_delete_eq.
      * apply elem_of_cons in Hk' as [->|Hk']; [contradiction|].
        apply (HD k' hd Hk'). rewrite Hvl1, lookup_insert_ne by congruence.
        exact Hheld.
    + intros hd Hfree. rewrite HU.
      * rewrite Hl1. destruct held as [hd0|]; [|reflexivity].
        apply lookup_delete_ne. intros ->. apply (Hfree k); [left|exact Hk].
      * intros k' Hk'. rewrite Hvl1.
        destruct (decide (k = k')) as [->|Hne].
        -- rewrite lookup_insert_eq. discriminate.
        -- rewrite lookup_insert_ne by exact Hne. apply Hfree. right. exact Hk'.
    + intros hd Hnone. apply HW, Hkeep, Hnone.
    + congruence.
Qed.

Lemma release_all_run (s : Screen) :
  exists s',
    release_all s = (Ok tt, s') /\
    _vertex_lists s' = (fun _ => None) <$> _vertex_lists s /\
    next_handle (_batch s') = next_handle (_batch s) /\
    (forall k (hd : handle), _vertex_lists s !! k = Some (Some hd) ->
       lists (_batch s') !! hd = None) /\
    (forall hd : handle, (forall k, _vertex_lists s !! k <> Some (Some hd)) ->
       lists (_batch s') !! hd = lists (_batch s) !! hd) /\
    unbatched s' = unbatched s.
Proof.
  destruct (release_loop (keys (_vertex_lists s)) s)
    as (s' & Hrun & Hin & Hout & Hn & HD & HU & _ & Hu).
  { intros k. apply elem_of_keys. }
  exists s'. split; [exact Hrun|]. split; [|split; [exact Hn|split; [|split]]].
  - apply map_eq. intros k. rewrite lookup_fmap.
    destruct (_vertex_lists s !! k) as [held|] eqn:Hk.
    + rewrite Hin by (apply elem_of_keys; eauto). reflexivity.
    + rewrite Hout by (rewrite elem_of_keys, Hk; apply is_Some_None).
      rewrite Hk. reflexivity.
  - intros k hd Hheld. apply (HD k hd); [|exact Hheld].
    apply elem_of_keys. eauto.
  - intros hd Hfree. apply HU. intros k _. apply Hfree.
  - exact Hu.
Qed.

Lemma set_visible_true_run {O : Type} (screen_of : O -> Screen)
    (with_screen : Screen -> O -> O) (set_bg : list Z -> M O unit)
    (render : M O unit) (o : O) :
  Screen_set_visible screen_of with_screen set_bg render true o =
    match render (with_screen (with_visible true (screen_of o)) o) with
    | (Ok _, o1) => set_bg (bg (screen_of o1)) o1
    | (Raise e, o1) => (Raise e, o1)
    end.
Proof. reflexivity. Qed.

(** C7.  For a screen object whose [Screen] attributes can be read back
    after they are written, [set_visible(False)] returns; afterwards
    [visible] is false, every entry of [_vertex_lists] is [None], every
    vertex list that an entry held is deleted from the batch, the vertex
    lists that no entry held are still in the batch, and the vertex and
    colour buffers are as before.  [set_visible(True)] sets [visible] and
    runs [render]: if [render] raises, so does [set_visible], with the
    object as [render] left it and without a call of [set_bg]; if [render]
    returns, [set_visible] goes on with [set_bg] of the colour that the
    object then has.  On a [Screen2D], a [GraphScreen] and a [Screen3D] that
    has its ["bg"] entry when [render] has returned, [set_visible(True)]
    returns and has rebuilt the background: the entry holds a new vertex
    list in the colour of the screen, which is the quad over the rectangle
    of the screen, the quad over the stored bounding box, and the 24
    vertices of the cube; the list that the entry held is deleted from the
    batch, and the other entries, the buffers and the other attributes are
    as [render] left them. *)
Theorem set_visible_releases {O : Type} (screen_of : O -> Screen)
    (with_screen : Screen -> O -> O) (set_bg : list Z -> M O unit)
    (render : M O unit) (o : O) :
  (forall t o, screen_of (with_screen t o) = t) ->
  (exists o',
     Screen_set_visible screen_of with_screen set_bg render false o = (Ok tt, o') /\
     visible (screen_of o') = false /\
     _vertex_lists (screen_of o') = (fun _ => None) <$> _vertex_lists (screen_of o) /\
     (forall k (hd : handle), _vertex_lists (screen_of o) !! k = Some (Some hd) ->
        lists (_batch (screen_of o')) !! hd = None) /\
     (forall hd : handle, (forall k, _vertex_lists (screen_of o) !! k <> Some (Some hd)) ->
        lists (_batch (screen_of o')) !! hd = lists (_batch (screen_of o)) !! hd) /\
     _vertices (screen_of o') = _vertices (screen_of o) /\
     _colors (screen_of o') = _colors (screen_of o)) /\
  (forall o1,
     render (with_screen (with_visible true (screen_of o)) o) = (Ok tt, o1) ->
     Screen_set_visible screen_of with_screen set_bg render true o =
       set_bg (bg (screen_of o1)) o1) /\
  (forall e o1,
     render (with_screen (with_visible true (screen_of o)) o) = (Raise e, o1) ->
     Screen_set_visible screen_of with_screen set_bg render true o = (Raise e, o1)) /\
  (forall (render2 : M Screen unit) (s s1 : Screen) (held : option handle),
     render2 (with_visible true s) = (Ok tt, s1) ->
     _vertex_lists s1 !! "bg" = Some held ->
     exists s2,
       Screen_set_visible (fun s : Screen => s) (fun t _ => t) Screen2D_set_bg
         render2 true s = (Ok tt, s2) /\
       unbatched s2 = unbatched s1 /\
       holds_list s2 "bg"
         (mkVertexList 4 GL_QUADS
            [0; 0; - (100); w s1; 0; - (100); w s1; h s1; - (100); 0; h s1; - (100)]
            (repeat_seq (bg s1) 4)) /\
       next_handle (_batch s2) = S (next_handle (_batch s1)) /\
       (forall hd : handle, held = Some hd -> hd <> next_handle (_batch s1) ->
          lists (_batch s2) !! hd = None) /\
       (forall k, k <> "bg"%string -> _vertex_lists s2 !! k = _vertex_lists s1 !! k)) /\
  (forall (renderG : M GraphScreen unit) (g g1 : GraphScreen) (held : option handle),
     renderG (with_base (with_visible true (base g)) g) = (Ok tt, g1) ->
     _vertex_lists (base g1) !! "bg" = Some held ->
     exists g2,
       Screen_set_visible base with_base GraphScreen_set_bg renderG true g
       = (Ok tt, g2) /\
       view_state g2 = view_state g1 /\
       unbatched (base g2) = unbatched (base g1) /\
       holds_list (base g2) "bg"
         (mkVertexList 4 GL_QUADS
            [min_gx g1; min_gy g1; - (100); max_gx g1; min_gy g1; - (100);
             max_gx g1; max_gy g1; - (100); min_gx g1; max_gy g1; - (100)]
            (repeat_seq (bg (base g1)) 4)) /\
       next_handle (_batch (base g2)) = S (next_handle (_batch (base g1))) /\
       (forall hd : handle, held = Some hd -> hd <> next_handle (_batch (base g1)) ->
          lists (_batch (base g2)) !! hd = None) /\
       (forall k, k <> "bg"%string ->
          _vertex_lists (base g2) !! k = _vertex_lists (base g1) !! k)) /\
  (forall (render3 : M Screen3D unit) (c c1 : Screen3D) (held : option handle),
     render3 (with_base3 (with_visible true (base3 c)) c) = (Ok tt, c1) ->
     _vertex_lists (base3 c1) !! "bg" = Some held ->
     exists c2 vl,
       Screen_set_visible base3 with_base3
         (fun b => on_part base3 with_base3 (Screen3D_set_bg b)) render3 true c
       = (Ok tt, c2) /\
       camera c2 = camera c1 /\ rotation c2 = rotation c1 /\ offset c2 = offset c1 /\
       unbatched (base3 c2) = unbatched (base3 c1) /\
       holds_list (base3 c2) "bg" vl /\
       vl_count vl = 24%nat /\ vl_mode vl = GL_QUADS /\
       length (vl_v3f vl) = (3 * 24)%nat /\
       Forall (fun q => q = 900 \/ q = - (900)) (vl_v3f vl) /\
       vl_c3B vl = repeat_seq (bg (base3 c1)) 24 /\
       next_handle (_batch (base3 c2)) = S (next_handle (_batch (base3 c1))) /\
       (forall hd : handle, held = Some hd -> hd <> next_handle (_batch (base3 c1)) ->
          lists (_batch (base3 c2)) !! hd = None) /\
       (forall k, k <> "bg"%string ->
          _vertex_lists (base3 c2) !! k = _vertex_lists (base3 c1) !! k)).
Proof.
  intros Hlens.
  split; [|split; [|split; [|split; [|split]]]].
  - unfold Screen_set_visible, on_screen_part, on_part, bind, modify.
    rewrite Hlens.
    destruct (release_all_run (with_visible false (screen_of o)))
      as (s' & Hrun & Hvl & _ & HD & HU & Hu).
    rewrite Hrun. eexists. split; [reflexivity|]. rewrite Hlens.
    split; [exact (f_equal visible Hu)|].
    split; [exact Hvl|]. split; [exact HD|]. split; [exact HU|].
    split; [exact (f_equal _vertices Hu) | exact (f_equal _colors Hu)].
  - intros o1 Hr. rewrite set_visible_true_run, Hr. reflexivity.
  - intros e o1 Hr. rewrite set_visible_true_run, Hr. reflexivity.
  - intros render2 s s1 held Hr Hh.
    rewrite set_visible_true_run, Hr.
    unfold Screen2D_set_bg, bind, getitem. rewrite Hh.
    destruct held as [hd0|]; cbn; eexists; (split; [reflexivity|]); cbn.
    + split; [reflexivity|]. split.
      { exists (next_handle (_batch s1)). cbn.
        rewrite !lookup_insert_eq. split; reflexivity. }
      split; [reflexivity|]. split.
      { intros hd [= <-] Hne. rewrite lookup_insert_ne by congruence.
        apply lookup_delete_eq. }
      intros k Hk. apply lookup_insert_ne. congruence.
    + split; [reflexivity|]. split.
      { exists (next_handle (_batch s1)). cbn.
        rewrite !lookup_insert_eq. split; reflexivity. }
      split; [reflexivity|]. split; [intros hd [=]|].
      intros k Hk. apply lookup_insert_ne. congruence.
  - intros renderG g g1 held Hr Hh.
    rewrite set_visible_true_run, Hr.
    unfold GraphScreen_set_bg, bind, on_base, on_part, getitem, gets.
    rewrite Hh.
    destruct held as [hd0|]; cbn; eexists; (split; [reflexivity|]); cbn;
      (split; [reflexivity|]); (split; [reflexivity|]).
    + split.
      { exists (next_handle (_batch (base g1))). cbn.
        rewrite !lookup_insert_eq. split; reflexivity. }
      split; [reflexivity|]. split.
      { intros hd [= <-] Hne. rewrite lookup_insert_ne by congruence.
        apply lookup_delete_eq. }
      intros k Hk. apply lookup_insert_ne. congruence.
    + split.
      { exists (next_handle (_batch (base g1))). cbn.
        rewrite !lookup_insert_eq. split; reflexivity. }
      split; [reflexivity|]. split; [intros hd [=]|].
      intros k Hk. apply lookup_insert_ne. congruence.
  - intros render3 c c1 held Hr Hh.
    rewrite set_visible_true_run, Hr.
    unfold Screen3D_set_bg, bind, on_part, getitem, gets. cbn.
    rewrite Hh.
    destruct held as [hd0|]; cbn; eexists _, _; (split; [reflexivity|]); cbn;
      repeat (split; [reflexivity|]);
      (split; [exists (next_handle (_batch (base3 c1))); cbn;
               rewrite !lookup_insert_eq; split; reflexivity|]);
      cbn; repeat (split; [reflexivity|]).
    + split.
      { repeat (constructor; [first [left; reflexivity | right; reflexivity]|]).
        constructor. }
      split; [reflexivity|]. split; [reflexivity|]. split.
      { intros hd [= <-] Hne. rewrite lookup_insert_ne by congruence.
        apply lookup_delete_eq. }
      intros k Hk. apply lookup_insert_ne. congruence.
    + split.
      { repeat (constructor; [first [left; reflexivity | right; reflexivity]|]).
        constructor. }
      split; [reflexivity|]. split; [reflexivity|]. split; [intros hd [=]|].
      intros k Hk. apply lookup_insert_ne. congruence.
Qed.

Lemma set_visible_releases_witness :
  (exists o',
     Screen_set_visible (fun s : Screen => s) (fun t _ => t) Screen2D_set_bg
       Screen_render false (snd (Screen2D_init 0 0 100 100 [0; 0; 0]%Z true true))
     = (Ok tt, o') /\
     visible o' = false /\
     lists (_batch o') !! O = None) /\
  (exists s2,
     Screen_set_visible (fun s : Screen => s) (fun t _ => t) Screen2D_set_bg
       Screen_render true (snd (Screen2D_init 0 0 100 50 [7; 8; 9]%Z false true))
     = (Ok tt, s2) /\
     visible s2 = true /\
     holds_list s2 "bg"
       (mkVertexList 4 GL_QUADS
          [0; 0; - (100); 100; 0; - (100); 100; 50; - (100); 0; 50; - (100)]
          [7; 8; 9; 7; 8; 9; 7; 8; 9; 7; 8; 9]%Z) /\
     lists (_batch s2) !! O = None).
Proof.
  destruct (set_visible_releases (fun s : Screen => s) (fun t _ => t)
              Screen2D_set_bg Screen_render
              (snd (Screen2D_init 0 0 100 100 [0; 0; 0]%Z true true)))
    as ((o' & Hrun & Hvis & _ & HD & _) & _ & _ & H2D & _).
  - reflexivity.
  - split.
    + exists o'. split; [exact Hrun|]. split; [exact Hvis|].
      apply (HD "bg"%string O). reflexivity.
    + destruct (H2D Screen_render
                  (snd (Screen2D_init 0 0 100 50 [7; 8; 9]%Z false true))
                  (with_visible true
                     (snd (Screen2D_init 0 0 100 50 [7; 8; 9]%Z false true)))
                  (Some O) eq_refl eq_refl)
        as (s2 & Hrun2 & Hu & Hl & _ & Hdel & _).
      exists s2. split; [exact Hrun2|].
      split; [exact (f_equal visible Hu)|]. split; [exact Hl|].
      apply (Hdel O eq_refl). discriminate.
Defined.

(** ** Flushing the buffers *)

Lemma kind_mode_fun (k : string) (m1 m2 : gl_mode) :
  kind_mode k m1 -> kind_mode k m2 -> m1 = m2.
Proof. intros H1 H2. destruct H1; inversion H2; reflexivity. Qed.

Lemma kind_mode_types (k : string) :
  k ∈ _vertex_types <-> exists mode, kind_mode k mode.
Proof.
  split.
  - intros H. unfold _vertex_types in H.
    repeat (apply elem_of_cons in H as [->|H]; [eexists; constructor|]).
    inversion H.
  - intros [mode H]. unfold _vertex_types.
    destruct H; repeat (first [apply list_elem_of_here | apply list_elem_of_further]).
Qed.

Lemma flush_add_run (k : string) (mode : gl_mode) (vs : list Q) (cs : list Z)
    (s : Screen) :
  kind_mode k mode -> _vertices s !! k = Some vs -> _colors s !! k = Some cs ->
  flush_add k s =
    (Ok (Some (next_handle (_batch s))),
     with__batch
       (mkBatch (S (next_handle (_batch s)))
          (<[next_handle (_batch s) := mkVertexList (length vs / 3) mode vs cs]>
             (lists (_batch s)))) s).
Proof.
  intros Hk Hv Hc.
  destruct Hk; unfold flush_add; cbn; unfold bind, getitem;
    repeat (first [rewrite Hv | rewrite Hc]; cbn); reflexivity.
Qed.

Lemma flush_vtype_visible (k : string) (mode : gl_mode) (held : option handle)
    (vs : list Q) (cs : list Z) (s : Screen) :
  visible s = true -> kind_mode k mode ->
  _vertex_lists s !! k = Some held ->
  _vertices s !! k = Some vs -> _colors s !! k = Some cs ->
  exists s',
    flush_vtype k s = (Ok tt, s') /\
    unbatched s' = unbatched s /\
    _vertex_lists s' = <[k := Some (next_handle (_batch s))]> (_vertex_lists s) /\
    next_handle (_batch s') = S (next_handle (_batch s)) /\
    lists (_batch s') =
      <[next_handle (_batch s) := mkVertexList (length vs / 3) mode vs cs]>
        (match held with
         | Some hd => delete hd (lists (_batch s))
         | None => lists (_batch s)
         end).
Proof.
  intros Hvis Hk Hh Hv Hc. unfold flush_vtype.
  rewrite (bind_ok _ _ s s held) by (unfold getitem; rewrite Hh; reflexivity).
  destruct held as [hd|].
  - set (s1 := with__vertex_lists (delete k (_vertex_lists s))
                 (with__batch (VertexList_delete hd (_batch s)) s)).
    rewrite (bind_ok _ _ s s1 tt)
      by (unfold bind, vlist_delete, modify, delitem; cbn; rewrite Hh; reflexivity).
    rewrite (bind_ok _ _ s1 s1 true) by (unfold gets; cbn; rewrite Hvis; reflexivity).
    cbn [negb].
    rewrite (bind_ok _ _ _ _ _ (flush_add_run k mode vs cs s1 Hk Hv Hc)).
    eexists. split; [reflexivity|]. cbn.
    split; [reflexivity|]. split; [apply insert_delete_eq|].
    split; reflexivity.
  - rewrite (bind_ok _ _ s s tt) by reflexivity.
    rewrite (bind_ok _ _ s s true) by (unfold gets; rewrite Hvis; reflexivity).
    cbn [negb].
    rewrite (bind_ok _ _ _ _ _ (flush_add_run k mode vs cs s Hk Hv Hc)).
    eexists. split; [reflexivity|]. cbn. repeat split; reflexivity.
Qed.

Lemma flush_vtype_hidden (k : string) (held : option handle) (s : Screen) :
  visible s = false ->
  _vertex_lists s !! k = Some held ->
  exists s',
    flush_vtype k s = (Ok tt, s') /\
    unbatched s' = unbatched s /\
    _vertex_lists s' =
      (match held with
       | Some _ => delete k (_vertex_lists s)
       | None => _vertex_lists s
       end) /\
    next_handle (_batch s') = next_handle (_batch s) /\
    lists (_batch s') =
      (match held with
       | Some hd => delete hd (lists (_batch s))
       | None => lists (_batch s)
       end).
Proof.
  intros Hvis Hh. unfold flush_vtype.
  rewrite (bind_ok _ _ s s held) by (unfold getitem; rewrite Hh; reflexivity).
  destruct held as [hd|].
  - set (s1 := with__vertex_lists (delete k (_vertex_lists s))
                 (with__batch (VertexList_delete hd (_batch s)) s)).
    rewrite (bind_ok _ _ s s1 tt)
      by (unfold bind, vlist_delete, modify, delitem; cbn; rewrite Hh; reflexivity).
    rewrite (bind_ok _ _ s1 s1 false) by (unfold gets; cbn; rewrite Hvis; reflexivity).
    exists s1. repeat split; reflexivity.
  - rewrite (bind_ok _ _ s s tt) by reflexivity.
    rewrite (bind_ok _ _ s s false) by (unfold gets; rewrite Hvis; reflexivity).
    exists s. repeat split; reflexivity.
Qed.

Lemma unbatched_fields (s s' : Screen) :
  unbatched s' = unbatched s ->
  visible s' = visible s /\ _vertices s' = _vertices s /\ _colors s' = _colors s.
Proof.
  intros H. split; [exact (f_equal visible H)|].
  split; [exact (f_equal _vertices H) | exact (f_equal _colors H)].
Qed.

Lemma flush_loop_visible (l : list string) (s : Screen) :
  NoDup l -> visible s = true ->
  (forall k, k ∈ l ->
     k ∈ _vertex_types /\ is_Some (_vertex_lists s !! k) /\
     is_Some (_vertices s !! k) /\ is_Some (_colors s !! k)) ->
  (forall k (hd : handle), k ∈ l -> _vertex_lists s !! k = Some (Some hd) ->
     (hd < next_handle (_batch s))%nat) ->
  exists s',
    for_each l flush_vtype s = (Ok tt, s') /\
    unbatched s' = unbatched s /\
    (forall k, k ∉ l -> _vertex_lists s' !! k = _vertex_lists s !! k) /\
    (next_handle (_batch s) <= next_handle (_batch s'))%nat /\
    (forall hd : handle, (hd < next_handle (_batch s))%nat ->
       (forall k, k ∈ l -> _vertex_lists s !! k <> Some (Some hd)) ->
       lists (_batch s') !! hd = lists (_batch s) !! hd) /\
    (forall k (hd : handle), k ∈ l -> _vertex_lists s !! k = Some (Some hd) ->
       lists (_batch s') !! hd = None) /\
    (forall hd : handle, (hd < next_handle (_batch s))%nat ->
       lists (_batch s) !! hd = None -> lists (_batch s') !! hd = None) /\
    (forall k mode vs cs, k ∈ l -> kind_mode k mode ->
       _vertices s !! k = Some vs -> _colors s !! k = Some cs ->
       exists hd : handle, (next_handle (_batch s) <= hd)%nat /\
         _vertex_lists s' !! k = Some (Some hd) /\
         lists (_batch s') !! hd = Some (mkVertexList (length vs / 3) mode vs cs)).
Proof.
  intros Hnd. revert s. induction Hnd as [|k l Hkl Hnd IH]; intros s Hvis Hpre Hmade.
  - exists s. split; [reflexivity|]. split; [reflexivity|].
    split; [intros; reflexivity|]. split; [lia|]. split; [intros; reflexivity|].
    split; [intros k hd Hin; inversion Hin|]. split; [auto|].
    intros k mode vs cs Hin. inversion Hin.
  - destruct (Hpre k) as (Hty & [held Hh] & [vs0 Hv0] & [cs0 Hc0]); [left|].
    apply kind_mode_types in Hty as [mode0 Hm0].
    destruct (flush_vtype_visible k mode0 held vs0 cs0 s Hvis Hm0 Hh Hv0 Hc0)
      as (s1 & Hrun1 & Hu1 & Hvl1 & Hn1 & Hl1).
    destruct (unbatched_fields _ _ Hu1) as (Hvis1 & Hvs1 & Hcs1).
    assert (Hsame : forall k', k' ∈ l ->
              _vertex_lists s1 !! k' = _vertex_lists s !! k').
    { intros k' Hk'. rewrite Hvl1. apply lookup_insert_ne. intros ->. contradiction. }
    assert (Hheld : forall hd : handle, held = Some hd -> (hd < next_handle (_batch s))%nat).
    { intros hd ->. apply (Hmade k hd); [left|exact Hh]. }
    destruct (IH s1) as (s' & Hrun & Hu & Hout & Hn & HU & HD & HW & HN).
    { congruence. }
    { intros k' Hk'. rewrite (Hsame k' Hk'), Hvs1, Hcs1. apply Hpre. right. exact Hk'. }
    { intros k' hd Hk' Hhd. rewrite (Hsame k' Hk') in Hhd. rewrite Hn1.
      apply Nat.lt_lt_succ_r. apply (Hmade k' hd); [right|]; assumption. }
    assert (Hkeep : forall hd : handle, (hd < next_handle (_batch s))%nat ->
              lists (_batch s) !! hd = None -> lists (_batch s1) !! hd = None).
    { intros hd Hlt Hnone. rewrite Hl1, lookup_insert_ne by lia.
      destruct held as [hd0|]; [|exact Hnone].
      apply lookup_delete_None. right. exact Hnone. }
    exists s'. split; [simpl; rewrite (bind_ok _ _ _ _ _ Hrun1); exact Hrun|].
    split; [congruence|].
    split; [|split; [lia|split; [|split; [|split]]]].
    + intros k' Hk'. apply not_elem_of_cons in Hk' as [Hne Hl].
      rewrite (Hout k' Hl), Hvl1. apply lookup_insert_ne. congruence.
    + intros hd Hlt Hfree. rewrite HU.
      * rewrite Hl1, lookup_insert_ne by lia.
        destruct held as [hd0|]; [|reflexivity].
        apply lookup_delete_ne. intros ->. apply (Hfree k); [left|exact Hh].
      * lia.
      * intros k' Hk'. rewrite (Hsame k' Hk'). apply Hfree. right. exact Hk'.
    + intros k' hd Hk' Hhd. apply elem_of_cons in Hk' as [->|Hk'].
      * rewrite Hh in Hhd. injection Hhd as ->.
        specialize (Hheld hd eq_refl).
        apply HW; [lia|]. rewrite Hl1, lookup_insert_ne by lia.
        apply lookup_delete_eq.
      * apply (HD k' hd Hk'). rewrite (Hsame k' Hk'). exact Hhd.
    + intros hd Hlt Hnone. apply HW; [lia|]. apply Hkeep; assumption.
    + intros k' mode vs cs Hk' Hm Hv Hc. apply elem_of_cons in Hk' as [->|Hk'].
      * exists (next_handle (_batch s)). split; [lia|].
        rewrite (Hout k Hkl), Hvl1, lookup_insert_eq. split; [reflexivity|].
        rewrite HU.
        -- rewrite Hl1, lookup_insert_eq.
           rewrite Hv0 in Hv. injection Hv as <-.
           rewrite Hc0 in Hc. injection Hc as <-.
           rewrite (kind_mode_fun _ _ _ Hm Hm0). reflexivity.
        -- lia.
        -- intros k' Hk' Hhd. rewrite (Hsame k' Hk') in Hhd.
           assert ((next_handle (_batch s) < next_handle (_batch s))%nat)
             by (apply (Hmade k' _); [right|]; assumption).
           lia.
      * destruct (HN k' mode vs cs Hk' Hm) as (hd & Hge & He & Hl);
          [congruence | congruence |].
        exists hd. split; [lia|]. split; assumption.
Qed.

Lemma flush_loop_hidden (l : list string) (s : Screen) :
  NoDup l -> visible s = false ->
  (forall k, k ∈ l -> is_Some (_vertex_lists s !! k)) ->
  exists s',
    for_each l flush_vtype s = (Ok tt, s') /\
    unbatched s' = unbatched s /\
    (forall k, k ∉ l -> _vertex_lists s' !! k = _vertex_lists s !! k) /\
    next_handle (_batch s') = next_handle (_batch s) /\
    (forall k, k ∈ l -> holds_none s' k) /\
    (forall hd : handle,
       (forall k, k ∈ l -> _vertex_lists s !! k <> Some (Some hd)) ->
       lists (_batch s') !! hd = lists (_batch s) !! hd) /\
    (forall k (hd : handle), k ∈ l -> _vertex_lists s !! k = Some (Some hd) ->
       lists (_batch s') !! hd = None) /\
    (forall hd : handle,
       lists (_batch s) !! hd = None -> lists (_batch s') !! hd = None).
Proof.
  intros Hnd. revert s. induction Hnd as [|k l Hkl Hnd IH]; intros s Hvis Hpre.
  - exists s. split; [reflexivity|]. split; [reflexivity|].
    split; [intros; reflexivity|]. split; [reflexivity|].
    split; [intros k Hin; inversion Hin|]. split; [intros; reflexivity|].
    split; [intros k hd Hin; inversion Hin|]. auto.
  - destruct (Hpre k) as [held Hh]; [left|].
    destruct (flush_vtype_hidden k held s Hvis Hh)
      as (s1 & Hrun1 & Hu1 & Hvl1 & Hn1 & Hl1).
    destruct (unbatched_fields _ _ Hu1) as (Hvis1 & _ & _).
    assert (Hsame : forall k', k' ∈ l ->
              _vertex_lists s1 !! k' = _vertex_lists s !! k').
    { intros k' Hk'. rewrite Hvl1. destruct held; [|reflexivity].
      apply lookup_delete_ne. intros ->. contradiction. }
    destruct (IH s1) as (s' & Hrun & Hu & Hout & Hn & Hnone & HU & HD & HW).
    { congruence. }
    { intros k' Hk'. rewrite (Hsame k' Hk'). apply Hpre. right. exact Hk'. }
    assert (Hkeep : forall hd : handle, lists (_batch s) !! hd = None ->
              lists (_batch s1) !! hd = None).
    { intros hd Hno. rewrite Hl1. destruct held as [hd0|]; [|exact Hno].
      apply lookup_delete_None. right. exact Hno. }
    exists s'. split; [simpl; rewrite (bind_ok _ _ _ _ _ Hrun1); exact Hrun|].
    split; [congruence|].
    split; [|split; [congruence|split; [|split; [|split]]]].
    + intros k' Hk'. apply not_elem_of_cons in Hk' as [Hne Hl].
      rewrite (Hout k' Hl), Hvl1. destruct held; [|reflexivity].
      apply lookup_delete_ne. congruence.
    + intros k' Hk'. apply elem_of_cons in Hk' as [->|Hk']; [|apply Hnone, Hk'].
      intros hd. rewrite (Hout k Hkl), Hvl1. destruct held as [hd0|].
      * rewrite lookup_delete_eq. discriminate.
      * rewrite Hh. discriminate.
    + intros hd Hfree. rewrite HU.
      * rewrite Hl1. destruct held as [hd0|]; [|reflexivity].
        apply lookup_delete_ne. intros ->. apply (Hfree k); [left|exact Hh].
      * intros k' Hk'. rewrite (Hsame k' Hk'). apply Hfree. right. exact Hk'.
    + intros k' hd Hk' Hhd. apply elem_of_cons in Hk' as [->|Hk'].
      * rewrite Hh in Hhd. injection Hhd as ->.
        apply HW. rewrite Hl1. apply lookup_delete_eq.
      * apply (HD k' hd Hk'). rewrite (Hsame k' Hk'). exact Hhd.
    + intros hd Hno. apply HW, Hkeep, Hno.
Qed.

Lemma clear_loop (l : list string) (s : Screen) :
  (forall k, k ∈ l -> is_Some (_vertices s !! k) /\ is_Some (_colors s !! k)) ->
  exists s',
    for_each l (fun vtype =>
      delitem _vertices with__vertices vtype ;;;
      delitem _colors with__colors vtype ;;;
      setitem _vertices with__vertices vtype [] ;;;
      setitem _colors with__colors vtype []) s = (Ok tt, s') /\
    (forall k, k ∈ l -> _vertices s' !! k = Some [] /\ _colors s' !! k = Some []) /\
    (forall k, k ∉ l ->
       _vertices s' !! k = _vertices s !! k /\ _colors s' !! k = _colors s !! k) /\
    unbuffered s' = unbuffered s.
Proof.
  revert s. induction l as [|k l IH]; intros s Hpre.
  - exists s. split; [reflexivity|].
    split; [intros k Hin; inversion Hin|]. repeat split; reflexivity.
  - destruct (Hpre k) as ([vs Hv] & [cs Hc]); [left|].
    set (s1 := with__colors (<[k := []]> (delete k (_colors s)))
                 (with__vertices (<[k := []]> (delete k (_vertices s))) s)).
    assert (Hrun1 :
      (delitem _vertices with__vertices k ;;;
       delitem _colors with__colors k ;;;
       setitem _vertices with__vertices k [] ;;;
       setitem _colors with__colors k []) s = (Ok tt, s1)).
    { unfold bind, delitem, setitem, modify. rewrite Hv. cbn. rewrite Hc.
      reflexivity. }
    destruct (IH s1) as (s' & Hrun & Hin & Hout & Hfr).
    { intros k' Hk'. unfold s1. cbn.
      destruct (decide (k = k')) as [->|Hne].
      - rewrite !lookup_insert_eq. split; eauto.
      - rewrite !lookup_insert_ne, !lookup_delete_ne by exact Hne.
        apply Hpre. right. exact Hk'. }
    exists s'. split; [simpl; rewrite (bind_ok _ _ _ _ _ Hrun1); exact Hrun|].
    split; [|split; [|exact Hfr]].
    + intros k' Hk'. destruct (decide (k' ∈ l)) as [Hl|Hl]; [apply Hin, Hl|].
      apply elem_of_cons in Hk' as [->|Hk']; [|contradiction].
      destruct (Hout k Hl) as [-> ->]. unfold s1. cbn.
      rewrite !lookup_insert_eq. split; reflexivity.
    + intros k' Hk'. apply not_elem_of_cons in Hk' as [Hne Hl].
      destruct (Hout k' Hl) as [-> ->]. unfold s1. cbn.
      rewrite !lookup_insert_ne, !lookup_delete_ne by congruence.
      split; reflexivity.
Qed.

Lemma NoDup_vertex_types : NoDup _vertex_types.
Proof.
  apply (bool_decide_unpack _). reflexivity.
Qed.

Lemma unbuffered_fields (s s' : Screen) :
  unbuffered s' = unbuffered s ->
  _batch s' = _batch s /\ _vertex_lists s' = _vertex_lists s /\
  visible s' = visible s.
Proof.
  intros H. split; [exact (f_equal _batch H)|].
  split; [exact (f_equal _vertex_lists H) | exact (f_equal visible H)].
Qed.

Lemma flush_frame (s s1 s' : Screen) :
  unbatched s1 = unbatched s -> unbuffered s' = unbuffered s1 ->
  unbatched (unbuffered s') = unbatched (unbuffered s).
Proof.
  intros H1 H2. rewrite H2.
  change (unbuffered (unbatched s1) = unbuffered (unbatched s)).
  rewrite H1. reflexivity.
Qed.

Lemma flush_run_visible (s : Screen) :
  kinds_present s -> handles_made s -> visible s = true ->
  exists s',
    flush s = (Ok tt, s') /\
    (forall k (hd : handle), k ∈ _vertex_types ->
       _vertex_lists s !! k = Some (Some hd) -> lists (_batch s') !! hd = None) /\
    (forall k mode vs cs, kind_mode k mode ->
       _vertices s !! k = Some vs -> _colors s !! k = Some cs ->
       holds_list s' k (mkVertexList (length vs / 3) mode vs cs)) /\
    (forall k, k ∈ _vertex_types ->
       _vertices s' !! k = Some [] /\ _colors s' !! k = Some []) /\
    (forall hd : handle, (hd < next_handle (_batch s))%nat ->
       (forall k, k ∈ _vertex_types -> _vertex_lists s !! k <> Some (Some hd)) ->
       lists (_batch s') !! hd = lists (_batch s) !! hd) /\
    (forall k, k ∉ _vertex_types -> _vertex_lists s' !! k = _vertex_lists s !! k) /\
    unbatched (unbuffered s') = unbatched (unbuffered s).
Proof.
  intros Hpre Hmade Hvis.
  destruct (flush_loop_visible _vertex_types s NoDup_vertex_types Hvis)
    as (s1 & Hrun1 & Hu1 & Hout1 & _ & HU & HD & _ & HN).
  { intros k Hk. split; [exact Hk | apply Hpre, Hk]. }
  { exact Hmade. }
  destruct (unbatched_fields _ _ Hu1) as (_ & Hvs1 & Hcs1).
  destruct (clear_loop _vertex_types s1) as (s' & Hrun & Hin & _ & Hfr).
  { intros k Hk. rewrite Hvs1, Hcs1. apply Hpre, Hk. }
  destruct (unbuffered_fields _ _ Hfr) as (Hb & Hvl & _).
  exists s'. split.
  { unfold flush. rewrite (bind_ok _ _ _ _ _ Hrun1). exact Hrun. }
  rewrite Hb, Hvl.
  split; [exact HD|].
  split; [|split; [exact Hin|split; [exact HU|split; [exact Hout1|]]]].
  - intros k mode vs cs Hm Hv Hc.
    destruct (HN k mode vs cs) as (hd & _ & He & Hl); try assumption.
    + apply kind_mode_types. eauto.
    + exists hd. rewrite Hb, Hvl. split; assumption.
  - exact (flush_frame s s1 s' Hu1 Hfr).
Qed.

Lemma flush_run_hidden (s : Screen) :
  kinds_present s -> visible s = false ->
  exists s',
    flush s = (Ok tt, s') /\
    (forall k (hd : handle), k ∈ _vertex_types ->
       _vertex_lists s !! k = Some (Some hd) -> lists (_batch s') !! hd = None) /\
    next_handle (_batch s') = next_handle (_batch s) /\
    (forall k, k ∈ _vertex_types -> holds_none s' k) /\
    (forall k, k ∈ _vertex_types ->
       _vertices s' !! k = Some [] /\ _colors s' !! k = Some []) /\
    (forall hd : handle,
       (forall k, k ∈ _vertex_types -> _vertex_lists s !! k <> Some (Some hd)) ->
       lists (_batch s') !! hd = lists (_batch s) !! hd) /\
    (forall k, k ∉ _vertex_types -> _vertex_lists s' !! k = _vertex_lists s !! k) /\
    unbatched (unbuffered s') = unbatched (unbuffered s).
Proof.
  intros Hpre Hvis.
  destruct (flush_loop_hidden _vertex_types s NoDup_vertex_types Hvis)
    as (s1 & Hrun1 & Hu1 & Hout1 & Hn1 & Hnone & HU & HD & _).
  { intros k Hk. apply Hpre, Hk. }
  destruct (unbatched_fields _ _ Hu1) as (_ & Hvs1 & Hcs1).
  destruct (clear_loop _vertex_types s1) as (s' & Hrun & Hin & _ & Hfr).
  { intros k Hk. rewrite Hvs1, Hcs1. apply Hpre, Hk. }
  destruct (unbuffered_fields _ _ Hfr) as (Hb & Hvl & _).
  exists s'. split.
  { unfold flush. rewrite (bind_ok _ _ _ _ _ Hrun1). exact Hrun. }
  unfold holds_none. rewrite Hb, Hvl.
  split; [exact HD|]. split; [exact Hn1|]. split; [exact Hnone|].
  split; [exact Hin|]. split; [exact HU|]. split; [exact Hout1|].
  exact (flush_frame s s1 s' Hu1 Hfr).
Qed.

(** C5.  On a screen that has an entry and the two buffers for each kind
    and whose held vertex lists were made by its batch, [flush] returns.
    For each kind, a vertex list that the entry held is deleted from the
    batch; when the screen is visible, the entry then holds a new vertex
    list with the buffered vertex and colour arrays, a count of a third of
    the vertex array and the primitive mode of the kind ([GL_POINTS],
    [GL_LINES], [GL_LINE_STRIP], [GL_TRIANGLES], [GL_QUADS]); when it is
    not visible, nothing is added to the batch and no entry holds a vertex
    list.  In both cases the vertex and colour buffers of all kinds are
    empty afterwards. *)
Theorem flush_uploads_and_clears (s : Screen) :
  kinds_present s -> handles_made s ->
  exists s',
    flush s = (Ok tt, s') /\
    (forall k (hd : handle), k ∈ _vertex_types ->
       _vertex_lists s !! k = Some (Some hd) -> lists (_batch s') !! hd = None) /\
    (visible s = true ->
     forall k mode vs cs, kind_mode k mode ->
       _vertices s !! k = Some vs -> _colors s !! k = Some cs ->
       holds_list s' k (mkVertexList (length vs / 3) mode vs cs)) /\
    (visible s = false ->
     next_handle (_batch s') = next_handle (_batch s) /\
     forall k, k ∈ _vertex_types -> holds_none s' k) /\
    (forall k, k ∈ _vertex_types ->
       _vertices s' !! k = Some [] /\ _colors s' !! k = Some []).
Proof.
  intros Hpre Hmade. destruct (visible s) eqn:Hvis.
  - destruct (flush_run_visible s Hpre Hmade Hvis)
      as (s' & Hrun & HD & HN & Hclr & _).
    exists s'. split; [exact Hrun|]. split; [exact HD|].
    split; [intros _; exact HN|]. split; [discriminate|exact Hclr].
  - destruct (flush_run_hidden s Hpre Hvis)
      as (s' & Hrun & HD & Hn & Hnone & Hclr & _).
    exists s'. split; [exact Hrun|]. split; [exact HD|].
    split; [discriminate|]. split; [intros _; split; assumption|exact Hclr].
Qed.

Lemma fresh_kinds_present (px py width height : Q) (bg0 : list Z) (vis act : bool)
    (vs : list Q) (cs : list Z) :
  kinds_present
    (state_after (set_points vs cs) (snd (Screen2D_init px py width height bg0 vis act))).
Proof.
  intros k Hk. unfold _vertex_types in Hk.
  repeat (apply elem_of_cons in Hk as [->|Hk];
          [split; [|split]; eexists; reflexivity|]).
  inversion Hk.
Qed.

Lemma fresh_handles_made (px py width height : Q) (bg0 : list Z) (vis act : bool)
    (vs : list Q) (cs : list Z) :
  handles_made
    (state_after (set_points vs cs) (snd (Screen2D_init px py width height bg0 vis act))).
Proof.
  intros k hd Hk E. unfold _vertex_types in Hk.
  repeat (apply elem_of_cons in Hk as [->|Hk]; [discriminate E|]).
  inversion Hk.
Qed.

Lemma flush_uploads_and_clears_witness :
  exists s',
    flush (state_after (set_points [1; 2; 3] [255; 0; 0]%Z)
             (snd (Screen2D_init 0 0 100 100 [0; 0; 0]%Z true true))) = (Ok tt, s') /\
    holds_list s' "points" (mkVertexList 1 GL_POINTS [1; 2; 3] [255; 0; 0]%Z) /\
    _vertices s' !! "points" = Some [].
Proof.
  destruct (flush_uploads_and_clears
              (state_after (set_points [1; 2; 3] [255; 0; 0]%Z)
                 (snd (Screen2D_init 0 0 100 100 [0; 0; 0]%Z true true))))
    as (s' & Hrun & _ & HN & _ & Hclr).
  - apply fresh_kinds_present.
  - apply fresh_handles_made.
  - exists s'. split; [exact Hrun|]. split.
    + apply (HN eq_refl "points"%string GL_POINTS [1; 2; 3] [255; 0; 0]%Z);
        [constructor | reflexivity | reflexivity].
    + apply Hclr. apply list_elem_of_here.
Defined.

(** C6, as the code has it.  On such a screen whose buffers are all
    empty, [flush] returns and the buffers are empty afterwards.  When the
    screen is not visible, no entry of a kind holds a vertex list
    afterwards; when it is visible, the entry of each kind holds a new
    vertex list of no vertices with the primitive mode of the kind. *)
Theorem flush_of_empty_buffers (s : Screen) :
  kinds_present s -> handles_made s ->
  (forall k, k ∈ _vertex_types ->
     _vertices s !! k = Some [] /\ _colors s !! k = Some []) ->
  exists s',
    flush s = (Ok tt, s') /\
    (forall k, k ∈ _vertex_types ->
       _vertices s' !! k = Some [] /\ _colors s' !! k = Some []) /\
    (visible s = false -> forall k, k ∈ _vertex_types -> holds_none s' k) /\
    (visible s = true ->
     forall k mode, kind_mode k mode ->
       holds_list s' k (mkVertexList 0 mode [] [])).
Proof.
  intros Hpre Hmade Hempty. destruct (visible s) eqn:Hvis.
  - destruct (flush_run_visible s Hpre Hmade Hvis)
      as (s' & Hrun & _ & HN & Hclr & _).
    exists s'. split; [exact Hrun|]. split; [exact Hclr|].
    split; [discriminate|]. intros _ k mode Hm.
    assert (Hk : k ∈ _vertex_types) by (apply kind_mode_types; eauto).
    destruct (Hempty k Hk) as [Hv Hc].
    exact (HN k mode [] [] Hm Hv Hc).
  - destruct (flush_run_hidden s Hpre Hvis)
      as (s' & Hrun & _ & _ & Hnone & Hclr & _).
    exists s'. split; [exact Hrun|]. split; [exact Hclr|].
    split; [intros _; exact Hnone | discriminate].
Qed.

Lemma flush_of_empty_buffers_witness :
  exists s',
    flush (state_after (set_points [] [])
             (snd (Screen2D_init 0 0 100 100 [0; 0; 0]%Z false true))) = (Ok tt, s') /\
    holds_none s' "points" /\ holds_none s' "quads".
Proof.
  destruct (flush_of_empty_buffers
              (state_after (set_points [] [])
                 (snd (Screen2D_init 0 0 100 100 [0; 0; 0]%Z false true))))
    as (s' & Hrun & _ & Hnone & _).
  - apply fresh_kinds_present.
  - apply fresh_handles_made.
  - intros k Hk. unfold _vertex_types in Hk.
    repeat (apply elem_of_cons in Hk as [->|Hk]; [split; reflexivity|]).
    inversion Hk.
  - exists s'. split; [exact Hrun|].
    split; apply (Hnone eq_refl); unfold _vertex_types;
      repeat (first [apply list_elem_of_here | apply list_elem_of_further]).
Defined.

(** C6, as the claim has it, fails: on a fresh visible screen all buffers
    are empty, and after [flush] the entry of every kind holds a vertex
    list. *)
Lemma flush_empty_visible_holds_lists :
  (fun k => (_vertices (snd (Screen2D_init 0 0 100 100 [0; 0; 0]%Z true true)) !! k,
             _colors (snd (Screen2D_init 0 0 100 100 [0; 0; 0]%Z true true)) !! k))
    <$> _vertex_types
  = [(Some [], Some []); (Some [], Some []); (Some [], Some []);
     (Some [], Some []); (Some [], Some [])] /\
  result_of flush (snd (Screen2D_init 0 0 100 100 [0; 0; 0]%Z true true)) = Ok tt /\
  (fun k => _vertex_lists
              (state_after flush
                 (snd (Screen2D_init 0 0 100 100 [0; 0; 0]%Z true true))) !! k)
    <$> _vertex_types
  = [Some (Some 1%nat); Some (Some 2%nat); Some (Some 3%nat); Some (Some 4%nat);
     Some (Some 5%nat)] /\
  lists (_batch (state_after flush
                   (snd (Screen2D_init 0 0 100 100 [0; 0; 0]%Z true true)))) !! 1%nat
  = Some (mkVertexList 0 GL_POINTS [] []).
Proof.
  split; [vm_compute; reflexivity|]. split; [vm_compute; reflexivity|].
  split; vm_compute; reflexivity.
Qed.

(** * Further properties *)

(** ** The hit box of a screen *)

Lemma Qltb_iff (a b : Q) : Qltb a b = true <-> a < b.
Proof.
  split; [apply Qltb_true|]. intros H. unfold Qltb. apply negb_true_iff.
  destruct (Qle_bool b a) eqn:E; [|reflexivity].
  apply Qle_bool_iff in E. exfalso. apply (Qlt_not_le _ _ H E).
Qed.

(** X1. [is_inside] is true exactly for the points of the half-open
    rectangle [x <= px < x + w], [y <= py < y + h]: the left and bottom edges
    are inside, the right and top edges are not. *)
Theorem is_inside_bounds (s : Screen) (px py : Q) :
  is_inside px py s = true <->
  x s <= px /\ px < x s + w s /\ y s <= py /\ py < y s + h s.
Proof.
  unfold is_inside. rewrite !andb_true_iff, !Qltb_iff, !Qle_bool_iff.
  split.
  - intros [[[H1 H2] H3] H4]. repeat split; lra.
  - intros (H1 & H2 & H3 & H4). repeat split; lra.
Qed.

(** X2. [set_pos] moves the hit box with the screen: a point shifted by the
    same amount as the position is inside after the move exactly when the
    point was inside before. *)
Theorem set_pos_moves_hit_box (s : Screen) (px py dx dy : Q) :
  result_of (set_pos (x s + dx) (y s + dy)) s = Ok tt /\
  is_inside (px + dx) (py + dy) (state_after (set_pos (x s + dx) (y s + dy)) s)
  = is_inside px py s.
Proof.
  split; [reflexivity|]. unfold is_inside, Qltb. cbn.
  assert (Ex : px + dx - (x s + dx) == px - x s) by ring.
  assert (Ey : py + dy - (y s + dy) == py - y s) by ring.
  rewrite Ex, Ey. reflexivity.
Qed.

(** ** Buffers *)


(** X3. [Screen3D.add_points] compares no lengths: on a screen that has its
    two ["points"] buffers it returns for any two arrays and has appended
    them, so that the buffers can end with different lengths. *)
Theorem Screen3D_add_points_unchecked (s : Screen) (points ps0 : list Q)
    (colors cs0 : list Z) :
  _vertices s !! "points" = Some ps0 -> _colors s !! "points" = Some cs0 ->
  exists s',
    Screen3D_add_points points colors s = (Ok tt, s') /\
    _vertices s' !! "points" = Some (ps0 ++ points) /\
    _colors s' !! "points" = Some (cs0 ++ colors).
Proof.
  intros Hv Hc. unfold Screen3D_add_points. eexists. split.
  - rewrite (bind_ok _ _ _ _ _ (extend_run _vertices with__vertices _ _ _ s Hv)).
    apply extend_run. exact Hc.
  - cbn. split; apply lookup_insert_eq.
Qed.

Lemma Screen3D_add_points_unchecked_witness :
  exists s',
    Screen3D_add_points [1; 2; 3] []
      (base3 (snd (Screen3D_init 0 0 100 100 [0; 0; 100] [0; 0; 0] [0; 0; 0]
                     [0; 0; 0]%Z true true))) = (Ok tt, s') /\
    _vertices s' !! "points" = Some [1; 2; 3] /\
    _colors s' !! "points" = Some [].
Proof.
  apply (Screen3D_add_points_unchecked
           (base3 (snd (Screen3D_init 0 0 100 100 [0; 0; 100] [0; 0; 0] [0; 0; 0]
                          [0; 0; 0]%Z true true)))
           [1; 2; 3] [] [] []); reflexivity.
Defined.

(** ** The buffers as list objects *)

Lemma contents_grow (r r' : ref) (xs : list Q) (b : Buffers) :
  contents (grow r xs b) r' =
    if decide (r' = r) then contents b r ++ xs else contents b r'.
Proof. reflexivity. Qed.

Lemma contents_grow_eq (r : ref) (xs : list Q) (b : Buffers) :
  contents (grow r xs b) r = contents b r ++ xs.
Proof. rewrite contents_grow. apply decide_True. reflexivity. Qed.

Lemma contents_grow_ne (r r' : ref) (xs : list Q) (b : Buffers) :
  r' <> r -> contents (grow r xs b) r' = contents b r'.
Proof. intros H. rewrite contents_grow. apply decide_False. exact H. Qed.

Lemma extend_obj_run (d : Buffers -> gmap string ref) (k : string)
    (e : Buffers -> list Q) (b : Buffers) (r : ref) :
  d b !! k = Some r -> extend_obj d k e b = (Ok tt, grow r (e b) b).
Proof. intros H. unfold extend_obj, bind, getitem. rewrite H. reflexivity. Qed.

(** The two statements of a method that adds a primitive of kind [k]. *)
Lemma extend_both_run (k : string) (vs : list Q) (e : Buffers -> list Q)
    (b : Buffers) (rv rc : ref) :
  _vertices_obj b !! k = Some rv -> _colors_obj b !! k = Some rc ->
  (extend_obj _vertices_obj k (fun _ => vs) ;;; extend_obj _colors_obj k e) b
  = (Ok tt, grow rc (e (grow rv vs b)) (grow rv vs b)).
Proof.
  intros Hv Hc.
  rewrite (then_run _ _ _ _ _ (extend_obj_run _vertices_obj k _ b rv Hv)).
  apply (extend_obj_run _colors_obj k e (grow rv vs b) rc). exact Hc.
Qed.

Lemma grow_both_separate (rv rc : ref) (vs cs : list Q) (b : Buffers) :
  separate b -> separate (grow rc cs (grow rv vs b)).
Proof. intros H. exact H. Qed.







(** ** The view of a GraphScreen after an operation that redraws *)

Lemma after_redraw (render : M GraphScreen unit) (s0 s1 : GraphScreen)
    (r : outcome unit) :
  draws_only render -> redraw render s0 = (r, s1) ->
  view_state s1 = view_state s0.
Proof.
  intros Hd Hrun. pose proof (redraw_undrawn render Hd s0) as H.
  unfold state_after in H. rewrite Hrun in H.
  exact (f_equal view_state H).
Qed.

Lemma zoom_in_body (render : M GraphScreen unit) (s : GraphScreen) (px py : Q)
    (ms : Z) :
  ~ w (base s) == 0 -> ~ h (base s) == 0 -> ~ zoom_valobj s == 0 ->
  exists s0,
    mouse_up render px py MOUSE_LEFT ms s = redraw render s0 /\
    view_state s0 =
      (gx s - gw s / 2 + px * gw s / w (base s),
       gy s - gh s / 2 + py * gh s / h (base s),
       gw s * zoom_valobj s, gh s * zoom_valobj s,
       (gx s - gw s / 2 + px * gw s / w (base s) - gw s * zoom_valobj s / 2,
        gx s - gw s / 2 + px * gw s / w (base s) + gw s * zoom_valobj s / 2,
        gy s - gh s / 2 + py * gh s / h (base s) - gh s * zoom_valobj s / 2,
        gy s - gh s / 2 + py * gh s / h (base s) + gh s * zoom_valobj s / 2),
       total_zoom s * (1 / zoom_valobj s * (1 / zoom_valobj s)),
       size (base s), zoom_valobj s, reset_view s, drag_start s, drag s,
       offsx s, offsy s).
Proof.
  intros Hw Hh Hz. unfold mouse_up. eexists. split.
  - eapply then_run. unfold recentre, _set_graph_minmax. exec. divide. reflexivity.
  - reflexivity.
Qed.

Lemma zoom_out_body (render : M GraphScreen unit) (s : GraphScreen) (px py : Q)
    (ms : Z) :
  ~ w (base s) == 0 -> ~ h (base s) == 0 -> ~ zoom_valobj s == 0 ->
  exists s0,
    mouse_up render px py MOUSE_RIGHT ms s = redraw render s0 /\
    view_state s0 =
      (gx s - gw s / 2 + px * gw s / w (base s),
       gy s - gh s / 2 + py * gh s / h (base s),
       gw s / zoom_valobj s, gh s / zoom_valobj s,
       (gx s - gw s / 2 + px * gw s / w (base s) - gw s / zoom_valobj s / 2,
        gx s - gw s / 2 + px * gw s / w (base s) + gw s / zoom_valobj s / 2,
        gy s - gh s / 2 + py * gh s / h (base s) - gh s / zoom_valobj s / 2,
        gy s - gh s / 2 + py * gh s / h (base s) + gh s / zoom_valobj s / 2),
       total_zoom s / (1 / zoom_valobj s * (1 / zoom_valobj s)),
       size (base s), zoom_valobj s, reset_view s, drag_start s, drag s,
       offsx s, offsy s).
Proof.
  intros Hw Hh Hz. unfold mouse_up. eexists. split.
  - eapply then_run. unfold recentre, _set_graph_minmax. exec. divide.
    rewrite pdiv_ok by (apply inv_sq_nonzero; exact Hz). reflexivity.
  - reflexivity.
Qed.

Ltac view_of H :=
  unfold view_state, view_box, box, size in H;
  injection H as ?Hgx ?Hgy ?Hgw ?Hgh ?Hb1 ?Hb2 ?Hb3 ?Hb4 ?Htz ?Hw' ?Hh' ?Hzv
    ?Hrv ?Hds ?Hdr ?Hox ?Hoy.

(** X5. Zooming in at any point and then zooming out at the centre of the
    screen gives back the extent and [total_zoom] of before, and keeps the
    centre that the zoom-in chose. *)
Theorem zoom_out_undoes_zoom_in (render : M GraphScreen unit)
    (s s1 s2 : GraphScreen) (px py : Q) (ms ms' : Z) :
  draws_only render ->
  ~ w (base s) == 0 -> ~ h (base s) == 0 -> ~ zoom_valobj s == 0 ->
  mouse_up render px py MOUSE_LEFT ms s = (Ok tt, s1) ->
  mouse_up render (w (base s) / 2) (h (base s) / 2) MOUSE_RIGHT ms' s1 = (Ok tt, s2) ->
  gx s2 == gx s1 /\ gy s2 == gy s1 /\
  gw s2 == gw s /\ gh s2 == gh s /\ total_zoom s2 == total_zoom s.
Proof.
  intros Hd Hw Hh Hz Hin Hout.
  destruct (zoom_in_body render s px py ms Hw Hh Hz) as (s0 & E0 & V0).
  rewrite E0 in Hin. apply (after_redraw render _ _ _ Hd) in Hin.
  rewrite V0 in Hin. clear E0 V0 s0. view_of Hin.
  destruct (zoom_out_body render s1 (w (base s) / 2) (h (base s) / 2) ms')
    as (s0 & E0 & V0); try congruence.
  rewrite E0 in Hout. apply (after_redraw render _ _ _ Hd) in Hout.
  rewrite V0 in Hout. clear E0 V0 s0. view_of Hout.
  rewrite Hgx0, Hgy0, Hgw0, Hgh0, Htz0, Hzv, Hw', Hh', Hgw, Hgh, Htz.
  repeat split; field; auto.
Qed.

Lemma zoom_out_undoes_zoom_in_witness :
  gw (state_after (mouse_up Screen_render (100 / 2) (100 / 2) MOUSE_RIGHT 0%Z)
        (state_after (mouse_up Screen_render 30 70 MOUSE_LEFT 0%Z)
           (snd (GraphScreen_init 0 0 100 100 0 0 10 10 (1 # 2) [0; 0; 0]%Z true true))))
  == 10 /\
  total_zoom
    (state_after (mouse_up Screen_render (100 / 2) (100 / 2) MOUSE_RIGHT 0%Z)
       (state_after (mouse_up Screen_render 30 70 MOUSE_LEFT 0%Z)
          (snd (GraphScreen_init 0 0 100 100 0 0 10 10 (1 # 2) [0; 0; 0]%Z true true))))
  == 1.
Proof.
  destruct (zoom_out_undoes_zoom_in Screen_render
              (snd (GraphScreen_init 0 0 100 100 0 0 10 10 (1 # 2) [0; 0; 0]%Z true true))
              (state_after (mouse_up Screen_render 30 70 MOUSE_LEFT 0%Z)
                 (snd (GraphScreen_init 0 0 100 100 0 0 10 10 (1 # 2) [0; 0; 0]%Z
                         true true)))
              (state_after (mouse_up Screen_render (100 / 2) (100 / 2) MOUSE_RIGHT 0%Z)
                 (state_after (mouse_up Screen_render 30 70 MOUSE_LEFT 0%Z)
                    (snd (GraphScreen_init 0 0 100 100 0 0 10 10 (1 # 2) [0; 0; 0]%Z
                            true true))))
              30 70 0%Z 0%Z Screen_render_draws)
    as (_ & _ & Hgw & _ & Htz).
  - intros E. vm_compute in E. discriminate E.
  - intros E. vm_compute in E. discriminate E.
  - intros E. vm_compute in E. discriminate E.
  - vm_compute. reflexivity.
  - vm_compute. reflexivity.
  - split; [exact Hgw | exact Htz].
Defined.

(** X6. In exact arithmetic, a zoom, in or out, keeps the product of
    [total_zoom] and the area [gw * gh] of the view. *)
Theorem zoom_keeps_zoom_times_area (render : M GraphScreen unit)
    (s s1 : GraphScreen) (px py : Q) (b : button) (ms : Z) :
  draws_only render ->
  ~ w (base s) == 0 -> ~ h (base s) == 0 -> ~ zoom_valobj s == 0 ->
  b = MOUSE_LEFT \/ b = MOUSE_RIGHT ->
  mouse_up render px py b ms s = (Ok tt, s1) ->
  total_zoom s1 * (gw s1 * gh s1) == total_zoom s * (gw s * gh s).
Proof.
  intros Hd Hw Hh Hz [-> | ->] Hrun.
  - destruct (zoom_in_body render s px py ms Hw Hh Hz) as (s0 & E0 & V0).
    rewrite E0 in Hrun. apply (after_redraw render _ _ _ Hd) in Hrun.
    rewrite V0 in Hrun. view_of Hrun. rewrite Hgw, Hgh, Htz. field. exact Hz.
  - destruct (zoom_out_body render s px py ms Hw Hh Hz) as (s0 & E0 & V0).
    rewrite E0 in Hrun. apply (after_redraw render _ _ _ Hd) in Hrun.
    rewrite V0 in Hrun. view_of Hrun. rewrite Hgw, Hgh, Htz. field. exact Hz.
Qed.

Lemma zoom_keeps_zoom_times_area_witness :
  total_zoom (state_after (mouse_up Screen_render 30 70 MOUSE_RIGHT 0%Z)
                (snd (GraphScreen_init 0 0 100 100 0 0 10 10 (1 # 2) [0; 0; 0]%Z
                        true true)))
  * (gw (state_after (mouse_up Screen_render 30 70 MOUSE_RIGHT 0%Z)
           (snd (GraphScreen_init 0 0 100 100 0 0 10 10 (1 # 2) [0; 0; 0]%Z
                   true true)))
     * gh (state_after (mouse_up Screen_render 30 70 MOUSE_RIGHT 0%Z)
             (snd (GraphScreen_init 0 0 100 100 0 0 10 10 (1 # 2) [0; 0; 0]%Z
                     true true))))
  == 1 * (10 * 10).
Proof.
  apply (zoom_keeps_zoom_times_area Screen_render
           (snd (GraphScreen_init 0 0 100 100 0 0 10 10 (1 # 2) [0; 0; 0]%Z true true))
           _ 30 70 MOUSE_RIGHT 0%Z Screen_render_draws).
  - intros E. vm_compute in E. discriminate E.
  - intros E. vm_compute in E. discriminate E.
  - intros E. vm_compute in E. discriminate E.
  - right. reflexivity.
  - vm_compute. reflexivity.
Defined.

(** X7. A zoom-in makes the clicked point the centre of the view: the new
    centre is the plot point that [on_plot] gave for the click before the
    zoom, and after the zoom [on_screen] maps it to the middle of the
    screen (exact arithmetic). *)
Theorem zoom_in_centres_click (render : M GraphScreen unit)
    (s s1 : GraphScreen) (px py : Q) (ms : Z) :
  draws_only render ->
  ~ w (base s) == 0 -> ~ h (base s) == 0 -> ~ zoom_valobj s == 0 ->
  ~ gw s == 0 -> ~ gh s == 0 ->
  mouse_up render px py MOUSE_LEFT ms s = (Ok tt, s1) ->
  exists p q,
    on_plot px py s = Ok p /\ gx s1 == fst p /\ gy s1 == snd p /\
    on_screen (gx s1) (gy s1) s1 = Ok q /\
    fst q == w (base s) / 2 /\ snd q == h (base s) / 2.
Proof.
  intros Hd Hw Hh Hz Hgw0 Hgh0 Hrun.
  destruct (zoom_in_body render s px py ms Hw Hh Hz) as (s0 & E0 & V0).
  rewrite E0 in Hrun. apply (after_redraw render _ _ _ Hd) in Hrun.
  rewrite V0 in Hrun. view_of Hrun.
  assert (Hgw1 : ~ gw s1 == 0).
  { rewrite Hgw. intros E. apply Qmult_integral in E. tauto. }
  assert (Hgh1 : ~ gh s1 == 0).
  { rewrite Hgh. intros E. apply Qmult_integral in E. tauto. }
  eexists _, _. rewrite on_plot_ok by assumption.
  split; [reflexivity|]. cbn [fst snd].
  split; [rewrite Hgx; ring|]. split; [rewrite Hgy; ring|].
  rewrite on_screen_ok by assumption. split; [reflexivity|]. cbn [fst snd].
  rewrite Hw', Hh'. split; field; assumption.
Qed.

Lemma zoom_in_centres_click_witness :
  exists p q,
    on_plot 30 70
      (snd (GraphScreen_init 0 0 100 100 0 0 10 10 (1 # 2) [0; 0; 0]%Z true true)) = Ok p /\
    gx (state_after (mouse_up Screen_render 30 70 MOUSE_LEFT 0%Z)
          (snd (GraphScreen_init 0 0 100 100 0 0 10 10 (1 # 2) [0; 0; 0]%Z true true)))
    == fst p /\
    gy (state_after (mouse_up Screen_render 30 70 MOUSE_LEFT 0%Z)
          (snd (GraphScreen_init 0 0 100 100 0 0 10 10 (1 # 2) [0; 0; 0]%Z true true)))
    == snd p /\
    on_screen
      (gx (state_after (mouse_up Screen_render 30 70 MOUSE_LEFT 0%Z)
             (snd (GraphScreen_init 0 0 100 100 0 0 10 10 (1 # 2) [0; 0; 0]%Z true true))))
      (gy (state_after (mouse_up Screen_render 30 70 MOUSE_LEFT 0%Z)
             (snd (GraphScreen_init 0 0 100 100 0 0 10 10 (1 # 2) [0; 0; 0]%Z true true))))
      (state_after (mouse_up Screen_render 30 70 MOUSE_LEFT 0%Z)
         (snd (GraphScreen_init 0 0 100 100 0 0 10 10 (1 # 2) [0; 0; 0]%Z true true)))
    = Ok q /\
    fst q == 100 / 2 /\ snd q == 100 / 2.
Proof.
  apply (zoom_in_centres_click Screen_render
           (snd (GraphScreen_init 0 0 100 100 0 0 10 10 (1 # 2) [0; 0; 0]%Z true true))
           _ 30 70 0%Z Screen_render_draws).
  - intros E. vm_compute in E. discriminate E.
  - intros E. vm_compute in E. discriminate E.
  - intros E. vm_compute in E. discriminate E.
  - intros E. vm_compute in E. discriminate E.
  - intros E. vm_compute in E. discriminate E.
  - vm_compute. reflexivity.
Defined.

(** ** Nudges and the pan *)

Lemma nudge_inv (render : M GraphScreen unit) (g : GraphScreen -> GraphScreen)
    (s s1 : GraphScreen) :
  draws_only render ->
  (modify g ;;; _set_graph_minmax ;;; redraw render) s = (Ok tt, s1) ->
  gx s1 = gx (g s) /\ gy s1 = gy (g s) /\ gw s1 = gw (g s) /\ gh s1 = gh (g s) /\
  box_fresh s1.
Proof.
  intros Hd Hrun.
  change (redraw render (state_after _set_graph_minmax (g s)) = (Ok tt, s1)) in Hrun.
  apply (after_redraw render _ _ _ Hd) in Hrun.
  destruct (minmax_run (g s)) as (s0 & E0 & Hbox & Hgx & Hgy & Hgw & Hgh & _).
  unfold state_after in Hrun. rewrite E0 in Hrun. cbn [snd] in Hrun.
  assert (Hvb : view_box s1 = view_box s0)
    by exact (f_equal (fun v => fst (fst (fst (fst (fst (fst (fst (fst v))))))))
                Hrun).
  split; [|split; [|split; [|split]]].
  - rewrite <- Hgx. exact (f_equal (fun v => fst (fst (fst (fst v)))) Hvb).
  - rewrite <- Hgy. exact (f_equal (fun v => snd (fst (fst (fst v)))) Hvb).
  - rewrite <- Hgw. exact (f_equal (fun v => snd (fst (fst v))) Hvb).
  - rewrite <- Hgh. exact (f_equal (fun v => snd (fst v)) Hvb).
  - exact (box_fresh_view_box s0 s1 Hvb Hbox).
Qed.

Lemma left_inv (render : M GraphScreen unit) (s s1 : GraphScreen) :
  draws_only render -> left render s = (Ok tt, s1) ->
  gx s1 = gx s - gw s / 5 /\ gy s1 = gy s /\ gw s1 = gw s /\ gh s1 = gh s /\
  box_fresh s1.
Proof.
  intros Hd. unfold left. intros Hrun.
  exact (nudge_inv render (fun s => with_gx (gx s - gw s / 5) s) s s1 Hd Hrun).
Qed.

Lemma right_inv (render : M GraphScreen unit) (s s1 : GraphScreen) :
  draws_only render -> right render s = (Ok tt, s1) ->
  gx s1 = gx s + gw s / 5 /\ gy s1 = gy s /\ gw s1 = gw s /\ gh s1 = gh s /\
  box_fresh s1.
Proof.
  intros Hd. unfold right. intros Hrun.
  exact (nudge_inv render (fun s => with_gx (gx s + gw s / 5) s) s s1 Hd Hrun).
Qed.

Lemma up_inv (render : M GraphScreen unit) (s s1 : GraphScreen) :
  draws_only render -> up render s = (Ok tt, s1) ->
  gx s1 = gx s /\ gy s1 = gy s + gh s / 5 /\ gw s1 = gw s /\ gh s1 = gh s /\
  box_fresh s1.
Proof.
  intros Hd. unfold up. intros Hrun.
  exact (nudge_inv render (fun s => with_gy (gy s + gh s / 5) s) s s1 Hd Hrun).
Qed.

Lemma down_inv (render : M GraphScreen unit) (s s1 : GraphScreen) :
  draws_only render -> down render s = (Ok tt, s1) ->
  gx s1 = gx s /\ gy s1 = gy s - gh s / 5 /\ gw s1 = gw s /\ gh s1 = gh s /\
  box_fresh s1.
Proof.
  intros Hd. unfold down. intros Hrun.
  exact (nudge_inv render (fun s => with_gy (gy s - gh s / 5) s) s s1 Hd Hrun).
Qed.

(** X8. The four arrow keys move the centre by a fifth of the extent, and
    opposite keys undo each other: after LEFT and then RIGHT, or UP and then
    DOWN, in either order, centre and extent are those of before and the
    bounding box is that of the view (exact arithmetic). *)
Theorem opposite_nudges_cancel (render : M GraphScreen unit)
    (s s1 s2 : GraphScreen) (a b : key) (ms ms' : Z) :
  draws_only render ->
  In (a, b) [(KEY_LEFT, KEY_RIGHT); (KEY_RIGHT, KEY_LEFT);
             (KEY_UP, KEY_DOWN); (KEY_DOWN, KEY_UP)] ->
  GraphScreen_key_down render a ms s = (Ok tt, s1) ->
  GraphScreen_key_down render b ms' s1 = (Ok tt, s2) ->
  (a = KEY_LEFT -> gx s1 = gx s - gw s / 5) /\
  (a = KEY_RIGHT -> gx s1 = gx s + gw s / 5) /\
  (a = KEY_UP -> gy s1 = gy s + gh s / 5) /\
  (a = KEY_DOWN -> gy s1 = gy s - gh s / 5) /\
  gx s2 == gx s /\ gy s2 == gy s /\ gw s2 = gw s /\ gh s2 = gh s /\
  box_fresh s2.
Proof.
  intros Hd Hab. cbn in Hab.
  destruct Hab as [E|[E|[E|[E|[]]]]]; injection E as <- <-;
    cbv beta iota delta [GraphScreen_key_down]; intros H1 H2.
  - destruct (left_inv render s s1 Hd H1) as (Hx1 & Hy1 & Hw1 & Hh1 & _).
    destruct (right_inv render s1 s2 Hd H2) as (Hx2 & Hy2 & Hw2 & Hh2 & Hbox).
    split; [intros _; exact Hx1|]. repeat (split; [discriminate|]).
    split; [rewrite Hx2, Hx1, Hw1; ring|]. split; [rewrite Hy2, Hy1; reflexivity|].
    split; [congruence|]. split; [congruence|exact Hbox].
  - destruct (right_inv render s s1 Hd H1) as (Hx1 & Hy1 & Hw1 & Hh1 & _).
    destruct (left_inv render s1 s2 Hd H2) as (Hx2 & Hy2 & Hw2 & Hh2 & Hbox).
    split; [discriminate|]. split; [intros _; exact Hx1|].
    repeat (split; [discriminate|]).
    split; [rewrite Hx2, Hx1, Hw1; ring|]. split; [rewrite Hy2, Hy1; reflexivity|].
    split; [congruence|]. split; [congruence|exact Hbox].
  - destruct (up_inv render s s1 Hd H1) as (Hx1 & Hy1 & Hw1 & Hh1 & _).
    destruct (down_inv render s1 s2 Hd H2) as (Hx2 & Hy2 & Hw2 & Hh2 & Hbox).
    repeat (split; [discriminate|]). split; [intros _; exact Hy1|].
    split; [discriminate|].
    split; [rewrite Hx2, Hx1; reflexivity|]. split; [rewrite Hy2, Hy1, Hh1; ring|].
    split; [congruence|]. split; [congruence|exact Hbox].
  - destruct (down_inv render s s1 Hd H1) as (Hx1 & Hy1 & Hw1 & Hh1 & _).
    destruct (up_inv render s1 s2 Hd H2) as (Hx2 & Hy2 & Hw2 & Hh2 & Hbox).
    repeat (split; [discriminate|]). split; [intros _; exact Hy1|].
    split; [rewrite Hx2, Hx1; reflexivity|]. split; [rewrite Hy2, Hy1, Hh1; ring|].
    split; [congruence|]. split; [congruence|exact Hbox].
Qed.

Lemma opposite_nudges_cancel_witness :
  gx (state_after (GraphScreen_key_down Screen_render KEY_RIGHT 0%Z)
        (state_after (GraphScreen_key_down Screen_render KEY_LEFT 0%Z)
           (snd (GraphScreen_init 0 0 100 100 0 0 10 10 (1 # 2) [0; 0; 0]%Z true true))))
  == 0.
Proof.
  apply (opposite_nudges_cancel Screen_render
           (snd (GraphScreen_init 0 0 100 100 0 0 10 10 (1 # 2) [0; 0; 0]%Z true true))
           (state_after (GraphScreen_key_down Screen_render KEY_LEFT 0%Z)
              (snd (GraphScreen_init 0 0 100 100 0 0 10 10 (1 # 2) [0; 0; 0]%Z
                      true true)))
           _ KEY_LEFT KEY_RIGHT 0%Z 0%Z Screen_render_draws).
  - left. reflexivity.
  - vm_compute. reflexivity.
  - vm_compute. reflexivity.
Defined.

Lemma pan_body (render : M GraphScreen unit) (s : GraphScreen) (px py mx my : Q)
    (ms : Z) :
  ~ w (base s) == 0 -> ~ h (base s) == 0 ->
  mdownx s = Some mx -> mdowny s = Some my ->
  exists s0,
    mouse_up render px py MOUSE_MIDDLE ms s = redraw render s0 /\
    view_state s0 =
      (gx s - (px * gw s / w (base s) + gx s - gw s / 2
               - (mx * gw s / w (base s) + gx s - gw s / 2)),
       gy s - (py * gh s / h (base s) + gy s - gh s / 2
               - (my * gh s / h (base s) + gy s - gh s / 2)),
       gw s, gh s,
       (gx s - (px * gw s / w (base s) + gx s - gw s / 2
                - (mx * gw s / w (base s) + gx s - gw s / 2)) - gw s / 2,
        gx s - (px * gw s / w (base s) + gx s - gw s / 2
                - (mx * gw s / w (base s) + gx s - gw s / 2)) + gw s / 2,
        gy s - (py * gh s / h (base s) + gy s - gh s / 2
                - (my * gh s / h (base s) + gy s - gh s / 2)) - gh s / 2,
        gy s - (py * gh s / h (base s) + gy s - gh s / 2
                - (my * gh s / h (base s) + gy s - gh s / 2)) + gh s / 2),
       total_zoom s, size (base s), zoom_valobj s, reset_view s, drag_start s,
       false, 0, 0).
Proof.
  intros Hw Hh Hx Hy. unfold mouse_up. eexists. split.
  - eapply then_run. unfold _set_graph_minmax. exec.
    rewrite Hx. cbn. rewrite Hy. cbn.
    rewrite !on_plot_ok by (cbn; assumption). reflexivity.
  - reflexivity.
Qed.

(** X9. A pan keeps the grabbed point under the pointer: after a
    middle-button press at [(x1, y1)] and a release at [(x2, y2)], the plot
    point that was under the pointer at the press is the plot point under
    the pointer at the release.  The extent is unchanged, the drag is over
    and its offsets are zero, and the bounding box is that of the view
    (exact arithmetic). *)
Theorem pan_keeps_grabbed_point (render : M GraphScreen unit)
    (s s2 : GraphScreen) (x1 y1 x2 y2 : Q) (ms ms' : Z) :
  draws_only render ->
  ~ w (base s) == 0 -> ~ h (base s) == 0 ->
  mouse_up render x2 y2 MOUSE_MIDDLE ms'
    (state_after (mouse_down x1 y1 MOUSE_MIDDLE ms) s) = (Ok tt, s2) ->
  exists p p',
    on_plot x1 y1 s = Ok p /\ on_plot x2 y2 s2 = Ok p' /\
    fst p' == fst p /\ snd p' == snd p /\
    gw s2 = gw s /\ gh s2 = gh s /\
    drag s2 = false /\ offsx s2 = 0 /\ offsy s2 = 0 /\ box_fresh s2.
Proof.
  intros Hd Hw Hh Hrun.
  destruct (pan_body render (state_after (mouse_down x1 y1 MOUSE_MIDDLE ms) s)
              x2 y2 x1 y1 ms' Hw Hh eq_refl eq_refl) as (s0 & E0 & V0).
  rewrite E0 in Hrun. apply (after_redraw render _ _ _ Hd) in Hrun.
  rewrite V0 in Hrun. clear E0 V0 s0. cbn in Hrun. view_of Hrun.
  assert (Hw2 : ~ w (base s2) == 0) by (rewrite Hw'; exact Hw).
  assert (Hh2 : ~ h (base s2) == 0) by (rewrite Hh'; exact Hh).
  eexists _, _. rewrite !on_plot_ok by assumption.
  split; [reflexivity|]. split; [reflexivity|]. cbn [fst snd].
  split; [rewrite Hgx, Hgw, Hw'; field; exact Hw|].
  split; [rewrite Hgy, Hgh, Hh'; field; exact Hh|].
  repeat (split; [assumption|]).
  unfold box_fresh. rewrite Hb1, Hb2, Hb3, Hb4, Hgx, Hgy, Hgw, Hgh.
  repeat split; reflexivity.
Qed.

Lemma pan_keeps_grabbed_point_witness :
  exists p p',
    on_plot 10 20
      (snd (GraphScreen_init 0 0 100 100 0 0 10 10 (1 # 2) [0; 0; 0]%Z true true)) = Ok p /\
    on_plot 60 40
      (state_after (mouse_up Screen_render 60 40 MOUSE_MIDDLE 0%Z)
         (state_after (mouse_down 10 20 MOUSE_MIDDLE 0%Z)
            (snd (GraphScreen_init 0 0 100 100 0 0 10 10 (1 # 2) [0; 0; 0]%Z true true))))
    = Ok p' /\
    fst p' == fst p /\ snd p' == snd p.
Proof.
  destruct (pan_keeps_grabbed_point Screen_render
              (snd (GraphScreen_init 0 0 100 100 0 0 10 10 (1 # 2) [0; 0; 0]%Z true true))
              (state_after (mouse_up Screen_render 60 40 MOUSE_MIDDLE 0%Z)
                 (state_after (mouse_down 10 20 MOUSE_MIDDLE 0%Z)
                    (snd (GraphScreen_init 0 0 100 100 0 0 10 10 (1 # 2) [0; 0; 0]%Z
                            true true))))
              10 20 60 40 0%Z 0%Z Screen_render_draws)
    as (p & p' & H1 & H2 & H3 & H4 & _).
  - intros E. vm_compute in E. discriminate E.
  - intros E. vm_compute in E. discriminate E.
  - vm_compute. reflexivity.
  - exists p, p'. repeat split; assumption.
Defined.

(** ** A drag in progress *)

Section Drag.
Variable render : M GraphScreen unit.
Hypothesis render_draws : draws_only render.

Lemma handle_event_drag_recorded (e : gs_event) (s : GraphScreen) :
  drag_recorded s -> drag_recorded (state_after (handle_event render e) s).
Proof.
  assert (Hr : preserves (fun s => (drag s, drag_start s)) render)
    by (apply preserves_undrawn; [reflexivity | exact render_draws]).
  assert (Hr' : preserves drag render)
    by (apply preserves_undrawn; [reflexivity | exact render_draws]).
  assert (Hkeep : forall m : M GraphScreen unit,
            preserves (fun s => (drag s, drag_start s)) m ->
            drag_recorded s -> drag_recorded (state_after m s)).
  { intros m Hm Hs. specialize (Hm s). unfold drag_recorded, drag_start in *.
    injection Hm as -> -> ->. exact Hs. }
  destruct e as [px py dx dy bs ms|px py b ms|px py b ms|sym ms|width height];
    cbn [handle_event].
  - apply Hkeep. unfold mouse_drag; preserve.
  - destruct b; try solve [apply Hkeep; unfold mouse_down; preserve].
    intros _. unfold drag_recorded. intros _. cbn. split; eexists; reflexivity.
  - destruct b;
      try solve [apply Hkeep;
                 unfold mouse_up, recentre, redraw, GraphScreen_set_bg; preserve].
    intros _. unfold drag_recorded. intros Hdrag. exfalso. revert Hdrag.
    change (state_after (mouse_up render px py MOUSE_MIDDLE ms) s)
      with (state_after
              ((mx <- getattr mdownx ;;
                my <- getattr mdowny ;;
                p1 <- (fun s => (on_plot mx my s, s)) ;;
                p2 <- (fun s => (on_plot px py s, s)) ;;
                modify (fun s => with_gx (gx s - (fst p2 - fst p1)) s) ;;;
                modify (fun s => with_gy (gy s - (snd p2 - snd p1)) s) ;;;
                _set_graph_minmax ;;;
                modify (with_offsx 0) ;;;
                modify (with_offsy 0)) ;;; redraw render)
              (with_drag false s)).
    match goal with
    | |- drag (state_after ?m ?s0) = true -> False =>
        assert (Hm : preserves drag m)
          by (unfold redraw, GraphScreen_set_bg; preserve; apply preserves_pure);
        rewrite (Hm s0)
    end.
    discriminate.
  - apply Hkeep.
    unfold GraphScreen_key_down, left, right, up, down, redraw, GraphScreen_set_bg;
      preserve.
  - apply Hkeep. unfold Screen_on_resize, resize, refit, GraphScreen_set_bg; preserve.
Qed.

Lemma run_events_drag_recorded (es : list gs_event) (s : GraphScreen) :
  drag_recorded s -> drag_recorded (run_events render es s).
Proof.
  revert s. induction es as [|e es IH]; intros s Hs; simpl; [exact Hs|].
  apply IH, handle_event_drag_recorded, Hs.
Qed.
End Drag.

(** X10. On a [GraphScreen] that has handled any events since its
    construction, [mouse_drag] returns: whenever [drag] is set, the start of
    the drag that [mouse_drag] reads is recorded. *)
Theorem mouse_drag_returns (render : M GraphScreen unit)
    (px py w0 h0 gx0 gy0 gw0 gh0 zoom : Q) (bg0 : list Z) (vis act : bool)
    (es : list gs_event) (mx my dx dy : Q) (bs ms : Z) :
  draws_only render ->
  exists s0,
    GraphScreen_init px py w0 h0 gx0 gy0 gw0 gh0 zoom bg0 vis act = (Ok tt, s0) /\
    drag_recorded (run_events render es s0) /\
    result_of (mouse_drag mx my dx dy bs ms) (run_events render es s0) = Ok tt.
Proof.
  intros Hd.
  destruct (GraphScreen_init_run px py w0 h0 gx0 gy0 gw0 gh0 zoom bg0 vis act)
    as (s0 & Hinit & _).
  assert (H0 : drag_recorded s0).
  { unfold GraphScreen_init in Hinit.
    pose proof (f_equal (fun p => drag (snd p)) Hinit) as Hdrag.
    assert (Hp : preserves drag (GraphScreen_set_bg bg0))
      by (unfold GraphScreen_set_bg; preserve).
    cbv beta in Hdrag. unfold preserves, state_after in Hp. rewrite Hp in Hdrag.
    cbn in Hdrag. intros E. cbn [snd] in Hdrag. congruence. }
  pose proof (run_events_drag_recorded render Hd es s0 H0) as Hrec.
  exists s0. split; [exact Hinit|]. split; [exact Hrec|].
  unfold result_of, mouse_drag, bind, gets.
  destruct (drag (run_events render es s0)) eqn:E; [|reflexivity].
  destruct (Hrec E) as [[vx Hx] [vy Hy]].
  unfold getattr, modify. rewrite Hx. cbn. rewrite Hy. reflexivity.
Qed.

Lemma mouse_drag_returns_witness :
  exists s0,
    GraphScreen_init 0 0 100 100 0 0 10 10 (1 # 2) [0; 0; 0]%Z true true = (Ok tt, s0) /\
    result_of (mouse_drag 30 30 1 1 0%Z 0%Z)
      (run_events Screen_render
         [EvMouseDown 10 10 MOUSE_MIDDLE 0%Z; EvMouseDrag 20 20 10 10 0%Z 0%Z] s0)
    = Ok tt.
Proof.
  destruct (mouse_drag_returns Screen_render 0 0 100 100 0 0 10 10 (1 # 2)
              [0; 0; 0]%Z true true
              [EvMouseDown 10 10 MOUSE_MIDDLE 0%Z; EvMouseDrag 20 20 10 10 0%Z 0%Z]
              30 30 1 1 0%Z 0%Z Screen_render_draws)
    as (s0 & H0 & _ & H1).
  exists s0. split; [exact H0 | exact H1].
Defined.

(** ** The mappings and the bounding box *)

(** X11. On a view whose bounding box is that of its centre and extent,
    [on_plot] maps the corners of the screen to the corners of the box and
    the middle of the screen to the centre of the view (exact
    arithmetic). *)
Theorem on_plot_corners (s : GraphScreen) :
  box_fresh s -> ~ w (base s) == 0 -> ~ h (base s) == 0 ->
  exists p0 p1 pc,
    on_plot 0 0 s = Ok p0 /\
    on_plot (w (base s)) (h (base s)) s = Ok p1 /\
    on_plot (w (base s) / 2) (h (base s) / 2) s = Ok pc /\
    fst p0 == min_gx s /\ snd p0 == min_gy s /\
    fst p1 == max_gx s /\ snd p1 == max_gy s /\
    fst pc == gx s /\ snd pc == gy s.
Proof.
  intros (H1 & H2 & H3 & H4) Hw Hh. eexists _, _, _.
  rewrite !on_plot_ok by assumption.
  repeat (split; [reflexivity|]). cbn [fst snd].
  rewrite H1, H2, H3, H4. repeat split; field; assumption.
Qed.

Lemma on_plot_corners_witness :
  exists p0 p1 pc,
    on_plot 0 0
      (snd (GraphScreen_init 0 0 100 100 0 0 10 10 (1 # 2) [0; 0; 0]%Z true true)) = Ok p0 /\
    on_plot 100 100
      (snd (GraphScreen_init 0 0 100 100 0 0 10 10 (1 # 2) [0; 0; 0]%Z true true)) = Ok p1 /\
    on_plot (100 / 2) (100 / 2)
      (snd (GraphScreen_init 0 0 100 100 0 0 10 10 (1 # 2) [0; 0; 0]%Z true true)) = Ok pc /\
    fst p0 == 0 - 10 / 2 /\ snd p0 == 0 - 10 / 2 /\
    fst p1 == 0 + 10 / 2 /\ snd p1 == 0 + 10 / 2 /\
    fst pc == 0 /\ snd pc == 0.
Proof.
  apply (on_plot_corners
           (snd (GraphScreen_init 0 0 100 100 0 0 10 10 (1 # 2) [0; 0; 0]%Z true true))).
  - unfold box_fresh. repeat split; reflexivity.
  - intros E. vm_compute in E. discriminate E.
  - intros E. vm_compute in E. discriminate E.
Defined.

(** ** Changing the size *)

Lemma refit_run (s : GraphScreen) (width height : Q) :
  ~ w (base s) == 0 -> ~ h (base s) == 0 ->
  exists s',
    refit width height s = (Ok tt, s') /\
    w (base s') = width /\ h (base s') = height /\
    gx s' = gx s /\ gy s' = gy s /\
    gw s' = gw s * (width / w (base s)) /\
    gh s' = gh s * (height / h (base s)) /\
    box_fresh s'.
Proof.
  intros Hw Hh. unfold refit, _set_graph_minmax. exec. divide.
  eexists. split; [reflexivity|]. cbn.
  repeat (split; [reflexivity|]).
  unfold box_fresh. cbn. repeat split; reflexivity.
Qed.

(** X12. With [w] and [h] not zero, [refit] returns; it sets the size,
    leaves the centre, scales [gw] by [width / w] and [gh] by [height / h],
    so that the plot units per pixel stay what they were (exact arithmetic),
    and recomputes the bounding box. *)
Theorem refit_keeps_scale (s : GraphScreen) (width height : Q) :
  ~ w (base s) == 0 -> ~ h (base s) == 0 ->
  exists s',
    refit width height s = (Ok tt, s') /\
    w (base s') = width /\ h (base s') = height /\
    gx s' = gx s /\ gy s' = gy s /\
    gw s' = gw s * (width / w (base s)) /\
    gh s' = gh s * (height / h (base s)) /\
    gw s' * w (base s) == gw s * width /\
    gh s' * h (base s) == gh s * height /\
    box_fresh s'.
Proof.
  intros Hw Hh.
  destruct (refit_run s width height Hw Hh)
    as (s' & Hrun & H1 & H2 & H3 & H4 & H5 & H6 & H7).
  exists s'. repeat (split; [assumption|]).
  split; [rewrite H5; field; exact Hw|].
  split; [rewrite H6; field; exact Hh|exact H7].
Qed.

Lemma refit_keeps_scale_witness :
  exists s',
    refit 200 50
      (snd (GraphScreen_init 0 0 100 100 0 0 10 10 (1 # 2) [0; 0; 0]%Z true true))
    = (Ok tt, s') /\
    gw s' * 100 == 10 * 200 /\ gh s' * 100 == 10 * 50 /\ box_fresh s'.
Proof.
  destruct (refit_keeps_scale
              (snd (GraphScreen_init 0 0 100 100 0 0 10 10 (1 # 2) [0; 0; 0]%Z true true))
              200 50)
    as (s' & Hrun & _ & _ & _ & _ & _ & _ & H1 & H2 & H3).
  - intros E. vm_compute in E. discriminate E.
  - intros E. vm_compute in E. discriminate E.
  - exists s'. exact (conj Hrun (conj H1 (conj H2 H3))).
Defined.

(** X13. [GraphScreen.resize] takes no account of the height it is given:
    it refits to a square of side [width], so that afterwards [w] and [h]
    are both [width] and [gh] is scaled by [width / h]. *)
Theorem resize_ignores_height (s : GraphScreen) (width height : Q) :
  ~ w (base s) == 0 -> ~ h (base s) == 0 ->
  exists s',
    resize width height s = (Ok tt, s') /\
    (forall height', resize width height' s = (Ok tt, s')) /\
    w (base s') = width /\ h (base s') = width /\
    gw s' = gw s * (width / w (base s)) /\
    gh s' = gh s * (width / h (base s)) /\
    box_fresh s'.
Proof.
  intros Hw Hh. unfold resize.
  destruct (refit_run s width width Hw Hh)
    as (s' & Hrun & H1 & H2 & _ & _ & H3 & H4 & H5).
  exists s'. split; [exact Hrun|]. split; [intros _; exact Hrun|].
  repeat (split; [assumption|]). exact H5.
Qed.

Lemma resize_ignores_height_witness :
  exists s',
    resize 200 50
      (snd (GraphScreen_init 0 0 100 100 0 0 10 10 (1 # 2) [0; 0; 0]%Z true true))
    = (Ok tt, s') /\
    w (base s') = 200 /\ h (base s') = 200.
Proof.
  destruct (resize_ignores_height
              (snd (GraphScreen_init 0 0 100 100 0 0 10 10 (1 # 2) [0; 0; 0]%Z true true))
              200 50)
    as (s' & Hrun & _ & H1 & H2 & _).
  - intros E. vm_compute in E. discriminate E.
  - intros E. vm_compute in E. discriminate E.
  - exists s'. exact (conj Hrun (conj H1 H2)).
Defined.

(** ** Setting the view and the reset view *)

(** X14. [reset_to] changes where [reset_graph] goes: after
    [reset_to a b c d], [reset_graph] sets the centre to [(a, b)] and the
    extent to [c] and [d] scaled by the ratio of the current size to the
    size at construction. *)
Theorem reset_to_then_reset_graph (s : GraphScreen) (a b c d : Q) :
  ~ _ow s == 0 -> ~ _oh s == 0 ->
  exists s',
    (reset_to a b c d ;;; reset_graph) s = (Ok tt, s') /\
    gx s' = a /\ gy s' = b /\
    gw s' = c * (w (base s) / _ow s) /\ gh s' = d * (h (base s) / _oh s) /\
    total_zoom s' = 1 /\ box_fresh s'.
Proof.
  intros Hw Hh.
  destruct (reset_graph_run (state_after (reset_to a b c d) s) Hw Hh)
    as (s' & Hrun & H1 & H2 & H3 & H4 & H5 & H6 & _).
  exists s'. split; [|exact (conj H1 (conj H2 (conj H3 (conj H4 (conj H5 H6)))))].
  rewrite <- Hrun. reflexivity.
Qed.

Lemma reset_to_then_reset_graph_witness :
  exists s',
    (reset_to 1 2 3 4 ;;; reset_graph)
      (snd (GraphScreen_init 0 0 100 100 0 0 10 10 (1 # 2) [0; 0; 0]%Z true true))
    = (Ok tt, s') /\
    gx s' = 1 /\ gy s' = 2 /\ gw s' == 3 /\ gh s' == 4.
Proof.
  destruct (reset_to_then_reset_graph
              (snd (GraphScreen_init 0 0 100 100 0 0 10 10 (1 # 2) [0; 0; 0]%Z true true))
              1 2 3 4)
    as (s' & Hrun & H1 & H2 & H3 & H4 & _).
  - intros E. vm_compute in E. discriminate E.
  - intros E. vm_compute in E. discriminate E.
  - exists s'. split; [exact Hrun|]. split; [exact H1|]. split; [exact H2|].
    rewrite H3, H4. split; reflexivity.
Defined.

(** X15. With [zoom ** .5] and [w] not zero, [set_graph_view] returns; it
    sets the centre and [total_zoom], sets [gw] to the reset width divided
    by [zoom ** .5] and [gh] so that the view has the aspect of the screen
    (exact arithmetic), and it leaves the stored bounding box as it was. *)
Theorem set_graph_view_aspect (pow_half : Q -> Q) (s : GraphScreen)
    (ngx ngy zoom : Q) :
  ~ pow_half zoom == 0 -> ~ w (base s) == 0 ->
  exists s',
    set_graph_view pow_half ngx ngy zoom s = (Ok tt, s') /\
    gx s' = ngx /\ gy s' = ngy /\ total_zoom s' = zoom /\
    gw s' = _ogw s / pow_half zoom /\
    gh s' * w (base s) == gw s' * h (base s) /\
    box s' = box s.
Proof.
  intros Hz Hw. unfold set_graph_view. exec. divide.
  eexists. split; [reflexivity|]. cbn.
  repeat (split; [reflexivity|]). split; [|reflexivity]. field. auto.
Qed.

Lemma set_graph_view_aspect_witness :
  exists s',
    set_graph_view (fun z => z) 5 5 1
      (snd (GraphScreen_init 0 0 100 50 0 0 10 10 (1 # 2) [0; 0; 0]%Z true true))
    = (Ok tt, s') /\
    gw s' == 10 /\ gh s' == 5 /\ ~ box_fresh s'.
Proof.
  destruct (set_graph_view_aspect (fun z => z)
              (snd (GraphScreen_init 0 0 100 50 0 0 10 10 (1 # 2) [0; 0; 0]%Z true true))
              5 5 1)
    as (s' & Hrun & H1 & _ & _ & H2 & H3 & H4).
  - intros E. vm_compute in E. discriminate E.
  - intros E. vm_compute in E. discriminate E.
  - exists s'. split; [exact Hrun|].
    assert (Hgw : gw s' == 10) by (rewrite H2; reflexivity).
    split; [exact Hgw|]. split.
    + rewrite Hgw in H3. cbn in H3.
      apply (Qmult_inj_r _ _ 100); [intros E; discriminate E|].
      rewrite H3. reflexivity.
    + intros (Hb & _). injection H4 as Hm _ _ _. rewrite Hm, H1, Hgw in Hb.
      vm_compute in Hb. discriminate Hb.
Defined.

(** ** The background *)

(** X16. On a [Screen2D] that has its ["bg"] entry, [set_bg] returns and
    stores the colour; the entry then holds a new quad over the screen
    rectangle [0..w] by [0..h] at depth -100, coloured with four copies of
    the colour; a vertex list that the entry held is deleted from the batch,
    the other vertex lists, the other entries and the buffers are as before;
    and when the batch holds only lists that it made, replacing a live
    background does not change the number of lists.  Without the ["bg"]
    entry, [set_bg] raises [KeyError] and changes nothing. *)
Theorem Screen2D_set_bg_replaces (s : Screen) (bg' : list Z) :
  (forall held, _vertex_lists s !! "bg" = Some held ->
     exists s',
       Screen2D_set_bg bg' s = (Ok tt, s') /\
       bg s' = bg' /\
       holds_list s' "bg"
         (mkVertexList 4 GL_QUADS
            [0; 0; - (100); w s; 0; - (100); w s; h s; - (100); 0; h s; - (100)]
            (repeat_seq bg' 4)) /\
       (forall hd : handle, held = Some hd -> hd <> next_handle (_batch s) ->
          lists (_batch s') !! hd = None) /\
       (forall hd : handle, held <> Some hd -> hd <> next_handle (_batch s) ->
          lists (_batch s') !! hd = lists (_batch s) !! hd) /\
       (forall k, k <> "bg"%string -> _vertex_lists s' !! k = _vertex_lists s !! k) /\
       _vertices s' = _vertices s /\ _colors s' = _colors s /\
       (batch_wf (_batch s) ->
        forall hd : handle, held = Some hd -> is_Some (lists (_batch s) !! hd) ->
          stdpp.base.size (lists (_batch s')) = stdpp.base.size (lists (_batch s)))) /\
  (_vertex_lists s !! "bg" = None -> Screen2D_set_bg bg' s = (Raise KeyError, s)).
Proof.
  split.
  - intros held Hh. unfold Screen2D_set_bg, bind, getitem. rewrite Hh.
    destruct held as [hd0|]; cbn; eexists; (split; [reflexivity|]); cbn.
    + split; [reflexivity|]. split.
      { exists (next_handle (_batch s)). cbn.
        rewrite !lookup_insert_eq. split; reflexivity. }
      split.
      { intros hd [= <-] Hne. rewrite lookup_insert_ne by congruence.
        apply lookup_delete_eq. }
      split.
      { intros hd Hne1 Hne2. rewrite lookup_insert_ne by congruence.
        apply lookup_delete_ne. congruence. }
      split; [intros k Hk; apply lookup_insert_ne; congruence|].
      split; [reflexivity|]. split; [reflexivity|].
      intros Hwf hd [= <-] Hlive.
      rewrite map_size_insert_None.
      * rewrite (map_size_delete_Some _ _ Hlive). destruct Hlive as [vl Hvl].
        assert (stdpp.base.size (lists (_batch s)) <> 0%nat).
        { intros E. apply map_size_empty_inv in E. rewrite E in Hvl.
          rewrite lookup_empty in Hvl. discriminate. }
        destruct (stdpp.base.size (lists (_batch s))); [congruence|reflexivity].
      * apply lookup_delete_None. right.
        destruct (lists (_batch s) !! next_handle (_batch s)) eqn:E; [|exact E].
        assert (next_handle (_batch s) < next_handle (_batch s))%nat
          by (apply Hwf; eauto).
        lia.
    + split; [reflexivity|]. split.
      { exists (next_handle (_batch s)). cbn.
        rewrite !lookup_insert_eq. split; reflexivity. }
      split; [intros hd [=]|].
      split; [intros hd _ Hne; apply lookup_insert_ne; congruence|].
      split; [intros k Hk; apply lookup_insert_ne; congruence|].
      split; [reflexivity|]. split; [reflexivity|]. intros _ hd [=].
  - intros Hh. unfold Screen2D_set_bg, bind, getitem. rewrite Hh. reflexivity.
Qed.

Lemma Screen2D_set_bg_replaces_witness :
  exists s',
    Screen2D_set_bg [9; 9; 9]%Z (snd (Screen2D_init 0 0 100 50 [0; 0; 0]%Z true true))
    = (Ok tt, s') /\
    holds_list s' "bg"
      (mkVertexList 4 GL_QUADS
         [0; 0; - (100); 100; 0; - (100); 100; 50; - (100); 0; 50; - (100)]
         (repeat_seq [9; 9; 9]%Z 4)) /\
    lists (_batch s') !! O = None.
Proof.
  destruct (Screen2D_set_bg_replaces
              (snd (Screen2D_init 0 0 100 50 [0; 0; 0]%Z true true)) [9; 9; 9]%Z)
    as [H _].
  destruct (H (Some O) eq_refl) as (s' & Hrun & _ & Hl & Hdel & _).
  exists s'. split; [exact Hrun|]. split; [exact Hl|].
  apply (Hdel O eq_refl). discriminate.
Defined.

(** X17. On a [GraphScreen] that has its ["bg"] entry, [set_bg] returns;
    the entry then holds a new quad over the stored bounding box
    [min_gx..max_gx] by [min_gy..max_gy] at depth -100 with four copies of
    the colour, and the view is as before. *)
Theorem GraphScreen_set_bg_covers_box (s : GraphScreen) (bg' : list Z) :
  is_Some (_vertex_lists (base s) !! "bg") ->
  exists s',
    GraphScreen_set_bg bg' s = (Ok tt, s') /\
    bg (base s') = bg' /\
    holds_list (base s') "bg"
      (mkVertexList 4 GL_QUADS
         [min_gx s; min_gy s; - (100); max_gx s; min_gy s; - (100);
          max_gx s; max_gy s; - (100); min_gx s; max_gy s; - (100)]
         (repeat_seq bg' 4)) /\
    view_state s' = view_state s.
Proof.
  intros [held Hh]. unfold GraphScreen_set_bg, bind, on_base, on_part, getitem, gets.
  rewrite Hh.
  destruct held as [hd0|]; cbn; eexists; (split; [reflexivity|]); cbn;
    (split; [reflexivity|]); (split; [|reflexivity]);
    exists (next_handle (_batch (base s))); cbn;
    rewrite !lookup_insert_eq; split; reflexivity.
Qed.

Lemma GraphScreen_set_bg_covers_box_witness :
  exists s',
    GraphScreen_set_bg [9; 9; 9]%Z
      (snd (GraphScreen_init 0 0 100 100 0 0 10 10 (1 # 2) [0; 0; 0]%Z true true))
    = (Ok tt, s') /\
    holds_list (base s') "bg"
      (mkVertexList 4 GL_QUADS
         [0 - 10 / 2; 0 - 10 / 2; - (100); 0 + 10 / 2; 0 - 10 / 2; - (100);
          0 + 10 / 2; 0 + 10 / 2; - (100); 0 - 10 / 2; 0 + 10 / 2; - (100)]
         [9; 9; 9; 9; 9; 9; 9; 9; 9; 9; 9; 9]%Z).
Proof.
  destruct (GraphScreen_set_bg_covers_box
              (snd (GraphScreen_init 0 0 100 100 0 0 10 10 (1 # 2) [0; 0; 0]%Z true true))
              [9; 9; 9]%Z)
    as (s' & Hrun & _ & Hl & _).
  - exists (Some O). reflexivity.
  - exists s'. split; [exact Hrun | exact Hl].
Defined.

(** X18. On a [Screen3D] that has its ["bg"] entry, [set_bg] returns and
    stores the colour; the entry then holds a new list of 24 quad vertices,
    that is 72 coordinates, each of them 900 or -900, coloured with 24
    copies of the colour. *)
Theorem Screen3D_set_bg_cube (s : Screen) (bg' : list Z) :
  is_Some (_vertex_lists s !! "bg") ->
  exists s' vl,
    Screen3D_set_bg bg' s = (Ok tt, s') /\
    bg s' = bg' /\ holds_list s' "bg" vl /\
    vl_count vl = 24%nat /\ vl_mode vl = GL_QUADS /\
    length (vl_v3f vl) = (3 * 24)%nat /\
    Forall (fun q => q = 900 \/ q = - (900)) (vl_v3f vl) /\
    vl_c3B vl = repeat_seq bg' 24.
Proof.
  intros [held Hh]. unfold Screen3D_set_bg, bind, getitem. rewrite Hh.
  destruct held as [hd0|]; cbn; eexists _, _; (split; [reflexivity|]); cbn;
    (split; [reflexivity|]);
    (split; [exists (next_handle (_batch s)); cbn; rewrite !lookup_insert_eq;
             split; reflexivity|]);
    cbn; repeat (split; [reflexivity|]);
    (split; [|reflexivity]);
    repeat (constructor; [first [left; reflexivity | right; reflexivity]|]);
    constructor.
Qed.

Lemma Screen3D_set_bg_cube_witness :
  exists s' vl,
    Screen3D_set_bg [1; 2; 3]%Z
      (base3 (snd (Screen3D_init 0 0 100 100 [0; 0; 100] [0; 0; 0] [0; 0; 0]
                     [0; 0; 0]%Z true true))) = (Ok tt, s') /\
    holds_list s' "bg" vl /\ vl_count vl = 24%nat /\
    length (vl_c3B vl) = (3 * 24)%nat.
Proof.
  destruct (Screen3D_set_bg_cube
              (base3 (snd (Screen3D_init 0 0 100 100 [0; 0; 100] [0; 0; 0] [0; 0; 0]
                             [0; 0; 0]%Z true true)))
              [1; 2; 3]%Z)
    as (s' & vl & Hrun & _ & Hl & Hc & _ & _ & _ & Hcol).
  - exists (Some O). reflexivity.
  - exists s', vl. split; [exact Hrun|]. split; [exact Hl|]. split; [exact Hc|].
    rewrite Hcol. reflexivity.
Defined.

(** ** Flushing again *)

Lemma state_after_then {S A B} (m : M S A) (k : M S B) (s s1 : S) (a : A) :
  m s = (Ok a, s1) -> state_after (m ;;; k) s = state_after k s1.
Proof. intros E. unfold state_after. rewrite (then_run m k s s1 a E). reflexivity. Qed.

Lemma flush_loop_hidden_entries (l : list string) (s : Screen) :
  NoDup l -> visible s = false ->
  (forall k, k ∈ l -> is_Some (_vertex_lists s !! k)) ->
  forall k, k ∈ l ->
    _vertex_lists (state_after (for_each l flush_vtype) s) !! k =
      match _vertex_lists s !! k with
      | Some (Some _) => None
      | o => o
      end.
Proof.
  intros Hnd. revert s. induction Hnd as [|k0 l Hkl Hnd IH]; intros s Hvis Hpre k Hk.
  - inversion Hk.
  - destruct (Hpre k0) as [held Hh]; [left|].
    destruct (flush_vtype_hidden k0 held s Hvis Hh)
      as (s1 & Hrun1 & Hu1 & Hvl1 & _).
    destruct (unbatched_fields _ _ Hu1) as (Hvis1 & _ & _).
    assert (Hsame : forall k', k' ∈ l ->
              _vertex_lists s1 !! k' = _vertex_lists s !! k').
    { intros k' Hk'. rewrite Hvl1. destruct held; [|reflexivity].
      apply lookup_delete_ne. intros ->. contradiction. }
    assert (Hpre1 : forall k', k' ∈ l -> is_Some (_vertex_lists s1 !! k')).
    { intros k' Hk'. rewrite (Hsame k' Hk'). apply Hpre. right. exact Hk'. }
    cbn [for_each]. rewrite (state_after_then _ _ _ _ _ Hrun1).
    apply elem_of_cons in Hk as [->|Hk].
    + destruct (flush_loop_hidden l s1 Hnd) as (s' & Hrun & _ & Hout & _);
        [congruence | exact Hpre1 |].
      unfold state_after. rewrite Hrun. cbn [snd].
      rewrite (Hout k0 Hkl), Hvl1, Hh.
      destruct held; [apply lookup_delete_eq | exact Hh].
    + rewrite (IH s1) by (congruence || assumption).
      rewrite (Hsame k Hk). reflexivity.
Qed.

Lemma flush_loop_missing (l : list string) (s : Screen) (k : string) :
  visible s = false -> k ∈ l -> _vertex_lists s !! k = None ->
  result_of (for_each l flush_vtype) s = Raise KeyError.
Proof.
  revert s. induction l as [|k0 l IH]; intros s Hvis Hk Hnone; [inversion Hk|].
  cbn [for_each]. destruct (_vertex_lists s !! k0) as [held|] eqn:Hh.
  - destruct (flush_vtype_hidden k0 held s Hvis Hh)
      as (s1 & Hrun1 & Hu1 & Hvl1 & _).
    destruct (unbatched_fields _ _ Hu1) as (Hvis1 & _ & _).
    unfold result_of. rewrite (then_run _ _ _ _ _ Hrun1).
    apply elem_of_cons in Hk as [->|Hk]; [congruence|].
    apply IH; [congruence | exact Hk |].
    rewrite Hvl1. destruct held; [|exact Hnone].
    apply lookup_delete_None. right. exact Hnone.
  - unfold result_of, bind, flush_vtype, bind, getitem. rewrite Hh. reflexivity.
Qed.

(** X19. A flush of a screen that is not visible while the entry of a
    kind holds a vertex list deletes that entry and does not put it back:
    the flush returns, the kind has no entry afterwards, and the next
    [flush] raises [KeyError]. *)
Theorem hidden_flush_drops_entry (s : Screen) (k : string) (hd : handle) :
  kinds_present s -> visible s = false ->
  k ∈ _vertex_types -> _vertex_lists s !! k = Some (Some hd) ->
  exists s',
    flush s = (Ok tt, s') /\
    _vertex_lists s' !! k = None /\
    lists (_batch s') !! hd = None /\
    result_of flush s' = Raise KeyError.
Proof.
  intros Hpre Hvis Hk Hheld.
  destruct (flush_run_hidden s Hpre Hvis)
    as (s' & Hrun & HD & _ & _ & _ & _ & _ & Hfr).
  assert (Hentry : _vertex_lists s' !! k = None).
  { pose proof (flush_loop_hidden_entries _vertex_types s NoDup_vertex_types Hvis
                  (fun k Hk => proj1 (Hpre k Hk)) k Hk) as He.
    rewrite Hheld in He. rewrite <- He.
    unfold flush in Hrun. apply bind_inv in Hrun as ([] & s1 & Hloop & Hclr).
    unfold state_after. rewrite Hloop. cbn [snd].
    assert (Hp : preserves _vertex_lists _clear).
    { unfold _clear. apply preserves_for_each. intros a. preserve. }
    specialize (Hp s1). unfold state_after in Hp. rewrite Hclr in Hp.
    cbn [snd] in Hp. rewrite Hp. reflexivity. }
  exists s'. split; [exact Hrun|]. split; [exact Hentry|].
  split; [exact (HD k hd Hk Hheld)|].
  unfold result_of, flush.
  pose proof (flush_loop_missing _vertex_types s' k) as Hmiss.
  unfold result_of in Hmiss.
  destruct (for_each _vertex_types flush_vtype s') as [r s2] eqn:E.
  cbn [fst] in Hmiss. rewrite (bind_raise _ _ s' s2 KeyError).
  - reflexivity.
  - rewrite E. f_equal. apply Hmiss; [|exact Hk|exact Hentry].
    rewrite <- Hvis. exact (f_equal visible Hfr).
Qed.

Lemma hidden_flush_drops_entry_witness :
  exists s',
    flush (with_visible false
             (state_after flush (snd (Screen2D_init 0 0 100 100 [0; 0; 0]%Z true true))))
    = (Ok tt, s') /\
    _vertex_lists s' !! "points" = None /\
    result_of flush s' = Raise KeyError.
Proof.
  destruct (hidden_flush_drops_entry
              (with_visible false
                 (state_after flush
                    (snd (Screen2D_init 0 0 100 100 [0; 0; 0]%Z true true))))
              "points" 1%nat)
    as (s' & Hrun & Hnone & _ & Hnext).
  - intros k Hk. unfold _vertex_types in Hk.
    repeat (apply elem_of_cons in Hk as [->|Hk];
            [split; [|split]; eexists; vm_compute; reflexivity|]).
    inversion Hk.
  - reflexivity.
  - apply list_elem_of_here.
  - vm_compute. reflexivity.
  - exists s'. exact (conj Hrun (conj Hnone Hnext)).
Defined.

Lemma flush_loop_visible_bound (l : list string) (s : Screen) :
  NoDup l -> visible s = true ->
  (forall k, k ∈ l ->
     k ∈ _vertex_types /\ is_Some (_vertex_lists s !! k) /\
     is_Some (_vertices s !! k) /\ is_Some (_colors s !! k)) ->
  (forall k (hd : handle), k ∈ l -> _vertex_lists s !! k = Some (Some hd) ->
     (hd < next_handle (_batch s))%nat) ->
  forall k (hd : handle), k ∈ l ->
    _vertex_lists (state_after (for_each l flush_vtype) s) !! k = Some (Some hd) ->
    (hd < next_handle (_batch (state_after (for_each l flush_vtype) s)))%nat.
Proof.
  intros Hnd. revert s.
  induction Hnd as [|k0 l Hkl Hnd IH]; intros s Hvis Hpre Hmade k hd Hk He.
  - inversion Hk.
  - destruct (Hpre k0) as (Hty & [held Hh] & [vs0 Hv0] & [cs0 Hc0]); [left|].
    apply kind_mode_types in Hty as [mode0 Hm0].
    destruct (flush_vtype_visible k0 mode0 held vs0 cs0 s Hvis Hm0 Hh Hv0 Hc0)
      as (s1 & Hrun1 & Hu1 & Hvl1 & Hn1 & Hl1).
    destruct (unbatched_fields _ _ Hu1) as (Hvis1 & Hvs1 & Hcs1).
    assert (Hsame : forall k', k' ∈ l ->
              _vertex_lists s1 !! k' = _vertex_lists s !! k').
    { intros k' Hk'. rewrite Hvl1. apply lookup_insert_ne. intros ->. contradiction. }
    assert (Hpre1 : forall k', k' ∈ l ->
              k' ∈ _vertex_types /\ is_Some (_vertex_lists s1 !! k') /\
              is_Some (_vertices s1 !! k') /\ is_Some (_colors s1 !! k')).
    { intros k' Hk'. rewrite (Hsame k' Hk'), Hvs1, Hcs1. apply Hpre. right. exact Hk'. }
    assert (Hmade1 : forall k' (hd' : handle), k' ∈ l ->
              _vertex_lists s1 !! k' = Some (Some hd') ->
              (hd' < next_handle (_batch s1))%nat).
    { intros k' hd' Hk' Hhd. rewrite (Hsame k' Hk') in Hhd. rewrite Hn1.
      apply Nat.lt_lt_succ_r. apply (Hmade k' hd'); [right|]; assumption. }
    cbn [for_each] in He |- *. rewrite (state_after_then _ _ _ _ _ Hrun1) in He |- *.
    apply elem_of_cons in Hk as [->|Hk].
    + destruct (flush_loop_visible l s1 Hnd) as (s' & Hrun & _ & Hout & Hn & _);
        [congruence | exact Hpre1 | exact Hmade1 |].
      unfold state_after in He |- *. rewrite Hrun in He |- *. cbn [snd] in He |- *.
      rewrite (Hout k0 Hkl), Hvl1, lookup_insert_eq in He. injection He as <-.
      lia.
    + apply (IH s1) with (k := k); try assumption. congruence.
Qed.

Lemma flush_visible_keeps (s : Screen) :
  kinds_present s -> handles_made s -> visible s = true ->
  exists s',
    flush s = (Ok tt, s') /\
    kinds_present s' /\ handles_made s' /\ visible s' = true.
Proof.
  intros Hpre Hmade Hvis.
  destruct (flush_run_visible s Hpre Hmade Hvis)
    as (s' & Hrun & _ & HN & Hclr & _ & _ & Hfr).
  exists s'. split; [exact Hrun|].
  assert (Hloop : exists s1, for_each _vertex_types flush_vtype s = (Ok tt, s1) /\
                             _batch s' = _batch s1 /\
                             _vertex_lists s' = _vertex_lists s1).
  { unfold flush in Hrun. apply bind_inv in Hrun as ([] & s1 & Hloop & Hc).
    exists s1. split; [exact Hloop|].
    assert (Hp : preserves (fun s => (_batch s, _vertex_lists s)) _clear).
    { unfold _clear. apply preserves_for_each. intros a. preserve. }
    specialize (Hp s1). unfold state_after in Hp. rewrite Hc in Hp.
    cbn [snd] in Hp. injection Hp as -> ->. split; reflexivity. }
  destruct Hloop as (s1 & Hloop & Hb & Hvl).
  split; [|split].
  - intros k Hk. destruct (Hpre k Hk) as (_ & [vs Hv] & [cs Hc]).
    destruct (proj1 (kind_mode_types k) Hk) as [mode Hm].
    destruct (HN k mode vs cs Hm Hv Hc) as (hd & He & _).
    destruct (Hclr k Hk) as [Hv' Hc'].
    rewrite He, Hv', Hc'. repeat split; eexists; reflexivity.
  - intros k hd Hk He. rewrite Hb. rewrite Hvl in He.
    pose proof (flush_loop_visible_bound _vertex_types s NoDup_vertex_types Hvis
                  (fun k Hk => conj Hk (Hpre k Hk)) Hmade k hd Hk) as Hbound.
    unfold state_after in Hbound. rewrite Hloop in Hbound. exact (Hbound He).
  - rewrite <- Hvis. exact (f_equal visible Hfr).
Qed.

(** X20. On a visible screen that has an entry and the two buffers for
    each kind and whose held vertex lists were made by its batch, [flush]
    can be called any number of times in a row: every call returns, and the
    screen is again such a screen. *)
Theorem flush_repeatable (n : nat) (s : Screen) :
  kinds_present s -> handles_made s -> visible s = true ->
  result_of (repeat_call n flush) s = Ok tt /\
  kinds_present (state_after (repeat_call n flush) s) /\
  handles_made (state_after (repeat_call n flush) s) /\
  visible (state_after (repeat_call n flush) s) = true.
Proof.
  revert s. induction n as [|n IH]; intros s Hpre Hmade Hvis.
  - split; [reflexivity|]. split; [exact Hpre|]. split; [exact Hmade|exact Hvis].
  - destruct (flush_visible_keeps s Hpre Hmade Hvis)
      as (s1 & Hrun & Hpre1 & Hmade1 & Hvis1).
    cbn [repeat_call]. unfold result_of.
    rewrite (state_after_then _ _ _ _ _ Hrun), (then_run _ _ _ _ _ Hrun).
    exact (IH s1 Hpre1 Hmade1 Hvis1).
Qed.

Lemma flush_repeatable_witness :
  result_of (repeat_call 3 flush)
    (state_after (set_points [1; 2; 3] [255; 0; 0]%Z)
       (snd (Screen2D_init 0 0 100 100 [0; 0; 0]%Z true true))) = Ok tt.
Proof.
  destruct (flush_repeatable 3
              (state_after (set_points [1; 2; 3] [255; 0; 0]%Z)
                 (snd (Screen2D_init 0 0 100 100 [0; 0; 0]%Z true true))))
    as [H _].
  - apply fresh_kinds_present.
  - apply fresh_handles_made.
  - reflexivity.
  - exact H.
Defined.

(** ** Switching a screen off *)

(** X21. For a screen object whose [Screen] attributes can be read back
    after they are written and that has an entry and the two buffers for
    each kind, [off] returns and leaves the screen neither active nor
    visible; a [flush] after it returns as well, uploads nothing, and leaves
    every kind with the entry [None] and empty buffers: after [off], [flush]
    can be called again. *)
Theorem off_then_flush {O : Type} (screen_of : O -> Screen)
    (with_screen : Screen -> O -> O) (set_bg : list Z -> M O unit)
    (render : M O unit) (o : O) :
  (forall t o, screen_of (with_screen t o) = t) ->
  kinds_present (screen_of o) ->
  exists o' s'',
    Screen_off screen_of with_screen set_bg render o = (Ok tt, o') /\
    active (screen_of o') = false /\ visible (screen_of o') = false /\
    flush (screen_of o') = (Ok tt, s'') /\
    next_handle (_batch s'') = next_handle (_batch (screen_of o)) /\
    (forall k, k ∈ _vertex_types ->
       _vertex_lists s'' !! k = Some None /\
       _vertices s'' !! k = Some [] /\ _colors s'' !! k = Some []) /\
    kinds_present s''.
Proof.
  intros Hlens Hpre.
  destruct (release_all_run (with_visible false (with_active false (screen_of o))))
    as (s' & Hrun & Hvl & Hn & _ & _ & Hu).
  change (_vertex_lists (with_visible false (with_active false (screen_of o))))
    with (_vertex_lists (screen_of o)) in Hvl.
  assert (Hoff : exists o',
            Screen_off screen_of with_screen set_bg render o = (Ok tt, o') /\
            screen_of o' = s').
  { unfold Screen_off, Screen_set_visible, Screen_set_active, on_screen_part,
      on_part, bind, modify.
    rewrite !Hlens, Hrun. eexists. split; [reflexivity|]. apply Hlens. }
  destruct Hoff as (o' & Hoff & Hso).
  destruct (unbatched_fields _ _ Hu) as (Hvis & Hvs & Hcs).
  assert (Hpre' : kinds_present s').
  { intros k Hk. destruct (Hpre k Hk) as ([held Hh] & Hv & Hc).
    rewrite Hvl, lookup_fmap, Hvs, Hcs. cbn. rewrite Hh.
    split; [eexists; reflexivity|]. split; assumption. }
  destruct (flush_run_hidden s' Hpre' Hvis)
    as (s'' & Hflush & _ & Hn' & _ & Hclr & _ & _ & Hfr).
  assert (Hentries : forall k, k ∈ _vertex_types -> _vertex_lists s'' !! k = Some None).
  { intros k Hk.
    pose proof (flush_loop_hidden_entries _vertex_types s' NoDup_vertex_types Hvis
                  (fun k Hk => proj1 (Hpre' k Hk)) k Hk) as He.
    destruct (Hpre k Hk) as ([held Hh] & _).
    assert (Hm : match _vertex_lists s' !! k with
                 | Some (Some _) => None
                 | o => o
                 end = Some None)
      by (rewrite Hvl, lookup_fmap, Hh; reflexivity).
    rewrite Hm in He. rewrite <- He.
    pose proof Hflush as Hflush'.
    unfold flush in Hflush'. apply bind_inv in Hflush' as ([] & s1 & Hloop & Hc).
    unfold state_after. rewrite Hloop. cbn [snd].
    assert (Hp : preserves _vertex_lists _clear).
    { unfold _clear. apply preserves_for_each. intros a. preserve. }
    specialize (Hp s1). unfold state_after in Hp. rewrite Hc in Hp.
    cbn [snd] in Hp. rewrite Hp. reflexivity. }
  exists o', s''. rewrite Hso.
  split; [exact Hoff|]. split; [exact (f_equal active Hu)|]. split; [exact Hvis|].
  split; [exact Hflush|]. split; [rewrite Hn', Hn; reflexivity|].
  split.
  - intros k Hk. destruct (Hclr k Hk) as [Hv Hc].
    split; [apply Hentries, Hk|]. split; assumption.
  - intros k Hk. destruct (Hclr k Hk) as [Hv Hc].
    rewrite (Hentries k Hk), Hv, Hc. repeat split; eexists; reflexivity.
Qed.

Lemma off_then_flush_witness :
  exists o' s'',
    Screen_off (fun s : Screen => s) (fun t _ => t) Screen2D_set_bg Screen_render
      (snd (Screen2D_init 0 0 100 100 [0; 0; 0]%Z true true)) = (Ok tt, o') /\
    flush o' = (Ok tt, s'') /\
    _vertex_lists s'' !! "points" = Some None.
Proof.
  destruct (off_then_flush (fun s : Screen => s) (fun t _ => t) Screen2D_set_bg
              Screen_render (snd (Screen2D_init 0 0 100 100 [0; 0; 0]%Z true true)))
    as (o' & s'' & Hoff & _ & _ & Hflush & _ & He & _).
  - reflexivity.
  - apply (fresh_kinds_present 0 0 100 100 [0; 0; 0]%Z true true [] []).
  - exists o', s''. split; [exact Hoff|]. split; [exact Hflush|].
    apply He, list_elem_of_here.
Defined.

(** ** The keys of a Screen3D *)

Lemma Forall2_Qeq_refl (v : list Q) : Forall2 Qeq v v.
Proof. induction v; constructor; [reflexivity|assumption]. Qed.

Lemma insert_back (v : list Q) (i : nat) (q q' : Q) :
  v !! i = Some q -> q' == q -> Forall2 Qeq (<[i := q']> v) v.
Proof.
  intros Hv Hq. rewrite <- (list_insert_id v i q Hv) at 2.
  apply Forall2_insert; [apply Forall2_Qeq_refl | exact Hq].
Qed.

Lemma rotation_add_run (i : nat) (d q : Q) (s : Screen3D) :
  rotation s !! i = Some q ->
  rotation_add i d s = (Ok tt, with_rotation (<[i := q + d]> (rotation s)) s).
Proof.
  intros H. unfold rotation_add, assign.
  rewrite (vec_get_Some _ _ _ H), (vec_set_Some _ _ _ _ H). reflexivity.
Qed.

Lemma rotation_add_twice (i : nat) (d d' : Q) (s : Screen3D) :
  (i < length (rotation s))%nat -> d + d' == 0 ->
  exists s2,
    (rotation_add i d ;;; rotation_add i d') s = (Ok tt, s2) /\
    Forall2 Qeq (rotation s2) (rotation s) /\ camera s2 = camera s /\
    offset s2 = offset s /\ base3 s2 = base3 s.
Proof.
  intros Hi Hd. destruct (lookup_lt_is_Some_2 _ _ Hi) as [q Hq].
  eexists. split.
  - rewrite (then_run _ _ _ _ _ (rotation_add_run i d q s Hq)).
    apply rotation_add_run. cbn. apply list_lookup_insert_eq. exact Hi.
  - cbn. rewrite list_insert_insert_eq. split; [|repeat split].
    apply (insert_back _ _ q); [exact Hq|].
    rewrite <- Qplus_assoc, Hd. ring.
Qed.

Lemma camera_add_twice (i : nat) (d d' : Q) (s : Screen3D) :
  (i < length (camera s))%nat -> d + d' == 0 ->
  exists s2,
    (camera_add i d ;;; camera_add i d') s = (Ok tt, s2) /\
    rotation s2 = rotation s /\ Forall2 Qeq (camera s2) (camera s) /\
    offset s2 = offset s /\ base3 s2 = base3 s.
Proof.
  intros Hi Hd. destruct (lookup_lt_is_Some_2 _ _ Hi) as [q Hq].
  eexists. split.
  - rewrite (then_run _ _ _ _ _ (camera_add_run i d q s Hq)).
    apply camera_add_run. cbn. apply list_lookup_insert_eq. exact Hi.
  - cbn. rewrite list_insert_insert_eq. split; [reflexivity|].
    split; [|split; reflexivity].
    apply (insert_back _ _ q); [exact Hq|].
    rewrite <- Qplus_assoc, Hd. ring.
Qed.

(** X22. On a [Screen3D] whose rotation and camera have their three
    components, opposite keys undo each other: LEFT and RIGHT, UP and DOWN,
    X and Z for the rotation, J and L, I and K for the camera, in either
    order, give back the rotation and the camera of before (exact
    arithmetic), and nothing else of the screen has changed. *)
Theorem opposite_keys_cancel (s : Screen3D) (a b : key) (ms ms' : Z) :
  (3 <= length (rotation s))%nat -> (3 <= length (camera s))%nat ->
  In (a, b) [(KEY_LEFT, KEY_RIGHT); (KEY_RIGHT, KEY_LEFT);
             (KEY_UP, KEY_DOWN); (KEY_DOWN, KEY_UP);
             (KEY_X, KEY_Z); (KEY_Z, KEY_X);
             (KEY_J, KEY_L); (KEY_L, KEY_J);
             (KEY_I, KEY_K); (KEY_K, KEY_I)] ->
  exists s2,
    (Screen3D_key_down a ms ;;; Screen3D_key_down b ms') s = (Ok tt, s2) /\
    Forall2 Qeq (rotation s2) (rotation s) /\
    Forall2 Qeq (camera s2) (camera s) /\
    offset s2 = offset s /\ base3 s2 = base3 s.
Proof.
  intros Hr Hc Hab. cbn in Hab.
  destruct Hab as [E|[E|[E|[E|[E|[E|[E|[E|[E|[E|[]]]]]]]]]]];
    injection E as <- <-; cbn [Screen3D_key_down].
  1-6: match goal with
       | |- context [bind (rotation_add ?i ?d) (fun _ => rotation_add _ ?d')] =>
           destruct (rotation_add_twice i d d' s ltac:(lia) ltac:(ring))
             as (s2 & Hrun & H1 & H2 & H3 & H4)
       end;
       exists s2; split; [exact Hrun|]; split; [exact H1|];
       split; [rewrite H2; apply Forall2_Qeq_refl|]; split; assumption.
  all: match goal with
       | |- context [bind (camera_add ?i ?d) (fun _ => camera_add _ ?d')] =>
           destruct (camera_add_twice i d d' s ltac:(lia) ltac:(ring))
             as (s2 & Hrun & H1 & H2 & H3 & H4)
       end;
       exists s2; split; [exact Hrun|];
       split; [rewrite H1; apply Forall2_Qeq_refl|];
       split; [exact H2|]; split; assumption.
Qed.

Lemma opposite_keys_cancel_witness :
  exists s2,
    (Screen3D_key_down KEY_X 0%Z ;;; Screen3D_key_down KEY_Z 0%Z)
      (snd (Screen3D_init 0 0 100 100 [0; 0; 100] [10; 20; 30] [0; 0; 0]
              [0; 0; 0]%Z true true)) = (Ok tt, s2) /\
    Forall2 Qeq (rotation s2) [10; 20; 30].
Proof.
  destruct (opposite_keys_cancel
              (snd (Screen3D_init 0 0 100 100 [0; 0; 100] [10; 20; 30] [0; 0; 0]
                      [0; 0; 0]%Z true true)) KEY_X KEY_Z 0%Z 0%Z)
    as (s2 & Hrun & Hrot & _).
  - vm_compute. lia.
  - vm_compute. lia.
  - cbn. tauto.
  - exists s2. split; [exact Hrun | exact Hrot].
Defined.

(** X23. At the upper cap the keys S and A do not undo each other: from a
    camera z above 390 and at most 400, S caps z at 400 and A then gives
    390. *)
Theorem cap_breaks_cancel (s : Screen3D) (ms ms' : Z) (cz : Q) :
  camera s !! 2%nat = Some cz -> 390 < cz -> cz <= 400 ->
  exists s2,
    (Screen3D_key_down KEY_S ms ;;; Screen3D_key_down KEY_A ms') s = (Ok tt, s2) /\
    camera s2 !! 2%nat = Some (400 - 10) /\ ~ 400 - 10 == cz.
Proof.
  intros Hz Hlo Hhi. pose proof (lookup_lt_Some _ _ _ Hz) as Hlen.
  assert (Hcap : Qltb 400 (cz + 10) = true) by (apply Qltb_iff; lra).
  cbn [Screen3D_key_down].
  pose proof (camera_add_run 2 10 cz s Hz) as E1.
  set (s1 := with_camera (<[2%nat := cz + 10]> (camera s)) s) in E1.
  assert (H1 : camera s1 !! 2%nat = Some (cz + 10))
    by (cbn; apply list_lookup_insert_eq; exact Hlen).
  pose proof (camera_cap_above_run 2 400 (cz + 10) s1 H1) as E2.
  rewrite Hcap in E2.
  set (s2 := with_camera (<[2%nat := 400]> (camera s1)) s1) in E2.
  assert (H2 : camera s2 !! 2%nat = Some 400)
    by (cbn; apply list_lookup_insert_eq; rewrite length_insert; exact Hlen).
  pose proof (camera_add_run 2 (- (10)) 400 s2 H2) as E3.
  set (s3 := with_camera (<[2%nat := 400 + - (10)]> (camera s2)) s2) in E3.
  assert (H3 : camera s3 !! 2%nat = Some (400 + - (10)))
    by (cbn; apply list_lookup_insert_eq; rewrite !length_insert; exact Hlen).
  pose proof (camera_cap_below_run 2 (- (400)) (400 + - (10)) s3 H3) as E4.
  change (Qltb (400 + - (10)) (- (400))) with false in E4.
  exists (with_camera (camera s3) s3). split; [|split].
  - rewrite (then_run _ _ s s2 tt); [|rewrite (then_run _ _ _ _ _ E1); exact E2].
    rewrite (then_run _ _ _ _ _ E3). exact E4.
  - exact H3.
  - lra.
Qed.

Lemma cap_breaks_cancel_witness :
  exists s2,
    (Screen3D_key_down KEY_S 0%Z ;;; Screen3D_key_down KEY_A 0%Z)
      (snd (Screen3D_init 0 0 100 100 [0; 0; 395] [0; 0; 0] [0; 0; 0]
              [0; 0; 0]%Z true true)) = (Ok tt, s2) /\
    camera s2 !! 2%nat = Some (400 - 10) /\ ~ 400 - 10 == 395.
Proof.
  apply (cap_breaks_cancel
           (snd (Screen3D_init 0 0 100 100 [0; 0; 395] [0; 0; 0] [0; 0; 0]
                   [0; 0; 0]%Z true true)) 0%Z 0%Z 395).
  - reflexivity.
  - reflexivity.
  - intros E. discriminate E.
Defined.

(** ** Further facts on buffers and construction *)



(** X25. The constructor of a [Screen2D] returns, and the new screen has
    the size, the colour and the two flags it was given, an entry and two
    empty buffers for each kind, no vertex list held for a kind, a
    background quad over its rectangle, and a batch that holds this one
    list. *)
Theorem Screen2D_init_establishes (px py width height : Q) (bg0 : list Z)
    (vis act : bool) :
  exists s0,
    Screen2D_init px py width height bg0 vis act = (Ok tt, s0) /\
    x s0 = px /\ y s0 = py /\ w s0 = width /\ h s0 = height /\
    bg s0 = bg0 /\ visible s0 = vis /\ active s0 = act /\
    kinds_present s0 /\ handles_made s0 /\
    (forall k, k ∈ _vertex_types ->
       _vertex_lists s0 !! k = Some None /\
       _vertices s0 !! k = Some [] /\ _colors s0 !! k = Some []) /\
    holds_list s0 "bg"
      (mkVertexList 4 GL_QUADS
         [0; 0; - (100); width; 0; - (100); width; height; - (100);
          0; height; - (100)]
         (repeat_seq bg0 4)) /\
    batch_wf (_batch s0) /\ stdpp.base.size (lists (_batch s0)) = 1%nat.
Proof.
  eexists. split; [reflexivity|]. repeat (split; [reflexivity|]).
  split; [|split; [|split; [|split; [|split]]]].
  - intros k Hk. unfold _vertex_types in Hk.
    repeat (apply elem_of_cons in Hk as [->|Hk];
            [split; [|split]; eexists; reflexivity|]).
    inversion Hk.
  - intros k hd Hk E. unfold _vertex_types in Hk.
    repeat (apply elem_of_cons in Hk as [->|Hk]; [discriminate E|]).
    inversion Hk.
  - intros k Hk. unfold _vertex_types in Hk.
    repeat (apply elem_of_cons in Hk as [->|Hk]; [repeat split; reflexivity|]).
    inversion Hk.
  - exists O. split; reflexivity.
  - intros hd [vl Hvl]. cbn in Hvl |- *.
    destruct hd as [|n]; [lia|].
    rewrite lookup_insert_ne, lookup_empty in Hvl by discriminate.
    discriminate Hvl.
  - cbn. rewrite map_size_insert_None by apply lookup_empty.
    rewrite map_size_empty. reflexivity.
Qed.

(** ** Resizing and switching on *)

(** X26. With [w] and [h] not zero and the ["bg"] entry there, [on_resize]
    of a [GraphScreen] returns: the screen is a square of side [width], the
    bounding box is that of the refitted view, and the background is a new
    quad over this box in the colour of before. *)
Theorem on_resize_redraws_box (s : GraphScreen) (width height : Q) :
  ~ w (base s) == 0 -> ~ h (base s) == 0 ->
  is_Some (_vertex_lists (base s) !! "bg") ->
  exists s',
    Screen_on_resize base GraphScreen_set_bg resize width height s
    = (Ok tt, s') /\
    w (base s') = width /\ h (base s') = width /\
    gw s' = gw s * (width / w (base s)) /\
    gh s' = gh s * (width / h (base s)) /\
    box_fresh s' /\ bg (base s') = bg (base s) /\
    holds_list (base s') "bg"
      (mkVertexList 4 GL_QUADS
         [min_gx s'; min_gy s'; - (100); max_gx s'; min_gy s'; - (100);
          max_gx s'; max_gy s'; - (100); min_gx s'; max_gy s'; - (100)]
         (repeat_seq (bg (base s)) 4)).
Proof.
  intros Hw Hh [held Hbg].
  unfold Screen_on_resize, resize, refit, _set_graph_minmax, GraphScreen_set_bg.
  exec. divide. unfold getitem. cbn. rewrite Hbg.
  destruct held as [hd0|]; cbn; eexists; (split; [reflexivity|]); cbn;
    repeat (split; [reflexivity|]);
    (split; [unfold box_fresh; cbn; repeat split; reflexivity|]);
    (split; [reflexivity|]);
    eexists; cbn; rewrite !lookup_insert_eq; split; reflexivity.
Qed.

Lemma on_resize_redraws_box_witness :
  exists s',
    Screen_on_resize base GraphScreen_set_bg resize 200 50
      (snd (GraphScreen_init 0 0 100 100 0 0 10 10 (1 # 2) [0; 0; 0]%Z true true))
    = (Ok tt, s') /\
    w (base s') = 200 /\ h (base s') = 200 /\ box_fresh s'.
Proof.
  destruct (on_resize_redraws_box
              (snd (GraphScreen_init 0 0 100 100 0 0 10 10 (1 # 2) [0; 0; 0]%Z true true))
              200 50)
    as (s' & Hrun & H1 & H2 & _ & _ & H3 & _).
  - intros E. vm_compute in E. discriminate E.
  - intros E. vm_compute in E. discriminate E.
  - exists (Some O). reflexivity.
  - exists s'. exact (conj Hrun (conj H1 (conj H2 H3))).
Defined.

(** X27. On a [Screen2D] with the [render] of the base class and the
    ["bg"] entry there, [on] returns and leaves the screen active and
    visible, with the colour of before and a new background quad over its
    rectangle; the buffers are as before. *)
Theorem Screen2D_on_shows (s : Screen) :
  is_Some (_vertex_lists s !! "bg") ->
  exists s',
    Screen_on (fun s : Screen => s) (fun t _ => t) Screen2D_set_bg Screen_render s
    = (Ok tt, s') /\
    active s' = true /\ visible s' = true /\ bg s' = bg s /\
    holds_list s' "bg"
      (mkVertexList 4 GL_QUADS
         [0; 0; - (100); w s; 0; - (100); w s; h s; - (100); 0; h s; - (100)]
         (repeat_seq (bg s) 4)) /\
    _vertices s' = _vertices s /\ _colors s' = _colors s.
Proof.
  intros [held Hbg].
  unfold Screen_on, Screen_set_visible, Screen_set_active, on_screen_part, on_part,
    Screen_render, Screen2D_set_bg.
  exec. unfold getitem. cbn. rewrite Hbg.
  destruct held as [hd0|]; cbn; eexists; (split; [reflexivity|]); cbn;
    repeat (split; [reflexivity|]);
    (split; [|split; reflexivity]);
    eexists; cbn; rewrite !lookup_insert_eq; split; reflexivity.
Qed.

Lemma Screen2D_on_shows_witness :
  exists s',
    Screen_on (fun s : Screen => s) (fun t _ => t) Screen2D_set_bg Screen_render
      (snd (Screen2D_init 0 0 100 50 [7; 8; 9]%Z false false)) = (Ok tt, s') /\
    active s' = true /\ visible s' = true.
Proof.
  destruct (Screen2D_on_shows (snd (Screen2D_init 0 0 100 50 [7; 8; 9]%Z false false)))
    as (s' & Hrun & H1 & H2 & _).
  - exists (Some O). reflexivity.
  - exists s'. exact (conj Hrun (conj H1 H2)).
Defined.

(** ** A list under two kinds *)

(** X28. A list that stands under two kinds grows under both.  Let the
    list [l] be given to [set_points] and to [set_lines], with the colour
    lists [c1] and [c2] of its length, three distinct objects: both kinds
    have buffers of the same length.  An [add_point] with a colour of three
    components, not [l] itself, then returns, has appended the point to
    [l], and has left [c2] as it was: the buffers of ["points"] still have
    the same length, those of ["lines"] do not. *)
Theorem shared_list_unbalances (b : Buffers) (l c1 c2 color : ref) (px py pz : Q) :
  l <> c1 -> l <> c2 -> c1 <> c2 -> color <> l ->
  length (contents b c1) = length (contents b l) ->
  length (contents b c2) = length (contents b l) ->
  length (contents b color) = 3%nat ->
  exists b1 b2,
    (set_points_obj l c1 ;;; set_lines_obj l c2) b = (Ok tt, b1) /\
    balanced b1 "points" /\ balanced b1 "lines" /\
    Screen2D_add_point_obj px py pz color b1 = (Ok tt, b2) /\
    contents b2 l = contents b l ++ [px; py; pz] /\
    contents b2 c2 = contents b c2 /\
    balanced b2 "points" /\ ~ balanced b2 "lines".
Proof.
  intros H1 H2 H3 H4 L1 L2 L3.
  set (b1 := with__colors_obj (<["lines" := c2]> (<["points" := c1]> (_colors_obj b)))
               (with__vertices_obj
                  (<["lines" := l]> (<["points" := l]> (_vertices_obj b))) b)).
  assert (Hvp : _vertices_obj b1 !! "points" = Some l).
  { cbn. rewrite lookup_insert_ne by discriminate. apply lookup_insert_eq. }
  assert (Hvl : _vertices_obj b1 !! "lines" = Some l) by apply lookup_insert_eq.
  assert (Hcp : _colors_obj b1 !! "points" = Some c1).
  { cbn. rewrite lookup_insert_ne by discriminate. apply lookup_insert_eq. }
  assert (Hcl : _colors_obj b1 !! "lines" = Some c2) by apply lookup_insert_eq.
  assert (Hcon : contents b1 = contents b) by reflexivity.
  exists b1, (grow c1 (contents (grow l [px; py; pz] b1) color) (grow l [px; py; pz] b1)).
  split; [reflexivity|].
  split; [exists l, c1; rewrite Hcon; auto|].
  split; [exists l, c2; rewrite Hcon; auto|].
  split.
  { unfold Screen2D_add_point_obj.
    exact (extend_both_run "points" [px; py; pz] (fun b => contents b color) b1 l c1
             Hvp Hcp). }
  assert (Hl : forall xs, contents (grow c1 xs (grow l [px; py; pz] b1)) l
                          = contents b l ++ [px; py; pz]).
  { intros xs. rewrite contents_grow_ne by exact H1. rewrite contents_grow_eq, Hcon.
    reflexivity. }
  assert (Hc2 : forall xs, contents (grow c1 xs (grow l [px; py; pz] b1)) c2
                           = contents b c2).
  { intros xs. rewrite !contents_grow_ne by congruence. rewrite Hcon. reflexivity. }
  split; [apply Hl|]. split; [apply Hc2|].
  split.
  - exists l, c1. split; [exact Hvp|]. split; [exact Hcp|].
    rewrite Hl, contents_grow_eq, (contents_grow_ne l c1) by congruence.
    rewrite (contents_grow_ne l color) by exact H4.
    rewrite !length_app, Hcon, L1, L3. reflexivity.
  - intros (rv & rc & Hv & Hc & Hlen).
    change (_vertices_obj b1 !! "lines" = Some rv) in Hv.
    change (_colors_obj b1 !! "lines" = Some rc) in Hc.
    rewrite Hvl in Hv. rewrite Hcl in Hc. injection Hv as <-. injection Hc as <-.
    rewrite Hl, Hc2, length_app in Hlen. cbn in Hlen. lia.
Qed.

Lemma shared_list_unbalances_witness :
  exists b1 b2,
    (set_points_obj 0%nat 1%nat ;;; set_lines_obj 0%nat 2%nat)
      (mkBuffers (fun r => if decide (r = 3%nat) then [0; 0; 0]
                           else [1; 2; 3; 4; 5; 6]) 4%nat ∅ ∅) = (Ok tt, b1) /\
    Screen2D_add_point_obj 7 8 9 3%nat b1 = (Ok tt, b2) /\
    length (contents b2 0%nat) = 9%nat /\ length (contents b2 2%nat) = 6%nat /\
    ~ balanced b2 "lines".
Proof.
  destruct (shared_list_unbalances
              (mkBuffers (fun r => if decide (r = 3%nat) then [0; 0; 0]
                                   else [1; 2; 3; 4; 5; 6]) 4%nat ∅ ∅)
              0%nat 1%nat 2%nat 3%nat 7 8 9)
    as (b1 & b2 & Hset & _ & _ & Hadd & Hl & Hc & _ & Hun);
    try discriminate; try reflexivity.
  exists b1, b2. split; [exact Hset|]. split; [exact Hadd|].
  rewrite Hl, Hc. split; [reflexivity|]. split; [reflexivity|exact Hun].
Defined.
